(** * PaperGist front end: the orchestration logic of the browser client

    A shallow embedding of the client script (the front-end logic module with
    the operation lock, the content hasher, the upload pipeline and the view
    controller) and of the first version of the script (frontend/app.js, the
    poll loop), with the properties of the specification stated over it.

    Conventions of the embedding
    - A JavaScript string is the list of its UTF-16 code units.
    - A value that comes from JSON is a [JsVal]; an object is the list of its
      own properties in insertion order.
    - The host (browser built-ins, the network, pdf.js, mammoth, html2pdf, the
      clock) is a record [Env] that every function takes as a parameter.
    - Statements run in a small monad over the [World] (the script's global
      variables, the part of the page the script addresses, and the trace of
      the effects that leave the script) whose results are ECMAScript
      completions: normal, [return], or [throw].
    - An [async] function is run to completion at its call: the suspension at
      an [await] is not modelled, so no other handler runs in between.
    - A number is an integer; the page index is the only one the script
      computes with.
    - The elements that the script looks up exist on the page.
    - [console.log] and [console.error], and the timers that fade a toast in
      and out, have no effect on the world and are left out. *)

From Stdlib Require Import List ZArith NArith Bool Ascii String DecimalString
  HexadecimalString Lia.
Import ListNotations.

Set Implicit Arguments.
Set Warnings "-register-all".

(* ------------------------------------------------------------------------- *)
(** ** Strings *)

Definition jsstring := list N.

Definition js (s : string) : jsstring :=
  map N_of_ascii (list_ascii_of_string s).

Fixpoint jseqb (a b : jsstring) : bool :=
  match a, b with
  | [], [] => true
  | x :: a', y :: b' => N.eqb x y && jseqb a' b'
  | _, _ => false
  end.

(** [s.startsWith(p)] *)
Fixpoint startsWith (p s : jsstring) : bool :=
  match p, s with
  | [], _ => true
  | x :: p', y :: s' => N.eqb x y && startsWith p' s'
  | _ :: _, [] => false
  end.

(** [s.includes(p)] *)
Fixpoint includes (p s : jsstring) : bool :=
  startsWith p s ||
  match s with
  | [] => false
  | _ :: s' => includes p s'
  end.

(** The characters matched by [\s] and removed by [trim]: the WhiteSpace and
    LineTerminator productions of ECMAScript. *)
Definition isWhiteSpace (c : N) : bool :=
  let z := Z.of_N c in
  ((9 <=? z) && (z <=? 13) || (z =? 32) || (z =? 160) || (z =? 5760)
   || ((8192 <=? z) && (z <=? 8202)) || (z =? 8232) || (z =? 8233)
   || (z =? 8239) || (z =? 8287) || (z =? 12288) || (z =? 65279))%Z.

(** [s.replace(/[class]+/g, repl)]: every maximal run of characters of the
    class is replaced by [repl]; [in_run] tells that the previous character
    belonged to the run being replaced. *)
Fixpoint replace_runs (cls : N -> bool) (repl : jsstring) (in_run : bool)
    (s : jsstring) : jsstring :=
  match s with
  | [] => []
  | c :: t =>
      if cls c
      then (if in_run then [] else repl) ++ replace_runs cls repl true t
      else c :: replace_runs cls repl false t
  end.

(** [s.replace(/c/g, repl)] for a single character [c]. *)
Fixpoint replace_each (c : N) (repl : jsstring) (s : jsstring) : jsstring :=
  match s with
  | [] => []
  | x :: t => (if N.eqb x c then repl else [x]) ++ replace_each c repl t
  end.

Fixpoint trimStart (s : jsstring) : jsstring :=
  match s with
  | c :: t => if isWhiteSpace c then trimStart t else s
  | [] => []
  end.

(** [s.trim()] *)
Definition trim (s : jsstring) : jsstring :=
  rev (trimStart (rev (trimStart s))).

(** [a.join(sep)] on an array of strings. *)
Fixpoint join (sep : jsstring) (l : list jsstring) : jsstring :=
  match l with
  | [] => []
  | [x] => x
  | x :: t => x ++ sep ++ join sep t
  end.

(** The ASCII part of [toLowerCase], used where a development needs a
    concrete host; it agrees with the built-in on ASCII text. *)
Definition ascii_lower (s : jsstring) : jsstring :=
  map (fun c => if (65 <=? c)%N && (c <=? 90)%N then (c + 32)%N else c) s.

(* ------------------------------------------------------------------------- *)
(** ** JSON values *)

Inductive JsVal : Type :=
| JUndefined
| JNull
| JBool (b : bool)
| JNum (z : Z)
| JStr (s : jsstring)
| JArr (l : list JsVal)
| JObj (fields : list (jsstring * JsVal)).

(** ToBoolean *)
Definition truthy (v : JsVal) : bool :=
  match v with
  | JUndefined | JNull => false
  | JBool b => b
  | JNum z => negb (z =? 0)%Z
  | JStr s => match s with [] => false | _ => true end
  | JArr _ | JObj _ => true
  end.

Fixpoint lookup (k : jsstring) (fields : list (jsstring * JsVal)) : JsVal :=
  match fields with
  | [] => JUndefined
  | (k', v) :: t => if jseqb k k' then v else lookup k t
  end.

(** [o.k = v] on an object: an existing property keeps its place. *)
Fixpoint assign (k : jsstring) (v : JsVal) (fields : list (jsstring * JsVal))
    : list (jsstring * JsVal) :=
  match fields with
  | [] => [(k, v)]
  | (k', v') :: t => if jseqb k k' then (k, v) :: t else (k', v') :: assign k v t
  end.

(** Thrown values. *)
Inductive ErrKind := TypeError | ReferenceError | PlainError | HostError.
Record Err := mkErr { err_kind : ErrKind; err_message : jsstring }.

(* ------------------------------------------------------------------------- *)
(** ** The host *)

Definition Blob := list Byte.byte.

Record TextItem := { str : jsstring; hasEOL : bool }.

(** What pdf.js makes of a payload: [None] when [getDocument] rejects;
    otherwise the pages, each with the result of [getTextContent]
    ([None] when it rejects). *)
Definition PdfDocument := list (option (list TextItem)).

(** A reply to [fetch]: the request fails, or a response arrives with its
    [ok] flag and the value of [response.json()] ([None] when the body is not
    JSON and the call rejects). *)
Inductive FetchReply :=
| NetFail (e : Err)
| Reply (ok : bool) (body : option JsVal).

Record File := { file_name : jsstring; file_data : Blob }.

Record Env := {
  toLowerCase : jsstring -> jsstring;
  pdfjsLib : option (Blob -> option PdfDocument);
  net_search : jsstring -> Z -> jsstring -> FetchReply;
  net_paper : JsVal -> FetchReply;
  net_hash : jsstring -> FetchReply;
  net_enqueue : JsVal -> FetchReply;
  net_put : jsstring -> Blob -> FetchReply;
  mammoth_convertToHtml : Blob -> option jsstring;
  html2pdf : jsstring -> option Blob;
  file_text : Blob -> jsstring;
  Date_now : jsstring;
  Date_toISOString : jsstring;
  generateUUID : jsstring;
  pushState_throws : bool;
  (* [window.location.origin] and [window.location.pathname] at the page of
     address [href], and the address of the page after
     [history.pushState({}, '', url)] there: the browser parses [url]. *)
  location_origin : jsstring -> jsstring;
  location_pathname : jsstring -> jsstring;
  pushState_href : jsstring -> jsstring -> jsstring
}.

(* ------------------------------------------------------------------------- *)
(** ** ContentHasher *)

Module Hasher.

(** [generatePdfHash]: the body of the [try]; [None] stands for a throw,
    which the [catch] turns into [null]. *)
Definition hash_body (env : Env) (pdfData : Blob) : option jsstring :=
  match pdfjsLib env with
  | None => None                                   (* PDF.js library not loaded *)
  | Some getDocument =>
      match getDocument pdfData with
      | None => None
      | Some pdf =>
          match nth_error pdf 0 with               (* pdf.getPage(1) *)
          | None => None
          | Some None => None                      (* getTextContent rejects *)
          | Some (Some items) =>
              let textItems := map str items in
              let text := join [] textItems in
              let hashStr :=
                toLowerCase env
                  (replace_runs isWhiteSpace [] false (firstn 48 text)) in
              Some hashStr
          end
      end
  end.

Definition generatePdfHash (env : Env) (pdfData : Blob) : option jsstring :=
  match hash_body env pdfData with
  | Some h => Some h
  | None => None                                   (* catch: return null *)
  end.

(** The reference definition, in the words of the specification. *)

(** The text runs of the first page, when the payload is supported and well
    formed. *)
Definition first_page_runs (env : Env) (payload : Blob)
    : option (list jsstring) :=
  match pdfjsLib env with
  | Some parse =>
      match parse payload with
      | Some (Some items :: _) => Some (map str items)
      | _ => None
      end
  | None => None
  end.

Definition strip_whitespace (s : jsstring) : jsstring :=
  filter (fun c => negb (isWhiteSpace c)) s.

Definition reference_fingerprint (env : Env) (runs : list jsstring) : jsstring :=
  toLowerCase env (strip_whitespace (firstn 48 (List.concat runs))).

Definition reference_hasher (env : Env) (payload : Blob) : option jsstring :=
  match first_page_runs env payload with
  | Some runs => Some (reference_fingerprint env runs)
  | None => None
  end.

End Hasher.

(* ------------------------------------------------------------------------- *)
(** ** More of the language: conversions and the patterns the script uses *)

Definition decimal (z : Z) : jsstring :=
  js (DecimalString.NilZero.string_of_int (Z.to_int z)).

(** ToString, as a template literal applies it. *)
Fixpoint ToString (v : JsVal) : jsstring :=
  match v with
  | JUndefined => js "undefined"
  | JNull => js "null"
  | JBool true => js "true"
  | JBool false => js "false"
  | JNum z => decimal z
  | JStr s => s
  | JArr l =>
      (fix elements (l : list JsVal) : jsstring :=
         let element x :=
           match x with JUndefined | JNull => [] | _ => ToString x end in
         match l with
         | [] => []
         | [x] => element x
         | x :: t => element x ++ js "," ++ elements t
         end) l
  | JObj _ => js "[object Object]"
  end.

(** [s.replace(/'/g, "&apos;")] *)
Definition escape_apostrophes (s : jsstring) : jsstring :=
  replace_each 39%N (js "&apos;") s.

(** [JSON.parse(JSON.stringify(v).replace(/'/g, "&apos;"))]: what the
    [data-paper] attribute of a summarize button gives back. Properties whose
    value is [undefined] are not serialised, and the apostrophes of every
    string and key come back as the six characters of the entity. *)
Fixpoint data_paper_value (v : JsVal) : JsVal :=
  match v with
  | JUndefined => JNull
  | JStr s => JStr (escape_apostrophes s)
  | JArr l => JArr (map data_paper_value l)
  | JObj fields =>
      JObj ((fix props (fs acc : list (jsstring * JsVal)) :=
               match fs with
               | [] => acc
               | (k, x) :: t =>
                   props t
                     match x with
                     | JUndefined => acc
                     | _ => assign (escape_apostrophes k) (data_paper_value x) acc
                     end
               end) fields [])
  | _ => v
  end.

Definition nonempty (s : jsstring) : bool :=
  match s with [] => false | _ => true end.

(** [s.split(p)[0]] *)
Fixpoint before_first (p s : jsstring) : jsstring :=
  match s with
  | [] => []
  | c :: t => if startsWith p s then [] else c :: before_first p t
  end.

(** [url.match(/\/paper\/([^\/]+)$/)], its first group: the leftmost place
    where [/paper/] is followed by one or more characters other than [/] up
    to the end. *)
Fixpoint match_paper_id (url : jsstring) : option jsstring :=
  let rest := skipn 7 url in
  if startsWith (js "/paper/") url && nonempty rest
     && forallb (fun c => negb (c =? 47)%N) rest
  then Some rest
  else match url with
       | [] => None
       | _ :: t => match_paper_id t
       end.

(** [name.split('.').pop()] *)
Definition last_segment (name : jsstring) : jsstring :=
  fold_left (fun acc c => if (c =? 46)%N then [] else acc ++ [c]) name [].

(** [name.replace(/\.[^/.]+$/, "")] *)
Fixpoint strip_extension (name : jsstring) : jsstring :=
  match name with
  | [] => []
  | c :: t =>
      if (c =? 46)%N && nonempty t
         && forallb (fun x => negb (x =? 47)%N && negb (x =? 46)%N) t
      then []
      else c :: strip_extension t
  end.

(* ------------------------------------------------------------------------- *)
(** ** The world: global variables, the page, and the trace *)

Inductive View := search | paper | uploads.

(** State management: the [let] declarations at the top of the script. *)
Record Globals := mkGlobals {
  currentPage : Z;
  currentQuery : jsstring;
  currentSortBy : jsstring;
  hasNextPage : JsVal;
  currentView : View;
  currentPaperData : JsVal;
  myUploads : list JsVal;
  isApiCallInProgress : bool
}.

Inductive Display := css_default | d_none | d_block | d_flex.

(** The elements whose [style.display] the script sets. *)
Inductive Region :=
| paperView | searchSection | resultsSection | summarySection
| pagination | searchLoadingIndicator | uploadModal | errorModal.

(** Modelled from the spec: the markup of the page is not among the sources.
    The controls that the script addresses by name are the interactive
    controls of the specification (buttons, inputs, selects): [button],
    [input] and [select] elements, none of class [close], so that the
    selectors of [disableAllUIInteractions] and [enableAllUIInteractions]
    reach each of them. *)
Inductive Control :=
| searchInput | uploadInput | sortBySelect
| searchButton | prevPageButton | nextPageButton | returnToSearchBtn
| uploadButton.

(** The [id] under which the script looks each control up. *)
Definition element_id (c : Control) : jsstring :=
  match c with
  | searchInput => js "searchInput"
  | uploadInput => js "uploadInput"
  | sortBySelect => js "sortBy"
  | searchButton => js "searchButton"
  | prevPageButton => js "prevPage"
  | nextPageButton => js "nextPage"
  | returnToSearchBtn => js "returnToSearch"
  | uploadButton => js "uploadButton"
  end.

Definition all_controls : list Control :=
  [searchInput; uploadInput; sortBySelect; searchButton; prevPageButton;
   nextPageButton; returnToSearchBtn; uploadButton].

Definition Region_eq_dec (a b : Region) : {a = b} + {a <> b}.
Proof. decide equality. Defined.

Definition Control_eq_dec (a b : Control) : {a = b} + {a <> b}.
Proof. decide equality. Defined.

Record SummarizeButton := mkButton {
  loading : bool;                 (* class [loading] *)
  button_disabled : bool;
  data_paper : JsVal              (* the attribute, as [JSON.parse] reads it *)
}.

Record PaperCard := mkCard {
  card_paper : JsVal;             (* the [paper] the click handler closes over *)
  card_button : SummarizeButton
}.

(** The children of [resultsContainer]. *)
Inductive Node :=
| PaperCardNode (c : PaperCard)
| UploadsListNode (cards : list JsVal).

Inductive Tab := searchTab | uploadsTab.

Record PaperMarkup := mkMarkup {
  markup_title : JsVal;
  markup_authors : jsstring;
  markup_summary : jsstring
}.

Record StepClass := mkStep { step_active : bool; step_completed : bool }.

Record Dom := mkDom {
  display : Region -> Display;
  disabled : Control -> bool;
  searchInput_value : jsstring;
  sortBySelect_value : jsstring;
  uploadInput_files : option File;
  uploadButton_loading : bool;
  pageInfo : jsstring;
  resultsContainer : list Node;
  paperContent : option PaperMarkup;
  activeTab : option Tab;
  uploadStep1 : StepClass;
  uploadStep2 : StepClass;
  uploadStep3 : StepClass;
  uploadStatus : jsstring;
  location_href : jsstring
}.

Inductive ToastType := info | error | success.

Inductive Request :=
| GetSearch (query : jsstring) (page : Z) (sort_by : jsstring)
| GetPaper (id : JsVal)
| PostHash (hashId : jsstring)
| PostEnqueue (body : JsVal)
| PutArtifact (url : jsstring) (body : Blob).

(** What leaves the script. *)
Inductive Effect :=
| Toast (message : JsVal) (type : ToastType)
| Fetch (r : Request)
| PushState (url : jsstring)
| StorageSet (uploads : list JsVal)
| CloseUploadLater (delay : Z) (f : File) (fileUrl : jsstring)
| OpenFilePicker
| UnhandledRejection (e : Err)
| UncaughtError (e : Err).

Record World := mkWorld {
  globals : Globals;
  dom : Dom;
  trace : list Effect
}.

Definition set_currentPage (v : Z) (g : Globals) : Globals :=
  mkGlobals v (currentQuery g) (currentSortBy g) (hasNextPage g)
    (currentView g) (currentPaperData g) (myUploads g) (isApiCallInProgress g).

Definition set_currentQuery (v : jsstring) (g : Globals) : Globals :=
  mkGlobals (currentPage g) v (currentSortBy g) (hasNextPage g)
    (currentView g) (currentPaperData g) (myUploads g) (isApiCallInProgress g).

Definition set_currentSortBy (v : jsstring) (g : Globals) : Globals :=
  mkGlobals (currentPage g) (currentQuery g) v (hasNextPage g)
    (currentView g) (currentPaperData g) (myUploads g) (isApiCallInProgress g).

Definition set_hasNextPage (v : JsVal) (g : Globals) : Globals :=
  mkGlobals (currentPage g) (currentQuery g) (currentSortBy g) v
    (currentView g) (currentPaperData g) (myUploads g) (isApiCallInProgress g).

Definition set_currentView (v : View) (g : Globals) : Globals :=
  mkGlobals (currentPage g) (currentQuery g) (currentSortBy g) (hasNextPage g)
    v (currentPaperData g) (myUploads g) (isApiCallInProgress g).

Definition set_currentPaperData (v : JsVal) (g : Globals) : Globals :=
  mkGlobals (currentPage g) (currentQuery g) (currentSortBy g) (hasNextPage g)
    (currentView g) v (myUploads g) (isApiCallInProgress g).

Definition set_myUploads (v : list JsVal) (g : Globals) : Globals :=
  mkGlobals (currentPage g) (currentQuery g) (currentSortBy g) (hasNextPage g)
    (currentView g) (currentPaperData g) v (isApiCallInProgress g).

Definition set_isApiCallInProgress (v : bool) (g : Globals) : Globals :=
  mkGlobals (currentPage g) (currentQuery g) (currentSortBy g) (hasNextPage g)
    (currentView g) (currentPaperData g) (myUploads g) v.

Definition set_display (r : Region) (v : Display) (d : Dom) : Dom :=
  mkDom (fun r' => if Region_eq_dec r' r then v else display d r')
    (disabled d) (searchInput_value d) (sortBySelect_value d)
    (uploadInput_files d) (uploadButton_loading d) (pageInfo d)
    (resultsContainer d) (paperContent d) (activeTab d) (uploadStep1 d)
    (uploadStep2 d) (uploadStep3 d) (uploadStatus d) (location_href d).

Definition set_all_disabled (f : Control -> bool) (d : Dom) : Dom :=
  mkDom (display d) f (searchInput_value d) (sortBySelect_value d)
    (uploadInput_files d) (uploadButton_loading d) (pageInfo d)
    (resultsContainer d) (paperContent d) (activeTab d) (uploadStep1 d)
    (uploadStep2 d) (uploadStep3 d) (uploadStatus d) (location_href d).

Definition set_disabled (c : Control) (v : bool) (d : Dom) : Dom :=
  set_all_disabled (fun c' => if Control_eq_dec c' c then v else disabled d c') d.

Definition set_searchInput_value (v : jsstring) (d : Dom) : Dom :=
  mkDom (display d) (disabled d) v (sortBySelect_value d)
    (uploadInput_files d) (uploadButton_loading d) (pageInfo d)
    (resultsContainer d) (paperContent d) (activeTab d) (uploadStep1 d)
    (uploadStep2 d) (uploadStep3 d) (uploadStatus d) (location_href d).

Definition set_uploadInput_files (v : option File) (d : Dom) : Dom :=
  mkDom (display d) (disabled d) (searchInput_value d) (sortBySelect_value d)
    v (uploadButton_loading d) (pageInfo d)
    (resultsContainer d) (paperContent d) (activeTab d) (uploadStep1 d)
    (uploadStep2 d) (uploadStep3 d) (uploadStatus d) (location_href d).

Definition set_uploadButton_loading (v : bool) (d : Dom) : Dom :=
  mkDom (display d) (disabled d) (searchInput_value d) (sortBySelect_value d)
    (uploadInput_files d) v (pageInfo d)
    (resultsContainer d) (paperContent d) (activeTab d) (uploadStep1 d)
    (uploadStep2 d) (uploadStep3 d) (uploadStatus d) (location_href d).

Definition set_pageInfo (v : jsstring) (d : Dom) : Dom :=
  mkDom (display d) (disabled d) (searchInput_value d) (sortBySelect_value d)
    (uploadInput_files d) (uploadButton_loading d) v
    (resultsContainer d) (paperContent d) (activeTab d) (uploadStep1 d)
    (uploadStep2 d) (uploadStep3 d) (uploadStatus d) (location_href d).

Definition set_resultsContainer (v : list Node) (d : Dom) : Dom :=
  mkDom (display d) (disabled d) (searchInput_value d) (sortBySelect_value d)
    (uploadInput_files d) (uploadButton_loading d) (pageInfo d)
    v (paperContent d) (activeTab d) (uploadStep1 d)
    (uploadStep2 d) (uploadStep3 d) (uploadStatus d) (location_href d).

Definition set_paperContent (v : option PaperMarkup) (d : Dom) : Dom :=
  mkDom (display d) (disabled d) (searchInput_value d) (sortBySelect_value d)
    (uploadInput_files d) (uploadButton_loading d) (pageInfo d)
    (resultsContainer d) v (activeTab d) (uploadStep1 d)
    (uploadStep2 d) (uploadStep3 d) (uploadStatus d) (location_href d).

Definition set_activeTab (v : option Tab) (d : Dom) : Dom :=
  mkDom (display d) (disabled d) (searchInput_value d) (sortBySelect_value d)
    (uploadInput_files d) (uploadButton_loading d) (pageInfo d)
    (resultsContainer d) (paperContent d) v (uploadStep1 d)
    (uploadStep2 d) (uploadStep3 d) (uploadStatus d) (location_href d).

Definition set_uploadSteps (s1 s2 s3 : StepClass) (d : Dom) : Dom :=
  mkDom (display d) (disabled d) (searchInput_value d) (sortBySelect_value d)
    (uploadInput_files d) (uploadButton_loading d) (pageInfo d)
    (resultsContainer d) (paperContent d) (activeTab d) s1 s2 s3
    (uploadStatus d) (location_href d).

Definition set_uploadStatus (v : jsstring) (d : Dom) : Dom :=
  mkDom (display d) (disabled d) (searchInput_value d) (sortBySelect_value d)
    (uploadInput_files d) (uploadButton_loading d) (pageInfo d)
    (resultsContainer d) (paperContent d) (activeTab d) (uploadStep1 d)
    (uploadStep2 d) (uploadStep3 d) v (location_href d).

Definition set_location_href (v : jsstring) (d : Dom) : Dom :=
  mkDom (display d) (disabled d) (searchInput_value d) (sortBySelect_value d)
    (uploadInput_files d) (uploadButton_loading d) (pageInfo d)
    (resultsContainer d) (paperContent d) (activeTab d) (uploadStep1 d)
    (uploadStep2 d) (uploadStep3 d) (uploadStatus d) v.

(* ------------------------------------------------------------------------- *)
(** ** Statements: a state monad with completions *)

Inductive Completion (R A : Type) : Type :=
| Normal (a : A)
| Return (r : R)
| Throw (e : Err).

Arguments Normal {R A} a.
Arguments Return {R A} r.
Arguments Throw {R A} e.

Definition Stmt (S R A : Type) : Type := S -> Completion R A * S.

Definition ret {S R A : Type} (a : A) : Stmt S R A := fun w => (Normal a, w).

Definition bind {S R A B : Type} (m : Stmt S R A) (k : A -> Stmt S R B) : Stmt S R B :=
  fun w =>
    match m w with
    | (Normal a, w') => k a w'
    | (Return r, w') => (Return r, w')
    | (Throw e, w') => (Throw e, w')
    end.

Declare Scope stmt_scope.
Delimit Scope stmt_scope with stmt.
Notation "x <- m ;; k" := (bind m (fun x => k))
  (at level 100, m at next level, right associativity) : stmt_scope.
Notation "m ;; k" := (bind m (fun _ => k))
  (at level 100, right associativity) : stmt_scope.
Open Scope stmt_scope.

Definition throw {S R A : Type} (e : Err) : Stmt S R A := fun w => (Throw e, w).

(** The [return] statement. *)
Definition return_ {S R A : Type} (r : R) : Stmt S R A := fun w => (Return r, w).

Definition read {S R : Type} : Stmt S R S := fun w => (Normal w, w).

(** Statements of the script. *)
Definition M (R A : Type) : Type := Stmt World R A.

Definition update_globals {R : Type} (f : Globals -> Globals) : M R unit :=
  fun w => (Normal tt, mkWorld (f (globals w)) (dom w) (trace w)).

Definition update_dom {R : Type} (f : Dom -> Dom) : M R unit :=
  fun w => (Normal tt, mkWorld (globals w) (f (dom w)) (trace w)).

Definition emit {R : Type} (e : Effect) : M R unit :=
  fun w => (Normal tt, mkWorld (globals w) (dom w) (trace w ++ [e])).

Definition when {S R : Type} (c : bool) (m : Stmt S R unit) : Stmt S R unit :=
  if c then m else ret tt.

(** [try { body } catch (e) { handler }] *)
Definition try_catch {S R A : Type} (body : Stmt S R A) (handler : Err -> Stmt S R A)
    : Stmt S R A :=
  fun w =>
    match body w with
    | (Throw e, w') => handler e w'
    | other => other
    end.

(** [try { body } finally { finalizer }]: the finalizer runs after every
    completion of the body, and an abrupt completion of the finalizer
    replaces the one of the body. *)
Definition try_finally {S R A : Type} (body : Stmt S R A) (finalizer : Stmt S R unit)
    : Stmt S R A :=
  fun w =>
    let (c, w1) := body w in
    match finalizer w1 with
    | (Normal _, w2) => (c, w2)
    | (Return r, w2) => (Return r, w2)
    | (Throw e, w2) => (Throw e, w2)
    end.

(** A call: the body of the callee runs, and its [return] ends there. The
    value of a body that completes normally is the value of the call. *)
Definition call {S R R' : Type} (body : Stmt S R' R') : Stmt S R R' :=
  fun w =>
    match body w with
    | (Normal a, w') => (Normal a, w')
    | (Return r, w') => (Normal r, w')
    | (Throw e, w') => (Throw e, w')
    end.

(** A call of an [async] function whose promise nobody awaits: a throw of
    the callee does not reach the caller. *)
Definition spawn {R : Type} (body : M unit unit) : M R unit :=
  fun w =>
    match body w with
    | (Throw e, w') => emit (UnhandledRejection e) w'
    | (_, w') => (Normal tt, w')
    end.

Fixpoint for_each {S R A : Type} (l : list A) (f : A -> Stmt S R unit) : Stmt S R unit :=
  match l with
  | [] => ret tt
  | x :: t => f x ;; for_each t f
  end.

(** Property access [v.k]. *)
Definition get {S R : Type} (v : JsVal) (k : string) : Stmt S R JsVal :=
  match v with
  | JUndefined | JNull =>
      throw (mkErr TypeError (js "Cannot read properties of " ++ ToString v))
  | JObj fields => ret (lookup (js k) fields)
  | _ => ret JUndefined
  end.

(** [o.k = v] *)
Definition set_prop (o : JsVal) (k : string) (v : JsVal) : JsVal :=
  match o with
  | JObj fields => JObj (assign (js k) v fields)
  | _ => o
  end.

Definition not_a_function {S R A : Type} (name : string) : Stmt S R A :=
  throw (mkErr TypeError (js name ++ js " is not a function")).

(** [v.trim()] *)
Definition method_trim {S R : Type} (v : JsVal) : Stmt S R jsstring :=
  match v with
  | JStr s => ret (trim s)
  | _ => not_a_function "trim"
  end.

(** [v.startsWith(p)] *)
Definition method_startsWith {S R : Type} (v : JsVal) (p : jsstring) : Stmt S R bool :=
  match v with
  | JStr s => ret (startsWith p s)
  | _ => not_a_function "startsWith"
  end.

(** [v.includes(p)], of a string or of an array. *)
Definition method_includes {S R : Type} (v : JsVal) (p : jsstring) : Stmt S R bool :=
  match v with
  | JStr s => ret (includes p s)
  | JArr l =>
      ret (existsb (fun x => match x with JStr s => jseqb s p | _ => false end) l)
  | _ => not_a_function "includes"
  end.

(** [a.join(sep)] *)
Definition array_join (sep : jsstring) (l : list JsVal) : jsstring :=
  join sep
    (map (fun x => match x with JUndefined | JNull => [] | _ => ToString x end) l).

Definition method_join {S R : Type} (v : JsVal) (sep : jsstring) : Stmt S R jsstring :=
  match v with
  | JArr l => ret (array_join sep l)
  | _ => not_a_function "join"
  end.

Definition is_true (v : JsVal) : bool :=
  match v with JBool true => true | _ => false end.

Definition is_false (v : JsVal) : bool :=
  match v with JBool false => true | _ => false end.

(* ------------------------------------------------------------------------- *)
(** ** The script *)

Definition wait_message : JsVal :=
  JStr (js "Please wait for the current operation to complete").

(** What [window.name] evaluates to. The variables of the script are declared
    with [let] and [const], which create no property of the global object;
    the elements of the page are properties of it under their ids. *)
Inductive WindowValue := WUndefined | WElement (c : Control).

Definition window_property (name : jsstring) : WindowValue :=
  match find (fun c => jseqb (element_id c) name) all_controls with
  | Some c => WElement c
  | None => WUndefined
  end.

(** [window.name === 0]: neither an element nor [undefined] is the number. *)
Definition window_is_zero (v : WindowValue) : bool := false.

(** [!window.name] *)
Definition window_not (v : WindowValue) : bool :=
  match v with WUndefined => true | WElement _ => false end.

Definition map_buttons (f : SummarizeButton -> SummarizeButton)
    (nodes : list Node) : list Node :=
  map (fun n =>
         match n with
         | PaperCardNode c => PaperCardNode (mkCard (card_paper c) (f (card_button c)))
         | UploadsListNode cards => UploadsListNode cards
         end) nodes.

Fixpoint map_nth {A : Type} (f : A -> A) (i : nat) (l : list A) : list A :=
  match l, i with
  | [], _ => []
  | x :: t, O => f x :: t
  | x :: t, S j => x :: map_nth f j t
  end.

Section Script.

Variable env : Env.

Definition showToast {R : Type} (message : JsVal) (type : ToastType) : M R unit :=
  emit (Toast message type).

(** [document.querySelectorAll('button:not(.close)')], [('input')] and
    [('select')]: the named controls and the summarize buttons of the cards. *)
Definition disableAllUIInteractions {R : Type} : M R unit :=
  update_dom (fun d =>
    set_resultsContainer
      (map_buttons (fun b => mkButton (loading b) true (data_paper b))
         (resultsContainer d))
      (set_all_disabled (fun _ => true) d)).

Definition enableAllUIInteractions {R : Type} : M R unit :=
  (* Enable all elements first *)
  update_dom (fun d =>
    set_resultsContainer
      (map_buttons (fun b => mkButton (loading b) false (data_paper b))
         (resultsContainer d))
      (set_all_disabled (fun _ => false) d)) ;;
  (* Then apply specific state rules *)
  match window_property (js "prevPageButton") with
  | WElement c =>
      update_dom (set_disabled c (window_is_zero (window_property (js "currentPage"))))
  | WUndefined => ret tt
  end ;;
  match window_property (js "nextPageButton") with
  | WElement c =>
      update_dom (set_disabled c (window_not (window_property (js "hasNextPage"))))
  | WUndefined => ret tt
  end ;;
  (* Re-enable summarize buttons that aren't loading *)
  update_dom (fun d =>
    set_resultsContainer
      (map_buttons (fun b =>
                      if loading b then b
                      else mkButton (loading b) false (data_paper b))
         (resultsContainer d)) d).

Definition setApiCallState {R : Type} (inProgress : bool) : M R unit :=
  update_globals (set_isApiCallInProgress inProgress) ;;
  if inProgress then disableAllUIInteractions else enableAllUIInteractions.

Definition addUploadToStorage {R : Type} (uploadData : JsVal) : M R unit :=
  update_globals (fun g => set_myUploads (myUploads g ++ [uploadData]) g) ;;
  w <- read ;;
  emit (StorageSet (myUploads (globals w))).

Definition reply_of (r : Request) : FetchReply :=
  match r with
  | GetSearch query page sort_by => net_search env query page sort_by
  | GetPaper id => net_paper env id
  | PostHash hashId => net_hash env hashId
  | PostEnqueue body => net_enqueue env body
  | PutArtifact url body => net_put env url body
  end.

(** [await fetch(...)]: the request leaves, and the reply of the host
    settles the promise. *)
Definition fetch {R : Type} (r : Request) : M R (bool * option JsVal) :=
  emit (Fetch r) ;;
  match reply_of r with
  | NetFail e => throw e
  | Reply ok body => ret (ok, body)
  end.

(** [await response.json()] *)
Definition json {R : Type} (response : bool * option JsVal) : M R JsVal :=
  match snd response with
  | Some data => ret data
  | None => throw (mkErr HostError (js "Unexpected token in JSON"))
  end.

Definition checkPaperHashExists {R : Type} (hash : jsstring) : M R JsVal :=
  call
    (try_catch
       (response <- fetch (PostHash hash) ;;
        when (negb (fst response)) (return_ JNull) ;;
        data <- json response ;;
        (if truthy data
         then (id <- get data "arxiv_id" ;; when (truthy id) (return_ data))
         else ret tt) ;;
        return_ JNull)
       (fun _ => return_ JNull)).

Definition sanitizeArxivId {R : Type} (arxivId : JsVal) : M R JsVal :=
  match arxivId with
  | JStr s => ret (JStr (replace_each 47%N (js "-") s))
  | JUndefined | JNull =>
      throw (mkErr TypeError (js "Cannot read properties of " ++ ToString arxivId))
  | _ => not_a_function "replace"
  end.

Definition isFileProtocol (w : World) : bool :=
  startsWith (js "file:") (location_href (dom w)).

(** [window.history.pushState({}, '', url)] *)
Definition pushState {R : Type} (url : jsstring) : M R unit :=
  if pushState_throws env
  then throw (mkErr HostError (js "SecurityError"))
  else (emit (PushState url) ;;
        update_dom (fun d =>
          set_location_href (pushState_href env (location_href d) url) d)).

(** [`${window.location.origin}${window.location.pathname}/paper/${id}`] *)
Definition paper_url (w : World) (id : JsVal) : jsstring :=
  location_origin env (location_href (dom w))
  ++ location_pathname env (location_href (dom w))
  ++ js "/paper/" ++ ToString id.

Definition show_pagination {R : Type} : M R unit :=
  w <- read ;;
  match currentView (globals w), nonempty (currentQuery (globals w)) with
  | search, true => update_dom (set_display pagination d_flex)
  | _, _ => update_dom (set_display pagination d_none)
  end.

Definition createPaperCard {R : Type} (paper : JsVal) : M R PaperCard :=
  id <- get paper "arxiv_id" ;;
  paper <- (if truthy id
            then (let paper := set_prop paper "original_arxiv_id" id in
                  sanitized <- sanitizeArxivId id ;;
                  ret (set_prop paper "sanitized_arxiv_id" sanitized))
            else ret paper) ;;
  _ <- get paper "title" ;;
  authors <- get paper "authors" ;;
  _ <- method_join authors (js ", ") ;;
  ret (mkCard paper (mkButton false false (data_paper_value paper))).

Definition setButtonLoading {R : Type} (button : nat) (isLoading : bool) : M R unit :=
  update_dom (fun d =>
    set_resultsContainer
      (map_nth (fun n =>
                  match n with
                  | PaperCardNode c =>
                      PaperCardNode
                        (mkCard (card_paper c)
                           (mkButton isLoading isLoading (data_paper (card_button c))))
                  | UploadsListNode cards => UploadsListNode cards
                  end) button (resultsContainer d)) d).

Definition displayResults {R : Type} (data : JsVal) : M R unit :=
  show_pagination ;;
  update_dom (set_resultsContainer []) ;;
  papers <- get data "papers" ;;
  match papers with
  | JArr l =>
      for_each l (fun paper =>
        id <- get paper "arxiv_id" ;;
        manual <- (if truthy id
                   then method_startsWith id (js "manual-upload-")
                   else ret false) ;;
        if manual then ret tt
        else (paperCard <- createPaperCard paper ;;
              update_dom (fun d =>
                set_resultsContainer
                  (resultsContainer d ++ [PaperCardNode paperCard]) d)))
  | JUndefined | JNull =>
      throw (mkErr TypeError (js "Cannot read properties of " ++ ToString papers))
  | _ => not_a_function "forEach"
  end ;;
  next <- get data "has_next_page" ;;
  update_globals (set_hasNextPage next) ;;
  w <- read ;;
  update_dom (set_disabled prevPageButton (currentPage (globals w) =? 0)%Z) ;;
  update_dom (set_disabled nextPageButton (negb (truthy (hasNextPage (globals w))))) ;;
  update_dom (set_pageInfo (js "Page " ++ decimal (currentPage (globals w) + 1))).

Definition fetchResults {R : Type} : M R unit :=
  call
    (try_finally
       (try_catch
          (setApiCallState true ;;
           update_dom (set_display searchLoadingIndicator d_flex) ;;
           update_dom (set_resultsContainer []) ;;
           update_dom (set_display summarySection d_none) ;;
           w <- read ;;
           response <- fetch (GetSearch (currentQuery (globals w))
                                (currentPage (globals w))
                                (currentSortBy (globals w))) ;;
           data <- json response ;;
           err <- get data "error" ;;
           if truthy err
           then (showToast err error ;; return_ tt)
           else displayResults data)
          (fun _ =>
             showToast (JStr (js "Failed to fetch results. Please try again.")) error))
       (update_dom (set_display searchLoadingIndicator d_none) ;;
        setApiCallState false)).

Definition showSearchView {R : Type} (skipFetch : bool) : M R unit :=
  update_globals (set_currentView search) ;;
  update_dom (set_display paperView d_none) ;;
  update_dom (set_display searchSection d_block) ;;
  update_dom (set_display resultsSection d_block) ;;
  update_dom (set_display summarySection d_none) ;;
  update_dom (set_display pagination d_flex) ;;
  update_dom (set_activeTab (Some searchTab)) ;;
  w <- read ;;
  (if negb skipFetch && nonempty (currentQuery (globals w))
      && negb (isApiCallInProgress (globals w))
   then spawn fetchResults
   else when (negb (nonempty (currentQuery (globals w))))
          (update_dom (set_resultsContainer []))) ;;
  show_pagination.

(** In the branch for an empty list the script assigns to [uploadCard] and
    reads [upload], neither of which is bound there. *)
Definition displayUploadsList {R : Type} : M R unit :=
  update_dom (set_resultsContainer []) ;;
  w <- read ;;
  match myUploads (globals w) with
  | [] => throw (mkErr ReferenceError (js "uploadCard is not defined"))
  | ups =>
      for_each ups (fun upload =>
        _ <- get upload "title" ;;
        _ <- get upload "uploadDate" ;;
        ret tt) ;;
      update_dom (fun d =>
        set_resultsContainer (resultsContainer d ++ [UploadsListNode ups]) d)
  end.

Definition showUploadsView {R : Type} : M R unit :=
  update_globals (set_currentView uploads) ;;
  update_dom (set_display paperView d_none) ;;
  update_dom (set_display searchSection d_none) ;;
  update_dom (set_display resultsSection d_block) ;;
  update_dom (set_display summarySection d_none) ;;
  update_dom (set_searchInput_value []) ;;
  update_globals (set_currentQuery []) ;;
  update_dom (set_display pagination d_none) ;;
  update_dom (set_activeTab (Some uploadsTab)) ;;
  displayUploadsList.

Definition showPaperView {R : Type} : M R unit :=
  update_globals (set_currentView paper) ;;
  update_dom (set_display paperView d_block) ;;
  update_dom (set_display searchSection d_none) ;;
  update_dom (set_display resultsSection d_none) ;;
  update_dom (set_display summarySection d_none).

(** [paperData.k], or else [paperData.arxivReference.k], or else [dflt]. *)
Definition own_or_reference {R : Type} (paperData : JsVal) (k : string)
    (dflt : JsVal) : M R JsVal :=
  own <- get paperData k ;;
  if truthy own then ret own
  else (ref <- get paperData "arxivReference" ;;
        if truthy ref
        then (v <- get ref k ;; ret (if truthy v then v else dflt))
        else ret dflt).

(** The summary is put on the page through three [replace] calls that turn
    the emphasis markers and the line breaks into markup; the embedding keeps
    the text they are applied to. *)
Definition displayPaper {R : Type} (paperData : JsVal) : M R unit :=
  summary <- own_or_reference paperData "summary" (JStr []) ;;
  summaryHtml <- match summary with
                 | JStr s => ret s
                 | _ => not_a_function "replace"
                 end ;;
  authors <- own_or_reference paperData "authors" (JArr []) ;;
  title <- own_or_reference paperData "title" (JStr []) ;;
  update_dom (set_paperContent
    (Some (mkMarkup title
             match authors with JArr l => array_join (js ", ") l | _ => [] end
             summaryHtml))) ;;
  showPaperView.

Definition hasSummary {R : Type} (data : JsVal) : M R bool :=
  if truthy data
  then (summary <- get data "summary" ;;
        match summary with
        | JUndefined | JNull => ret false
        | _ => (t <- method_trim summary ;; ret (nonempty t))
        end)
  else ret false.

Definition enqueuePaper {R : Type} (paperData : JsVal) : M R bool :=
  call
    (try_catch
       (response <- fetch (PostEnqueue paperData) ;;
        data <- json response ;;
        err <- get data "error" ;;
        if truthy err then return_ false else return_ true)
       (fun _ => return_ false)).

(** [buttonElement] is the place of the card among the results, when the
    request comes from a summarize button. *)
Definition processPaperSummary {R : Type} (paperData : JsVal)
    (buttonElement : option nat) : M R unit :=
  call
    (setApiCallState true ;;
     original <- get paperData "original_arxiv_id" ;;
     _ <- (if truthy original then ret original else get paperData "arxiv_id") ;;
     sanitized <- get paperData "sanitized_arxiv_id" ;;
     sanitizedArxivId <- (if truthy sanitized then ret sanitized
                          else (id <- get paperData "arxiv_id" ;;
                                sanitizeArxivId id)) ;;
     try_finally
       (try_catch
          (response <- fetch (GetPaper sanitizedArxivId) ;;
           data <- json response ;;
           summarized <- hasSummary data ;;
           processing <- (if truthy data then get data "processing"
                          else ret JUndefined) ;;
           if truthy data && summarized && is_false processing then
             (* Case 1: Paper exists with summary and not processing *)
             update_globals (set_currentPaperData data) ;;
             try_catch
               (w <- read ;;
                when (negb (isFileProtocol w))
                  (pushState (paper_url w sanitizedArxivId)) ;;
                displayPaper data)
               (fun _ => displayPaper data)
           else if truthy data && is_true processing then
             (* Case 2: Paper is being processed *)
             showToast
               (JStr (js "The paper is being summarized. Please check back later."))
               info
           else
             (message <- (if truthy data then get data "message"
                          else ret JUndefined) ;;
              not_found <- (if truthy message
                            then method_includes message (js "No data found")
                            else ret false) ;;
              if negb (truthy data) || not_found then
                (* Case 3: Paper doesn't exist in DB or has error response *)
                _ <- enqueuePaper paperData ;;
                showToast (JStr (js "Paper has been queued for summarizing")) success
              else
                (* Case 4: Other cases *)
                showToast (JStr (js "Could not summarize paper")) error))
          (fun _ => showToast (JStr (js "Could not summarize paper")) error))
       (match buttonElement with
        | Some button => setButtonLoading button false
        | None => ret tt
        end ;;
        setApiCallState false)).

Definition fetchPaper {R : Type} (arxivId : jsstring) : M R unit :=
  call
    (setApiCallState true ;;
     try_finally
       (try_catch
          (showToast (JStr (js "Loading paper...")) info ;;
           w <- read ;;
           (if isFileProtocol w && truthy (currentPaperData (globals w))
            then (displayPaper (currentPaperData (globals w)) ;; return_ tt)
            else ret tt) ;;
           response <- fetch (GetPaper (JStr arxivId)) ;;
           data <- json response ;;
           summarized <- hasSummary data ;;
           processing <- (if truthy data then get data "processing"
                          else ret JUndefined) ;;
           if truthy data && summarized && is_false processing then
             displayPaper data
           else if truthy data && is_true processing then
             showSearchView false ;;
             showToast
               (JStr (js "The paper is being summarized. Please check back later."))
               info
           else
             showSearchView false ;;
             showToast (JStr (js "Paper not found or not yet summarized.")) error)
          (fun _ =>
             showSearchView false ;;
             showToast (JStr (js "Could not summarize paper")) error))
       (setApiCallState false)).

Definition resetUploadSteps {R : Type} : M R unit :=
  update_dom (set_uploadSteps (mkStep true false) (mkStep false false)
                (mkStep false false)) ;;
  update_dom (set_uploadStatus (js "Please wait...")).

Definition setUploadButtonLoading {R : Type} (isLoading : bool) : M R unit :=
  update_dom (set_uploadButton_loading isLoading) ;;
  update_dom (set_disabled uploadButton isLoading).

Definition convertHtmlToPdfBlob {R : Type} (html : jsstring) : M R Blob :=
  match html2pdf env html with
  | Some blob => ret blob
  | None => throw (mkErr HostError (js "html2pdf failed"))
  end.

(** The callback that [uploadFile] hands to [setTimeout] after an upload. *)
Definition uploadFile_later {R : Type} (f : File) : M R unit :=
  update_dom (set_display uploadModal d_none) ;;
  resetUploadSteps ;;
  showToast (JStr (js "File uploaded successfully! " ++ file_name f)) success ;;
  showUploadsView.

(** What [uploadFile] does with a record found by the hash check; the text
    is the same in the three branches. *)
Definition existing_summary_found (matchingPaper : JsVal) : M unit unit :=
  update_dom (set_display uploadModal d_none) ;;
  resetUploadSteps ;;
  showToast (JStr (js "Existing summary found for uploaded file")) success ;;
  update_globals (set_currentPaperData matchingPaper) ;;
  try_catch
    (w <- read ;;
     sanitized <- (if negb (isFileProtocol w)
                   then get matchingPaper "sanitized_arxiv_id"
                   else ret JUndefined) ;;
     when (negb (isFileProtocol w) && truthy sanitized)
       (pushState (paper_url w sanitized)) ;;
     displayPaper matchingPaper ;;
     update_dom (set_uploadInput_files None) ;;
     return_ tt)
    (fun _ =>
       displayPaper matchingPaper ;;
       update_dom (set_uploadInput_files None) ;;
       return_ tt).

(** The hash of the document and the check against the database, before
    anything is uploaded. *)
Definition hash_check (pdf : Blob) : M unit unit :=
  match Hasher.generatePdfHash env pdf with
  | Some (c :: h) =>
      matchingPaper <- checkPaperHashExists (c :: h) ;;
      when (truthy matchingPaper) (existing_summary_found matchingPaper)
  | _ => ret tt
  end.

Definition bucket : jsstring := js "https://file-upload-papergist.s3.amazonaws.com/".

Definition upload_error_message (err : Err) : JsVal :=
  JStr ([10060%N] ++ js " Upload error: "
        ++ match err_message err with [] => js "Unknown error" | m => m end).

Definition uploadFile : M unit unit :=
  call
    (w <- read ;;
     match uploadInput_files (dom w) with
     | None => showToast (JStr (js "Please select a file")) error ;; return_ tt
     | Some file =>
       setApiCallState true ;;
       setUploadButtonLoading true ;;
       update_dom (set_display uploadModal d_block) ;;
       let extension := toLowerCase env (last_segment (file_name file)) in
       let fileName :=
         Date_now env ++ js "_" ++ strip_extension (file_name file) ++ js ".pdf" in
       let uploadUrl := bucket ++ fileName in
       try_finally
         (try_catch
            (update_dom (set_uploadStatus (js "Reading file...")) ;;
             pdfBlob <-
               (if jseqb extension (js "pdf") then
                  hash_check (file_data file) ;;
                  update_dom (fun d =>
                    set_uploadSteps (mkStep false true) (uploadStep2 d)
                      (mkStep true (step_completed (uploadStep3 d))) d) ;;
                  update_dom (set_uploadStatus (js "Uploading to server...")) ;;
                  ret (file_data file)
                else if jseqb extension (js "docx") then
                  update_dom (fun d =>
                    set_uploadSteps (mkStep false true)
                      (mkStep true (step_completed (uploadStep2 d)))
                      (uploadStep3 d) d) ;;
                  update_dom (set_uploadStatus (js "Converting DOCX to PDF...")) ;;
                  html <- match mammoth_convertToHtml env (file_data file) with
                          | Some html => ret html
                          | None => throw (mkErr HostError (js "mammoth failed"))
                          end ;;
                  pdfBlob <- convertHtmlToPdfBlob html ;;
                  hash_check pdfBlob ;;
                  update_dom (fun d =>
                    set_uploadSteps (uploadStep1 d) (mkStep false true)
                      (mkStep true (step_completed (uploadStep3 d))) d) ;;
                  update_dom (set_uploadStatus (js "Uploading to server...")) ;;
                  ret pdfBlob
                else if jseqb extension (js "txt") then
                  update_dom (fun d =>
                    set_uploadSteps (mkStep false true)
                      (mkStep true (step_completed (uploadStep2 d)))
                      (uploadStep3 d) d) ;;
                  update_dom (set_uploadStatus (js "Converting TXT to PDF...")) ;;
                  let text := file_text env (file_data file) in
                  let html :=
                    js "<pre style=" ++ [34%N]
                    ++ js "font-family:monospace; white-space: pre-wrap;" ++ [34%N] ++ js ">"
                    ++ text ++ js "</pre>" in
                  pdfBlob <- convertHtmlToPdfBlob html ;;
                  hash_check pdfBlob ;;
                  update_dom (fun d =>
                    set_uploadSteps (uploadStep1 d) (mkStep false true)
                      (mkStep true (step_completed (uploadStep3 d))) d) ;;
                  update_dom (set_uploadStatus (js "Uploading to server...")) ;;
                  ret pdfBlob
                else
                  update_dom (set_display uploadModal d_none) ;;
                  showToast
                    (JStr ([10060%N]
                           ++ js " Unsupported file type. Please upload PDF, DOCX, or TXT."))
                    error ;;
                  return_ tt) ;;
             (* Step 3: Upload to S3 *)
             res <- fetch (PutArtifact uploadUrl pdfBlob) ;;
             if fst res then
               let fileUrl := bucket ++ fileName in
               update_dom (fun d =>
                 set_uploadSteps (uploadStep1 d) (uploadStep2 d)
                   (mkStep false true) d) ;;
               update_dom (set_uploadStatus (js "Upload complete!")) ;;
               let arxivId := JStr (js "manual-upload-" ++ generateUUID env) in
               let sanitizedArxivId := arxivId in
               let uploadDate := JStr (Date_toISOString env) in
               let title := JStr (js "Upload ID: " ++ ToString arxivId) in
               let dummyPaperData := JObj
                 [ (js "arxiv_id", arxivId);
                   (js "sanitized_arxiv_id", sanitizedArxivId);
                   (js "original_arxiv_id", arxivId);
                   (js "title", title);
                   (js "authors", JArr [JStr (js "Manually uploaded")]);
                   (js "primary_category", JStr (js "Manually uploaded"));
                   (js "categories", JArr [JStr (js "Manually uploaded")]);
                   (js "published", uploadDate);
                   (js "updated", uploadDate);
                   (js "pdf_url", JStr fileUrl);
                   (js "summary", JStr (js
                      "This document was manually uploaded and is being processed for summarization."));
                   (js "processing", JBool true) ] in
               let uploadRecord := JObj
                 [ (js "arxiv_id", arxivId);
                   (js "sanitized_arxiv_id", sanitizedArxivId);
                   (js "title", title);
                   (js "uploadDate", uploadDate);
                   (js "fileUrl", JStr fileUrl);
                   (js "fileName", JStr (file_name file)) ] in
               addUploadToStorage uploadRecord ;;
               (* Enqueue for summarization *)
               try_catch
                 (_ <- enqueuePaper dummyPaperData ;;
                  showToast (JStr (js "Paper has been queued for summarization"))
                    success)
                 (fun _ =>
                    showToast
                      (JStr (js "There was an issue queuing the paper for summarization"))
                      error) ;;
               (* Close modal after a short delay *)
               emit (CloseUploadLater 1000 file fileUrl)
             else
               throw (mkErr PlainError (js "Upload failed")))
            (fun err =>
               update_dom (set_display uploadModal d_none) ;;
               showToast (upload_error_message err) error))
         (setUploadButtonLoading false ;;
          setApiCallState false ;;
          update_dom (set_uploadInput_files None))
     end).

(** *** The handlers *)

Definition handleSearch : M unit unit :=
  call
    (w <- read ;;
     when (isApiCallInProgress (globals w))
       (showToast wait_message info ;; return_ tt) ;;
     update_globals (set_currentQuery (trim (searchInput_value (dom w)))) ;;
     w <- read ;;
     when (negb (nonempty (currentQuery (globals w))))
       (showToast (JStr (js "Please enter a search query")) error ;; return_ tt) ;;
     showSearchView true ;;
     update_globals (set_currentPage 0) ;;
     fetchResults).

Definition handleSortChange : M unit unit :=
  call
    (w <- read ;;
     when (isApiCallInProgress (globals w))
       (showToast wait_message info ;; return_ tt) ;;
     update_globals (set_currentSortBy (sortBySelect_value (dom w))) ;;
     update_globals (set_currentPage 0) ;;
     w <- read ;;
     match currentView (globals w), nonempty (currentQuery (globals w)) with
     | search, true => fetchResults
     | _, _ => ret tt
     end).

Definition handlePageChange (delta : Z) : M unit unit :=
  call
    (w <- read ;;
     when (isApiCallInProgress (globals w))
       (showToast wait_message info ;; return_ tt) ;;
     update_globals (fun g => set_currentPage (currentPage g + delta) g) ;;
     w <- read ;;
     match currentView (globals w) with
     | search => fetchResults
     | _ => ret tt
     end).

Definition searchTab_click : M unit unit :=
  w <- read ;;
  if negb (isApiCallInProgress (globals w))
  then showSearchView false
  else showToast wait_message info.

Definition uploadsTab_click : M unit unit :=
  w <- read ;;
  if negb (isApiCallInProgress (globals w))
  then showUploadsView
  else showToast wait_message info.

Definition returnToSearchBtn_click : M unit unit :=
  call
    (w <- read ;;
     when (isApiCallInProgress (globals w))
       (showToast wait_message info ;; return_ tt) ;;
     match currentView (globals w) with
     | uploads => showUploadsView
     | _ => showSearchView false
     end ;;
     w <- read ;;
     when (negb (isFileProtocol w))
       (pushState (before_first (js "/paper/") (location_href (dom w))))).

(** The part that [checkForPaperInUrl] and the [popstate] listener share:
    [Some id] when the address names a paper. *)
Definition paper_in_url (w : World) : option jsstring :=
  if includes (js "/paper/") (location_href (dom w))
  then match_paper_id (location_href (dom w))
  else None.

Definition checkForPaperInUrl : M unit unit :=
  w <- read ;;
  match paper_in_url w with
  | Some paperId => spawn (fetchPaper paperId)
  | None => ret tt
  end.

Definition window_popstate : M unit unit :=
  call
    (w <- read ;;
     when (isApiCallInProgress (globals w))
       (showToast wait_message info ;; return_ tt) ;;
     if includes (js "/paper/") (location_href (dom w))
     then match match_paper_id (location_href (dom w)) with
          | Some paperId => spawn (fetchPaper paperId)
          | None => ret tt
          end
     else showSearchView false).

(** [Object.keys(v).length === 0] *)
Definition no_keys {R : Type} (v : JsVal) : M R bool :=
  match v with
  | JUndefined | JNull =>
      throw (mkErr TypeError (js "Cannot convert undefined or null to object"))
  | JObj fields => ret (Nat.eqb (List.length fields) 0)
  | JArr l => ret (Nat.eqb (List.length l) 0)
  | JStr s => ret (Nat.eqb (List.length s) 0)
  | _ => ret true
  end.

(** The click listener of the summarize button of a card. *)
Definition summarizeButton_click (button : nat) (card : PaperCard) : M unit unit :=
  call
    (w <- read ;;
     when (isApiCallInProgress (globals w))
       (showToast wait_message info ;; return_ tt) ;;
     setButtonLoading button true ;;
     let paperData := data_paper (card_button card) in
     empty <- no_keys paperData ;;
     if empty
     then (update_dom (fun d =>
             set_resultsContainer
               (map_nth (fun n =>
                  match n with
                  | PaperCardNode c =>
                      PaperCardNode
                        (mkCard (card_paper c)
                           (mkButton (loading (card_button c))
                              (button_disabled (card_button c))
                              (data_paper_value (card_paper card))))
                  | UploadsListNode cards => UploadsListNode cards
                  end) button (resultsContainer d)) d) ;;
           spawn (processPaperSummary (card_paper card) (Some button)))
     else spawn (processPaperSummary paperData (Some button))).

(** The click listener of a card of the uploads list. *)
Definition uploadCard_click (upload : JsVal) : M unit unit :=
  w <- read ;;
  if negb (isApiCallInProgress (globals w))
  then spawn (processPaperSummary upload None)
  else showToast wait_message info.

Definition uploadButton_click : M unit unit :=
  w <- read ;;
  if negb (isApiCallInProgress (globals w))
  then emit OpenFilePicker
  else showToast wait_message info.

(** The uploads shown on the page. *)
Fixpoint upload_cards (nodes : list Node) : list JsVal :=
  match nodes with
  | [] => []
  | UploadsListNode cards :: t => cards ++ upload_cards t
  | PaperCardNode _ :: t => upload_cards t
  end.

(** The entry points that a user triggers. *)
Inductive UserEvent :=
| QuerySubmitClick               (* the search button *)
| QuerySubmitEnter               (* Enter in the search input *)
| SortChange
| PageChange (delta : Z)         (* previous: -1, next: 1 *)
| SearchTabClick
| UploadsTabClick
| ReturnClick
| PopState                       (* browser back and forward *)
| SummarizeClick (card : nat)
| UploadCardClick (card : nat)
| UploadButtonClick.

(** The listener that an event reaches, when its target is on the page. *)
Definition listener (ev : UserEvent) (w : World) : option (M unit unit) :=
  match ev with
  | QuerySubmitClick | QuerySubmitEnter => Some (spawn handleSearch)
  | SortChange => Some (spawn handleSortChange)
  | PageChange delta => Some (spawn (handlePageChange delta))
  | SearchTabClick => Some searchTab_click
  | UploadsTabClick => Some uploadsTab_click
  | ReturnClick => Some returnToSearchBtn_click
  | PopState => Some window_popstate
  | SummarizeClick i =>
      match nth_error (resultsContainer (dom w)) i with
      | Some (PaperCardNode card) => Some (summarizeButton_click i card)
      | _ => None
      end
  | UploadCardClick i =>
      match nth_error (upload_cards (resultsContainer (dom w))) i with
      | Some upload => Some (uploadCard_click upload)
      | None => None
      end
  | UploadButtonClick => Some uploadButton_click
  end.

(** The event loop runs the listener; an error that escapes it is reported
    and the world stays as the listener left it. *)
Definition dispatch (ev : UserEvent) (w : World) : World :=
  match listener ev w with
  | None => w
  | Some l =>
      match l w with
      | (Throw e, w') => mkWorld (globals w') (dom w') (trace w' ++ [UncaughtError e])
      | (_, w') => w'
      end
  end.

(** The [change] listener of the file input. *)
Definition uploadInput_change : M unit unit := spawn uploadFile.

End Script.

(** The world when the script has loaded. *)
Definition initial_globals : Globals :=
  mkGlobals 0 [] (js "relevance") (JBool false) search JNull [] false.

Definition initial_dom (href : jsstring) : Dom :=
  mkDom (fun _ => css_default) (fun _ => false) [] (js "relevance") None false
    (js "Page 1") [] None None (mkStep true false) (mkStep false false)
    (mkStep false false) (js "Please wait...") href.

Definition initial_world (href : jsstring) : World :=
  mkWorld initial_globals (initial_dom href) [].

(** Counting in a trace. *)
Definition is_artifact_upload (e : Effect) : bool :=
  match e with Fetch (PutArtifact _ _) => true | _ => false end.

Definition is_task_submission (e : Effect) : bool :=
  match e with Fetch (PostEnqueue _) => true | _ => false end.

Definition is_search_request (e : Effect) : bool :=
  match e with Fetch (GetSearch _ _ _) => true | _ => false end.

Definition is_request (e : Effect) : bool :=
  match e with Fetch _ => true | _ => false end.

Definition is_error_toast (e : Effect) : bool :=
  match e with Toast _ error => true | _ => false end.

Definition is_success_toast (e : Effect) : bool :=
  match e with Toast _ success => true | _ => false end.

Definition count (p : Effect -> bool) (t : list Effect) : nat :=
  List.length (filter p t).

(* ------------------------------------------------------------------------- *)
(** ** The first version of the script (frontend/app.js): the poll loop *)

Module FirstScript.

Record Page := mkPage {
  loadingIndicator : Display;
  summaryContent : option PaperMarkup;
  errorMessage : option JsVal;        (* the text of the error modal *)
  errorModal : Display;
  timers : list (Z * JsVal);          (* [setTimeout]: delay, identifier to poll *)
  requests : list JsVal               (* the identifiers fetched *)
}.

Definition P (R A : Type) : Type := Stmt Page R A.

Definition showError {R : Type} (message : JsVal) : P R unit :=
  fun p => (Normal tt,
            mkPage (loadingIndicator p) (summaryContent p) (Some message) d_block
              (timers p) (requests p)).

Definition setTimeout_poll {R : Type} (arxivId : JsVal) (delay : Z) : P R unit :=
  fun p => (Normal tt,
            mkPage (loadingIndicator p) (summaryContent p) (errorMessage p)
              (errorModal p) (timers p ++ [(delay, arxivId)]) (requests p)).

Definition fetch_paper {R : Type} (arxivId : JsVal) (reply : FetchReply)
    : P R (bool * option JsVal) :=
  fun p =>
    let p' := mkPage (loadingIndicator p) (summaryContent p) (errorMessage p)
                (errorModal p) (timers p) (requests p ++ [arxivId]) in
    match reply with
    | NetFail e => (Throw e, p')
    | Reply ok body => (Normal (ok, body), p')
    end.

Definition json {R : Type} (response : bool * option JsVal) : P R JsVal :=
  match snd response with
  | Some data => ret data
  | None => throw (mkErr HostError (js "Unexpected token in JSON"))
  end.

(** One run of [pollForSummary], on the reply that its request receives. *)
Definition pollForSummary (arxivId : JsVal) (reply : FetchReply) : P unit unit :=
  call
    (try_catch
       (response <- fetch_paper arxivId reply ;;
        data <- json response ;;
        err <- get data "error" ;;
        when (truthy err) (showError err ;; return_ tt) ;;
        processing <- get data "processing" ;;
        if truthy processing then
          (* Still processing, poll again in 5 seconds *)
          setTimeout_poll arxivId 5000
        else
          (summary <- get data "summary" ;;
           if truthy summary then
             (* Summary is ready *)
             (fun p => (Normal tt,
                        mkPage d_none (summaryContent p) (errorMessage p)
                          (errorModal p) (timers p) (requests p))) ;;
             title <- get data "title" ;;
             authors <- get data "authors" ;;
             authors <- method_join authors (js ", ") ;;
             (fun p => (Normal tt,
                        mkPage (loadingIndicator p)
                          (Some (mkMarkup title authors (ToString summary)))
                          (errorMessage p) (errorModal p) (timers p) (requests p)))
           else
             (processing_error <- get data "processing_error" ;;
              when (truthy processing_error) (showError processing_error))))
       (fun _ =>
          showError (JStr (js "Failed to fetch summary. Please try again.")))).

(** The loop: every reply is consumed by the run that the previous one
    scheduled; the loop stops when a run schedules nothing. *)
Fixpoint poll_loop (arxivId : JsVal) (replies : list FetchReply) (p : Page) : Page :=
  match replies with
  | [] => p
  | reply :: rest =>
      let p0 := mkPage (loadingIndicator p) (summaryContent p) (errorMessage p)
                  (errorModal p) [] (requests p) in
      let p1 := snd (pollForSummary arxivId reply p0) in
      match timers p1 with
      | [] => p1
      | _ :: _ => poll_loop arxivId rest p1
      end
  end.

(** [requestSummary] has shown the loading indicator before the first poll. *)
Definition polling_page : Page := mkPage d_flex None None css_default [] [].

End FirstScript.

(* ------------------------------------------------------------------------- *)
(** ** Statements of the specification, and hosts and worlds to run the script on *)

(** The page after the refusal of a transition: the notice, and nothing else. *)
Definition refused (w : World) : World :=
  mkWorld (globals w) (dom w) (trace w ++ [Toast wait_message info]).

(** A hit of the deduplication probe: the backend answers the fingerprint
    with a record that carries an identifier. *)
Definition dedup_hit (env : Env) (fingerprint : jsstring) (record : JsVal) : Prop :=
  exists fields,
    record = JObj fields /\
    net_hash env fingerprint = Reply true (Some record) /\
    truthy (lookup (js "arxiv_id") fields) = true.

(** The binary artifact that the upload pipeline makes of a file, by the
    extension of its name. *)
Definition upload_artifact (env : Env) (f : File) : option Blob :=
  let extension := toLowerCase env (last_segment (file_name f)) in
  if jseqb extension (js "pdf") then Some (file_data f)
  else if jseqb extension (js "docx") then
    match mammoth_convertToHtml env (file_data f) with
    | Some html => html2pdf env html
    | None => None
    end
  else if jseqb extension (js "txt") then
    html2pdf env
      (js "<pre style=" ++ [34%N]
       ++ js "font-family:monospace; white-space: pre-wrap;" ++ [34%N] ++ js ">"
       ++ file_text env (file_data f) ++ js "</pre>")
  else None.

(** What a record shows in the paper view: each of title, authors and summary
    is the record's own, or else the one of its [arxivReference]. *)
Definition shown_field (fields : list (jsstring * JsVal)) (k : string)
    (dflt : JsVal) : JsVal :=
  let own := lookup (js k) fields in
  if truthy own then own
  else match lookup (js "arxivReference") fields with
       | JObj ref =>
           let v := lookup (js k) ref in
           if truthy v then v else dflt
       | _ => dflt
       end.

(** The summary of the record is text (or there is none). *)
Definition summary_is_text (fields : list (jsstring * JsVal)) : bool :=
  match shown_field fields "summary" (JStr []) with
  | JStr _ => true
  | _ => false
  end.

Definition record_markup (fields : list (jsstring * JsVal)) : PaperMarkup :=
  mkMarkup (shown_field fields "title" (JStr []))
    match shown_field fields "authors" (JArr []) with
    | JArr l => array_join (js ", ") l
    | _ => []
    end
    match shown_field fields "summary" (JStr []) with
    | JStr s => s
    | _ => []
    end.

Definition failed : Err := mkErr HostError (js "Failed to fetch").

(** A browser on plain addresses [scheme://host/path], with nothing to
    normalise: the origin runs up to the third [/], the pathname from there to
    the query or the fragment, and a pushed address is kept as written. *)
Fixpoint split_at_slash (n : nat) (s : jsstring) : jsstring * jsstring :=
  match s with
  | [] => ([], [])
  | c :: t =>
      if (c =? 47)%N then
        match n with
        | O => ([], s)
        | S n' => let (a, b) := split_at_slash n' t in (c :: a, b)
        end
      else let (a, b) := split_at_slash n t in (c :: a, b)
  end.

Fixpoint before_query (s : jsstring) : jsstring :=
  match s with
  | [] => []
  | c :: t => if ((c =? 63) || (c =? 35))%N then [] else c :: before_query t
  end.

Definition plain_origin (href : jsstring) : jsstring :=
  fst (split_at_slash 2 href).

Definition plain_pathname (href : jsstring) : jsstring :=
  before_query (snd (split_at_slash 2 href)).

(** A host on which every request fails and no library is loaded. *)
Definition offline : Env :=
  {| toLowerCase := ascii_lower;
     pdfjsLib := None;
     net_search := fun _ _ _ => NetFail failed;
     net_paper := fun _ => NetFail failed;
     net_hash := fun _ => NetFail failed;
     net_enqueue := fun _ => NetFail failed;
     net_put := fun _ _ => NetFail failed;
     mammoth_convertToHtml := fun _ => None;
     html2pdf := fun _ => None;
     file_text := fun _ => [];
     Date_now := js "1700000000000";
     Date_toISOString := js "2023-11-14T22:13:20.000Z";
     generateUUID := js "3f2b8c1e-7a4d-4e9b-8c6f-1d2e3a4b5c6d";
     pushState_throws := false;
     location_origin := plain_origin;
     location_pathname := plain_pathname;
     pushState_href := fun _ url => url |}.

(** The host [offline] with a backend. *)
Definition backend (searchReply paperReply hashReply enqueueReply putReply : FetchReply)
    : Env :=
  {| toLowerCase := ascii_lower;
     pdfjsLib := None;
     net_search := fun _ _ _ => searchReply;
     net_paper := fun _ => paperReply;
     net_hash := fun _ => hashReply;
     net_enqueue := fun _ => enqueueReply;
     net_put := fun _ _ => putReply;
     mammoth_convertToHtml := fun _ => None;
     html2pdf := fun _ => None;
     file_text := fun _ => [];
     Date_now := js "1700000000000";
     Date_toISOString := js "2023-11-14T22:13:20.000Z";
     generateUUID := js "3f2b8c1e-7a4d-4e9b-8c6f-1d2e3a4b5c6d";
     pushState_throws := false;
     location_origin := plain_origin;
     location_pathname := plain_pathname;
     pushState_href := fun _ url => url |}.

(** A pdf.js that reads the payload as the text of a one-page document with a
    single text run: one character per byte. *)
Definition one_run_pdf (payload : Blob) : option PdfDocument :=
  Some [Some [ {| str := map (fun b => N_of_ascii (ascii_of_byte b)) payload;
                  hasEOL := false |} ]].

Definition reader : Env :=
  {| toLowerCase := ascii_lower;
     pdfjsLib := Some one_run_pdf;
     net_search := fun _ _ _ => NetFail failed;
     net_paper := fun _ => NetFail failed;
     net_hash := fun _ => NetFail failed;
     net_enqueue := fun _ => NetFail failed;
     net_put := fun _ _ => NetFail failed;
     mammoth_convertToHtml := fun _ => None;
     html2pdf := fun _ => None;
     file_text := fun _ => [];
     Date_now := js "1700000000000";
     Date_toISOString := js "2023-11-14T22:13:20.000Z";
     generateUUID := js "3f2b8c1e-7a4d-4e9b-8c6f-1d2e3a4b5c6d";
     pushState_throws := false;
     location_origin := plain_origin;
     location_pathname := plain_pathname;
     pushState_href := fun _ url => url |}.

Definition payload_of (s : string) : Blob :=
  map byte_of_ascii (list_ascii_of_string s).

Definition home : jsstring := js "https://papergist.example/index.html".

(** The page with a query typed into the search input. *)
Definition typed (query : string) : World :=
  mkWorld initial_globals (set_searchInput_value (js query) (initial_dom home)) [].

(** A search result that carries no identifier. *)
Definition paper_without_id : JsVal :=
  JObj [ (js "title", JStr (js "Attention Is All You Need"));
         (js "authors", JArr [JStr (js "A. Vaswani")]) ].

Definition search_reply (papers : list JsVal) (has_next_page : bool) : FetchReply :=
  Reply true (Some (JObj [ (js "papers", JArr papers);
                           (js "has_next_page", JBool has_next_page) ])).

(** The page with a file chosen in the file input. *)
Definition chosen (name : string) (content : string) : World :=
  mkWorld initial_globals
    (set_uploadInput_files
       (Some {| file_name := js name; file_data := payload_of content |})
       (initial_dom home)) [].

(** Two documents whose first pages differ by one leading space. *)
Definition doc_plain : Blob :=
  payload_of "aaaaaaaaaaaaaaaaaaaaaaaaaaaaaaaaaaaaaaaaaaaaaaaab".

Definition doc_indented : Blob :=
  payload_of " aaaaaaaaaaaaaaaaaaaaaaaaaaaaaaaaaaaaaaaaaaaaaaaab".

(** Two documents that differ at the 49th character of the first page. *)
Definition doc_x : Blob :=
  payload_of "Deep Residual Learning for Image Recognition Kaiming He".

Definition doc_y : Blob :=
  payload_of "Deep Residual Learning for Image Recognition Kaiming Ren".

(** The search of the scenario: the query on page 0, answered by a last
    page. *)
Definition last_page_host : Env :=
  backend (search_reply [paper_without_id] false) (NetFail failed)
    (NetFail failed) (NetFail failed) (NetFail failed).

Definition last_page_shown : World :=
  dispatch last_page_host QuerySubmitClick (typed "machine learning").

(** The summarize button of the first result is pressed. *)
Definition summarize_pressed : World :=
  dispatch last_page_host (SummarizeClick 0) last_page_shown.

(** A backend that stores the artifact and answers the task submission with
    an error. *)
Definition queue_down : Env :=
  backend (NetFail failed)
    (Reply true (Some (JObj [(js "message", JStr (js "No data found"))])))
    (NetFail failed)
    (Reply true (Some (JObj [(js "error", JStr (js "queue unavailable"))])))
    (Reply true None).

Definition uploads_world : World :=
  mkWorld (set_currentView uploads initial_globals) (initial_dom home) [].


Module PollRule.
Import FirstScript.

(** The decision rule of the poll loop, as the specification words it. *)

Definition optional_text (v : JsVal) : bool :=
  match v with JUndefined | JNull | JStr _ => true | _ => false end.

Definition nonempty_text (v : JsVal) : bool :=
  match v with JStr (_ :: _) => true | _ => false end.

(** The record is the one of the data model of the specification (title;
    author list; summary text, optional; processing flag, a boolean;
    processing error, optional), as far as the loop reads it. *)
Definition paper_record (fields : list (jsstring * JsVal)) : bool :=
  match lookup (js "authors") fields with JArr _ => true | _ => false end
  && match lookup (js "processing") fields with JBool _ => true | _ => false end
  && optional_text (lookup (js "summary") fields)
  && optional_text (lookup (js "processing_error") fields).

(** "the record is present with a non-empty summary and the processing flag
    false" *)
Definition record_ready (data : JsVal) : bool :=
  match data with
  | JObj fields =>
      paper_record fields && nonempty_text (lookup (js "summary") fields)
      && is_false (lookup (js "processing") fields)
  | _ => false
  end.

(** "the processing flag is true" *)
Definition still_processing (data : JsVal) : bool :=
  match data with
  | JObj fields => is_true (lookup (js "processing") fields)
  | _ => false
  end.

(** "the record is absent": no body, or the message that tells so (in the
    table of the endpoints, absence or the message [No data found] means
    not found). *)
Definition record_absent (data : JsVal) : bool :=
  match data with
  | JNull => true
  | JObj fields =>
      match lookup (js "message") fields with
      | JStr m => jseqb m (js "No data found")
      | _ => false
      end
  | _ => false
  end.

(** "the record carries a processing-error field": an error text. *)
Definition processing_failed (data : JsVal) : bool :=
  match data with
  | JObj fields =>
      paper_record fields && nonempty_text (lookup (js "processing_error") fields)
  | _ => false
  end.

Inductive Outcome := Success | Continue | Failure.

(** The outcome that the three clauses ask for on a response, read in the
    order in which they are listed; [None] when no clause applies. [absent]
    tells which responses stand for an absent record. *)
Definition outcome_of (absent : JsVal -> bool) (data : JsVal) : option Outcome :=
  if record_ready data then Some Success
  else if still_processing data then Some Continue
  else if absent data || processing_failed data then Some Failure
  else None.

Definition terminal_success (p p' : Page) : Prop :=
  timers p' = timers p /\ summaryContent p' <> None
  /\ errorMessage p' = errorMessage p.

Definition continues (arxivId : JsVal) (p p' : Page) : Prop :=
  timers p' = timers p ++ [(5000%Z, arxivId)]
  /\ summaryContent p' = summaryContent p /\ errorMessage p' = errorMessage p.

Definition terminal_failure (p p' : Page) : Prop :=
  timers p' = timers p /\ errorMessage p' <> None /\ errorModal p' = d_block.

(** The run from page [p] to page [p'] has the outcome [o]. *)
Definition occurs (o : option Outcome) (arxivId : JsVal) (p p' : Page) : Prop :=
  match o with
  | Some Success => terminal_success p p'
  | Some Continue => continues arxivId p p'
  | Some Failure => terminal_failure p p'
  | None => True
  end.

Definition as_stated (arxivId data : JsVal) (p p' : Page) : Prop :=
  occurs (outcome_of record_absent data) arxivId p p'.





Definition notice (message : JsVal) (p : Page) : Page :=
  mkPage (loadingIndicator p) (summaryContent p) (Some message) d_block
    (timers p) (requests p).

Definition scheduled (arxivId : JsVal) (p : Page) : Page :=
  mkPage (loadingIndicator p) (summaryContent p) (errorMessage p) (errorModal p)
    (timers p ++ [(5000%Z, arxivId)]) (requests p).

Definition shown (m : PaperMarkup) (p : Page) : Page :=
  mkPage d_none (Some m) (errorMessage p) (errorModal p) (timers p) (requests p).


(** The reply for a record that the backend does not hold. *)
Definition not_found : JsVal :=
  JObj [ (js "message", JStr (js "No data found")) ].

(** A record in progress that carries the processing error of an earlier
    attempt. *)
Definition processing_with_error : JsVal :=
  JObj [ (js "title", JStr (js "Attention Is All You Need"));
         (js "authors", JArr [JStr (js "A. Vaswani"); JStr (js "N. Shazeer")]);
         (js "processing", JBool true);
         (js "processing_error", JStr (js "model timed out")) ].

Definition ready_record : JsVal :=
  JObj [ (js "title", JStr (js "Attention Is All You Need"));
         (js "authors", JArr [JStr (js "A. Vaswani"); JStr (js "N. Shazeer")]);
         (js "summary", JStr (js "The paper proposes the Transformer."));
         (js "processing", JBool false) ].

End PollRule.

(** Statements that neither read nor change the world. *)
Definition pure {S R A : Type} (m : Stmt S R A) : Prop :=
  exists c, forall w, m w = (c, w).

(** A record that the backend holds, and a host whose hash check finds it. *)
Definition known_record : list (jsstring * JsVal) :=
  [ (js "arxiv_id", JStr (js "1512.03385"));
    (js "title", JStr (js "Deep Residual Learning for Image Recognition"));
    (js "authors", JArr [JStr (js "Kaiming He"); JStr (js "Xiangyu Zhang")]);
    (js "summary", JStr (js "Residual connections ease the training of deep networks."));
    (js "processing", JBool false) ].

Definition archive : Env :=
  {| toLowerCase := ascii_lower;
     pdfjsLib := Some one_run_pdf;
     net_search := fun _ _ _ => NetFail failed;
     net_paper := fun _ => NetFail failed;
     net_hash := fun _ => Reply true (Some (JObj known_record));
     net_enqueue := fun _ => NetFail failed;
     net_put := fun _ _ => NetFail failed;
     mammoth_convertToHtml := fun _ => None;
     html2pdf := fun _ => None;
     file_text := fun _ => [];
     Date_now := js "1700000000000";
     Date_toISOString := js "2023-11-14T22:13:20.000Z";
     generateUUID := js "3f2b8c1e-7a4d-4e9b-8c6f-1d2e3a4b5c6d";
     pushState_throws := false;
     location_origin := plain_origin;
     location_pathname := plain_pathname;
     pushState_href := fun _ url => url |}.

Definition resnet_pdf : File :=
  {| file_name := js "resnet.pdf";
     file_data := payload_of "Deep Residual Learning for Image Recognition Kaiming He" |}.

Definition resnet_chosen : World :=
  mkWorld initial_globals (set_uploadInput_files (Some resnet_pdf) (initial_dom home)) [].

(** An upload, and a request for a summary, with the queue down. *)
Definition uploaded_with_queue_down : World :=
  snd (uploadFile queue_down (chosen "paper.pdf" "%PDF-1.4 first page")).

Definition requested_with_queue_down : World :=
  snd (processPaperSummary (R:=unit) queue_down
         (JObj [(js "arxiv_id", JStr (js "2101.00001"))]) None (typed "")).

(** The world with one more effect in its trace. *)
Definition sent (e : Effect) (w : World) : World :=
  mkWorld (globals w) (dom w) (trace w ++ [e]).

(** The world once [displayPaper] has shown the markup. *)
Definition paper_shown (m : PaperMarkup) (w : World) : World :=
  mkWorld (set_currentView paper (globals w))
    (set_display summarySection d_none
       (set_display resultsSection d_none
          (set_display searchSection d_none
             (set_display paperView d_block
                (set_paperContent (Some m) (dom w))))))
    (trace w).

(** A trace without artifact upload and without task submission. *)
Definition quiet (t : list Effect) : Prop :=
  forallb (fun e => negb (is_artifact_upload e) && negb (is_task_submission e)) t
  = true.

Definition released (w : World) : Prop :=
  isApiCallInProgress (globals w) = false.

Arguments js : simpl never.
Arguments decimal : simpl never.
Arguments ToString : simpl never.
Arguments displayPaper : simpl never.

(** What happens on the page between two moments: a user event, the choice
    of a file (the [change] event of the file input), the timer that closes
    the upload dialog. *)
Inductive Happening :=
| UserDoes (ev : UserEvent)
| FileChosen (f : File)
| UploadDialogCloses (f : File).

Definition reported (r : Completion unit unit * World) : World :=
  match r with
  | (Throw e, w) => mkWorld (globals w) (dom w) (trace w ++ [UncaughtError e])
  | (_, w) => w
  end.

Definition happen (env : Env) (h : Happening) (w : World) : World :=
  match h with
  | UserDoes ev => dispatch env ev w
  | FileChosen f =>
      reported
        (uploadInput_change env
           (mkWorld (globals w) (set_uploadInput_files (Some f) (dom w)) (trace w)))
  | UploadDialogCloses f => reported (uploadFile_later f w)
  end.

Definition happen_all (env : Env) (hs : list Happening) (w : World) : World :=
  fold_left (fun w h => happen env h w) hs w.

Definition submits_query (h : Happening) : bool :=
  match h with
  | UserDoes QuerySubmitClick | UserDoes QuerySubmitEnter => true
  | _ => false
  end.

(** No query is stored; and the statements that keep it so. *)
Definition no_query (w : World) : Prop := currentQuery (globals w) = [].

Definition keeps {R A : Type} (m : M R A) : Prop :=
  forall w, no_query w -> no_query (snd (m w)).

(** A page that lists one upload, at a backend that holds its summary. *)
Definition one_upload : JsVal :=
  JObj [ (js "arxiv_id", JStr (js "manual-upload-3f2b8c1e-7a4d-4e9b-8c6f-1d2e3a4b5c6d"));
         (js "sanitized_arxiv_id",
          JStr (js "manual-upload-3f2b8c1e-7a4d-4e9b-8c6f-1d2e3a4b5c6d"));
         (js "title", JStr (js "Upload ID: manual-upload-3f2b8c1e"));
         (js "uploadDate", JStr (js "2023-11-14T22:13:20.000Z"));
         (js "fileUrl", JStr (js "https://file-upload-papergist.s3.amazonaws.com/1_resnet.pdf"));
         (js "fileName", JStr (js "resnet.pdf")) ].

Definition one_upload_world : World :=
  mkWorld (set_myUploads [one_upload] initial_globals) (initial_dom home) [].

Definition library : Env :=
  backend (NetFail failed) (Reply true (Some (JObj known_record)))
    (NetFail failed) (NetFail failed) (NetFail failed).

(* ------------------------------------------------------------------------- *)
(** ** More of the script: identifiers of uploads *)

Module Uuid.

(** [v.toString(16)] *)
Definition toString16 (v : Z) : jsstring :=
  js (HexadecimalString.NilZero.string_of_int (Z.to_hex_int v)).

(** [template.replace(/[xy]/g, function (c) { ... })]: [random] gives, for
    each call of the function in turn, the value of [Math.random() * 16 | 0]. *)
Fixpoint replace_xy (random : nat -> Z) (call : nat) (template : jsstring)
    : jsstring :=
  match template with
  | [] => []
  | c :: t =>
      if (c =? 120)%N || (c =? 121)%N then
        let r := random call in
        let v := if (c =? 120)%N then r else Z.lor (Z.land r 3) 8 in
        toString16 v ++ replace_xy random (S call) t
      else c :: replace_xy random call t
  end.

Definition generateUUID (random : nat -> Z) : jsstring :=
  replace_xy random 0 (js "xxxxxxxx-xxxx-4xxx-yxxx-xxxxxxxxxxxx").

Definition is_hex (c : N) : bool :=
  ((48 <=? c) && (c <=? 57) || (97 <=? c) && (c <=? 102))%N.

(** The replacement seen one character at a time, as it is when every value
    written is a single hexadecimal digit. *)
Definition digit_of (random : nat -> Z) (call : nat) (c : N) : N :=
  hd 0%N (toString16 (if (c =? 120)%N then random call
                      else Z.lor (Z.land (random call) 3) 8)).

Fixpoint replace_xy1 (random : nat -> Z) (call : nat) (template : jsstring)
    : jsstring :=
  match template with
  | [] => []
  | c :: t =>
      if (c =? 120)%N || (c =? 121)%N
      then digit_of random call c :: replace_xy1 random (S call) t
      else c :: replace_xy1 random call t
  end.

End Uuid.

(* ------------------------------------------------------------------------- *)
(** ** Predicates on strings and values *)

Definition no_slash (s : jsstring) : bool :=
  forallb (fun c => negb (c =? 47)%N) s.

Definition no_dot (s : jsstring) : bool :=
  forallb (fun c => negb (c =? 46)%N) s.

Definition no_dot_slash (s : jsstring) : bool :=
  forallb (fun x => negb (x =? 47)%N && negb (x =? 46)%N) s.


Definition no_apostrophe (s : jsstring) : bool :=
  forallb (fun c => negb (c =? 39)%N) s.

(** No string and no key of the value holds an apostrophe. *)
Fixpoint apostrophe_free (v : JsVal) : bool :=
  match v with
  | JStr s => no_apostrophe s
  | JArr l => forallb apostrophe_free l
  | JObj fields =>
      (fix props (fs : list (jsstring * JsVal)) : bool :=
         match fs with
         | [] => true
         | (k, x) :: t => no_apostrophe k && apostrophe_free x && props t
         end) fields
  | _ => true
  end.

Definition props_free (fs : list (jsstring * JsVal)) : bool :=
  forallb (fun kv => no_apostrophe (fst kv) && apostrophe_free (snd kv)) fs.

(** A value as [JSON.parse] makes it, with no apostrophe in it: no
    [undefined], and the keys of every object all different. *)
Fixpoint plain (v : JsVal) : bool :=
  match v with
  | JUndefined => false
  | JStr s => no_apostrophe s
  | JArr l => forallb plain l
  | JObj fields =>
      (fix props (fs : list (jsstring * JsVal)) : bool :=
         match fs with
         | [] => true
         | (k, x) :: t =>
             no_apostrophe k && plain x
             && negb (existsb (fun kv => jseqb k (fst kv)) t) && props t
         end) fields
  | _ => true
  end.

Fixpoint plain_props (fs : list (jsstring * JsVal)) : bool :=
  match fs with
  | [] => true
  | (k, x) :: t =>
      no_apostrophe k && plain x
      && negb (existsb (fun kv => jseqb k (fst kv)) t) && plain_props t
  end.

(** The properties that [data_paper_value] gives back, from those read so
    far. *)
Definition clone_props (fs acc : list (jsstring * JsVal)) : list (jsstring * JsVal) :=
  (fix props (fs0 acc0 : list (jsstring * JsVal)) {struct fs0} :=
     match fs0 with
     | [] => acc0
     | (k, x) :: t => props t match x with
                              | JUndefined => acc0
                              | _ => assign (escape_apostrophes k) (data_paper_value x) acc0
                              end
     end) fs acc.

(* ------------------------------------------------------------------------- *)
(** ** Worlds in time *)

(** The world [w'] comes after [w]: the trace and the list of uploads of [w]
    are still there, with what came later appended. *)
Definition grows (w w' : World) : Prop :=
  (exists t, trace w' = trace w ++ t)
  /\ (exists l, myUploads (globals w') = myUploads (globals w) ++ l).

Definition steady {R A : Type} (m : M R A) : Prop :=
  forall w, grows w (snd (m w)).

(** Statements that leave the lock released when they find it so. *)
Definition settles {R A : Type} (m : M R A) : Prop :=
  forall w, released w -> released (snd (m w)).

(** A record that names its paper: it carries a sanitized identifier, or an
    identifier that is text. *)
Definition identified (paperData : JsVal) : bool :=
  match paperData with
  | JObj fields =>
      truthy (lookup (js "sanitized_arxiv_id") fields)
      || match lookup (js "arxiv_id") fields with
         | JStr _ => true
         | _ => false
         end
  | _ => false
  end.

(** The card that a click is aimed at names its paper. *)
Definition target_identified (ev : UserEvent) (w : World) : bool :=
  match ev with
  | SummarizeClick i =>
      match nth_error (resultsContainer (dom w)) i with
      | Some (PaperCardNode card) => identified (data_paper (card_button card))
      | _ => true
      end
  | UploadCardClick i =>
      match nth_error (upload_cards (resultsContainer (dom w))) i with
      | Some upload => identified upload
      | None => true
      end
  | _ => true
  end.

(* ------------------------------------------------------------------------- *)
(** ** Uploads *)

(** The probe of an upload finds nothing: the artifact has no fingerprint, or
    the backend knows no record for it. *)
Definition dedup_miss (env : Env) (pdf : Blob) : Prop :=
  forall fingerprint record,
    Hasher.generatePdfHash env pdf = Some fingerprint ->
    fingerprint <> [] ->
    ~ dedup_hit env fingerprint record.

(** The requests of the probe: none without a fingerprint, one otherwise. *)
Definition probe_requests (env : Env) (pdf : Blob) : list Effect :=
  match Hasher.generatePdfHash env pdf with
  | Some (c :: h) => [Fetch (PostHash (c :: h))]
  | _ => []
  end.

(** The address that [uploadFile] stores the artifact at. *)
Definition upload_url (env : Env) (f : File) : jsstring :=
  bucket ++ Date_now env ++ js "_" ++ strip_extension (file_name f) ++ js ".pdf".

(** The name of the file ends in one of the three extensions. *)
Definition supported (env : Env) (f : File) : bool :=
  let extension := toLowerCase env (last_segment (file_name f)) in
  jseqb extension (js "pdf") || jseqb extension (js "docx")
  || jseqb extension (js "txt").

(** The value is an object. *)
Definition is_object (v : JsVal) : bool :=
  match v with JObj _ => true | _ => false end.

(* ------------------------------------------------------------------------- *)
(** ** Search results *)

(** A reply to a search that makes [fetchResults] show [message] as an error:
    the request fails, the body does not parse or is null (the fixed notice),
    or the body carries an error (that error). *)
Definition search_fails (reply : FetchReply) (message : JsVal) : Prop :=
  (message = JStr (js "Failed to fetch results. Please try again.")
   /\ ((exists e, reply = NetFail e)
       \/ (exists ok, reply = Reply ok None)
       \/ (exists ok, reply = Reply ok (Some JNull))))
  \/ (exists ok fields,
        reply = Reply ok (Some (JObj fields))
        /\ lookup (js "error") fields = message /\ truthy message = true).

(** The test of [displayResults] for a manual upload among the results. *)
Definition is_manual_upload (paper : JsVal) : bool :=
  match paper with
  | JObj fields =>
      match lookup (js "arxiv_id") fields with
      | JStr s => startsWith (js "manual-upload-") s
      | _ => false
      end
  | _ => false
  end.

(** The card that [createPaperCard] makes of a paper. *)
Definition card_of (paper : JsVal) (card : PaperCard) : Prop :=
  forall w, createPaperCard (R:=unit) paper w = (Normal card, w).

(** The world with one more card among the results. *)
Definition with_card (card : PaperCard) (w : World) : World :=
  mkWorld (globals w)
    (set_resultsContainer (resultsContainer (dom w) ++ [PaperCardNode card]) (dom w))
    (trace w).

(* ------------------------------------------------------------------------- *)
(** ** Records of the paper endpoint, and addresses *)

(** The summary of a record is text, or there is none. *)
Definition summary_text_or_none (fields : list (jsstring * JsVal)) : bool :=
  match lookup (js "summary") fields with
  | JStr _ | JUndefined | JNull => true
  | _ => false
  end.

(** A reply of the paper endpoint for a paper that the backend does not
    know: null, or a record without summary whose message says so. *)
Definition unknown_paper (data : JsVal) : Prop :=
  data = JNull
  \/ exists record message,
       data = JObj record
       /\ lookup (js "summary") record = JUndefined
       /\ is_true (lookup (js "processing") record) = false
       /\ lookup (js "message") record = JStr message
       /\ includes (js "No data found") message = true.

(** The world at the address [url]. *)
Definition at_address (url : jsstring) (w : World) : World :=
  mkWorld (globals w) (set_location_href url (dom w)) (trace w).

(** The address changes when the page is not a local file and the browser
    accepts the change. *)
Definition address_changes (env : Env) (w : World) : bool :=
  negb (isFileProtocol w) && negb (pushState_throws env).

(* ------------------------------------------------------------------------- *)
(** ** The first version of the script (frontend/app.js): the request for a summary *)

(** A record in which the poll finds nothing to act on: no error, not in
    progress, no summary, no processing error. *)
Definition says_nothing (fields : list (jsstring * JsVal)) : bool :=
  negb (truthy (lookup (js "error") fields))
  && negb (truthy (lookup (js "processing") fields))
  && negb (truthy (lookup (js "summary") fields))
  && negb (truthy (lookup (js "processing_error") fields)).

Module FirstRequest.
Import FirstScript.

(** The page of [FirstScript] with the section that holds the summary, and
    the bodies posted to the summarize endpoint. *)
Record Screen := mkScreen {
  summarySection : Display;
  page : Page;
  submissions : list (JsVal * JsVal)   (* arxiv_id, pdf_url *)
}.

(** A statement on the page, run on the screen. *)
Definition on_page {R A : Type} (m : P R A) : Stmt Screen R A :=
  fun s =>
    let (c, p') := m (page s) in
    (c, mkScreen (summarySection s) p' (submissions s)).

(** A call of an [async] function whose promise nobody awaits. *)
Definition unawaited {R : Type} (m : P unit unit) : Stmt Screen R unit :=
  fun s =>
    let (_, p') := m (page s) in
    (Normal tt, mkScreen (summarySection s) p' (submissions s)).

Definition fetch_summarize {R : Type} (arxivId pdfUrl : JsVal) (reply : FetchReply)
    : Stmt Screen R (bool * option JsVal) :=
  fun s =>
    let s' := mkScreen (summarySection s) (page s)
                (submissions s ++ [(arxivId, pdfUrl)]) in
    match reply with
    | NetFail e => (Throw e, s')
    | Reply ok body => (Normal (ok, body), s')
    end.

(** [requestSummary], on the reply that its submission receives and the
    reply that the first poll receives. *)
Definition requestSummary (arxivId pdfUrl : JsVal) (reply pollReply : FetchReply)
    : Stmt Screen unit unit :=
  call
    (try_catch
       ((* Show loading state *)
        (fun s => (Normal tt,
                   mkScreen d_block
                     (mkPage d_flex None (errorMessage (page s))
                        (errorModal (page s)) (timers (page s))
                        (requests (page s)))
                     (submissions s))) ;;
        response <- fetch_summarize arxivId pdfUrl reply ;;
        data <- on_page (json response) ;;
        err <- get data "error" ;;
        when (truthy err) (on_page (showError err) ;; return_ tt) ;;
        (* Start polling for summary *)
        unawaited (pollForSummary arxivId pollReply))
       (fun _ =>
          on_page
            (showError (JStr (js "Failed to request summary. Please try again."))))).

(** A reply to the submission that makes [requestSummary] show [message]. *)
Definition submission_fails (reply : FetchReply) (message : JsVal) : Prop :=
  (message = JStr (js "Failed to request summary. Please try again.")
   /\ ((exists e, reply = NetFail e)
       \/ (exists ok, reply = Reply ok None)
       \/ (exists ok, reply = Reply ok (Some JNull))))
  \/ (exists ok fields,
        reply = Reply ok (Some (JObj fields))
        /\ lookup (js "error") fields = message /\ truthy message = true).

(** The screen when the script has loaded. *)
Definition initial_screen : Screen :=
  mkScreen css_default (mkPage css_default None None css_default [] []) [].

End FirstRequest.

(* ------------------------------------------------------------------------- *)
(** ** More hosts and worlds to run the script on *)

(** A backend that is still summarizing every paper. *)
Definition summarizing : Env :=
  backend (NetFail failed)
    (Reply true (Some (JObj [(js "processing", JBool true)])))
    (NetFail failed) (NetFail failed) (NetFail failed).

(** The page opened from a local file, after a summary has been shown. *)
Definition local_file_world : World :=
  mkWorld (set_currentPaperData (JObj known_record) initial_globals)
    (initial_dom (js "file:///home/reader/papergist/index.html")) [].

(** A search result with an identifier of the old arXiv scheme. *)
Definition listed_paper : JsVal :=
  JObj [ (js "arxiv_id", JStr (js "hep-th/9901001"));
         (js "title", JStr (js "Large N field theories"));
         (js "authors", JArr [JStr (js "O. Aharony")]) ].

(** A response of the search endpoint that lists a manual upload among its
    papers. *)
Definition search_page : list (jsstring * JsVal) :=
  [ (js "papers", JArr [listed_paper; one_upload]);
    (js "has_next_page", JBool true) ].

(** A record to ask the summary of. *)
Definition asked_paper : list (jsstring * JsVal) :=
  [ (js "arxiv_id", JStr (js "2101.00001"));
    (js "sanitized_arxiv_id", JStr (js "2101.00001")) ].

Definition paper_pdf : File :=
  {| file_name := js "paper.pdf"; file_data := payload_of "%PDF-1.4 first page" |}.

Definition notes_md : File :=
  {| file_name := js "notes.md"; file_data := payload_of "# notes" |}.

(* ========================================================================= *)
(** * Properties *)

(** ** Strings and the hasher *)

Lemma jseqb_eq a b : jseqb a b = true <-> a = b.
Proof.
  revert b; induction a as [|x a IH]; intros [|y b]; simpl; split;
    try congruence; try reflexivity.
  - intros H. apply andb_true_iff in H as [Hx Hr].
    apply N.eqb_eq in Hx. apply IH in Hr. congruence.
  - intros H. injection H as -> ->. rewrite N.eqb_refl. simpl. now apply IH.
Qed.

Lemma join_empty_concat (l : list jsstring) : join [] l = List.concat l.
Proof.
  induction l as [|x [|y t] IH]; simpl in *.
  - reflexivity.
  - now rewrite app_nil_r.
  - now rewrite IH.
Qed.

Lemma replace_runs_filter cls b s :
  replace_runs cls [] b s = filter (fun c => negb (cls c)) s.
Proof.
  revert b; induction s as [|c t IH]; intros b; simpl; [reflexivity|].
  destruct (cls c); simpl.
  - destruct b; simpl; apply IH.
  - now rewrite IH.
Qed.

Lemma hasher_reference (env : Env) (payload : Blob) :
  Hasher.generatePdfHash env payload = Hasher.reference_hasher env payload.
Proof.
  unfold Hasher.generatePdfHash, Hasher.hash_body, Hasher.reference_hasher,
    Hasher.first_page_runs, Hasher.reference_fingerprint, Hasher.strip_whitespace.
  destruct (pdfjsLib env) as [parse|]; [|reflexivity].
  destruct (parse payload) as [[|[items|] rest]|]; simpl; try reflexivity.
  now rewrite join_empty_concat, replace_runs_filter.
Qed.

(** C5. The hasher computes the reference fingerprint: the text runs of the
    first page concatenated, cut to the first 48 characters, whitespace
    removed, lowercased; and it returns the failure signal exactly where the
    payload is unsupported or malformed. *)
Theorem generatePdfHash_refines_reference (env : Env) (payload : Blob) :
  Hasher.generatePdfHash env payload = Hasher.reference_hasher env payload.
Proof. exact (hasher_reference env payload). Qed.

(** The failure signal comes exactly with a payload that yields no first-page
    text: no pdf.js, a document that does not load, or a first page whose
    text content cannot be read. *)
Lemma generatePdfHash_fails_iff (env : Env) (payload : Blob) :
  Hasher.generatePdfHash env payload = None
  <-> Hasher.first_page_runs env payload = None.
Proof.
  rewrite hasher_reference. unfold Hasher.reference_hasher.
  destruct (Hasher.first_page_runs env payload); split; congruence.
Qed.

(** C6, as stated, fails: the two documents have the same first-page text
    once whitespace is stripped, and yet their fingerprints differ, because
    the cut to 48 characters comes before the stripping. *)
Lemma same_stripped_text_different_fingerprint :
  exists runs1 runs2,
    Hasher.first_page_runs reader doc_plain = Some runs1
    /\ Hasher.first_page_runs reader doc_indented = Some runs2
    /\ firstn 48 (Hasher.strip_whitespace (List.concat runs1))
       = firstn 48 (Hasher.strip_whitespace (List.concat runs2))
    /\ Hasher.generatePdfHash reader doc_plain
       <> Hasher.generatePdfHash reader doc_indented.
Proof.
  eexists. eexists.
  split; [vm_compute; reflexivity|]. split; [vm_compute; reflexivity|].
  split; [vm_compute; reflexivity|]. vm_compute. discriminate.
Qed.

(** C6, amended. Two payloads whose first-page texts agree on their first 48
    characters, counted before whitespace is stripped, have the same
    fingerprint. *)
Theorem same_first_48_same_fingerprint (env : Env) (p1 p2 : Blob)
    (runs1 runs2 : list jsstring) :
  Hasher.first_page_runs env p1 = Some runs1 ->
  Hasher.first_page_runs env p2 = Some runs2 ->
  firstn 48 (List.concat runs1) = firstn 48 (List.concat runs2) ->
  Hasher.generatePdfHash env p1 = Hasher.generatePdfHash env p2.
Proof.
  intros H1 H2 H. rewrite !hasher_reference. unfold Hasher.reference_hasher.
  rewrite H1, H2. unfold Hasher.reference_fingerprint. now rewrite H.
Qed.

Lemma same_first_48_same_fingerprint_witness :
  Hasher.generatePdfHash reader doc_x = Hasher.generatePdfHash reader doc_y.
Proof.
  apply (@same_first_48_same_fingerprint reader doc_x doc_y
           [js "Deep Residual Learning for Image Recognition Kaiming He"]
           [js "Deep Residual Learning for Image Recognition Kaiming Ren"]).
  - vm_compute; reflexivity.
  - vm_compute; reflexivity.
  - vm_compute; reflexivity.
Defined.

(** ** The operation lock *)




(** ** The view controller *)

(** C9, as stated, fails: in the uploads view, with no operation in flight,
    a page increment changes the current page index. *)
Lemma page_change_outside_search_moves_the_index :
  currentView (globals uploads_world) = uploads
  /\ isApiCallInProgress (globals uploads_world) = false
  /\ currentPage (globals uploads_world) = 0%Z
  /\ currentPage (globals (snd (handlePageChange offline 1 uploads_world))) = 1%Z.
Proof. vm_compute. repeat split. Qed.

(** C9, amended. A page increment or decrement triggered while the active
    view is not Search issues no request and leaves every part of the state
    other than the current page index unchanged; the index moves by the
    increment when no operation is in flight, and under the lock the change
    is refused with the notice. *)
Theorem page_change_outside_search (env : Env) (delta : Z) (w : World) :
  currentView (globals w) <> search ->
  handlePageChange env delta w =
    (Normal tt,
     if isApiCallInProgress (globals w) then refused w
     else mkWorld (set_currentPage (currentPage (globals w) + delta) (globals w))
            (dom w) (trace w)).
Proof.
  intros Hview.
  unfold handlePageChange, call, bind, read, when, update_globals, ret,
    showToast, emit, return_, refused.
  destruct (isApiCallInProgress (globals w)); simpl; [reflexivity|].
  destruct (currentView (globals w)); [congruence|reflexivity..].
Qed.

Lemma page_change_outside_search_witness :
  handlePageChange offline 1 uploads_world =
    (Normal tt,
     mkWorld (set_currentPage 1 (globals uploads_world)) (dom uploads_world) []).
Proof.
  apply (@page_change_outside_search offline 1 uploads_world).
  vm_compute. discriminate.
Defined.

Lemma pure_ret {S R A : Type} (a : A) : pure (@ret S R A a).
Proof. now exists (Normal a). Qed.

Lemma pure_throw {S R A : Type} (e : Err) : pure (@throw S R A e).
Proof. now exists (Throw e). Qed.

Lemma pure_bind {S R A B : Type} (m : Stmt S R A) (k : A -> Stmt S R B) :
  pure m -> (forall a, pure (k a)) -> pure (bind m k).
Proof.
  intros [c Hc] Hk. destruct c as [a|r|e].
  - destruct (Hk a) as [c' Hc']. exists c'. intros w. unfold bind.
    now rewrite Hc, Hc'.
  - exists (Return r). intros w. unfold bind. now rewrite Hc.
  - exists (Throw e). intros w. unfold bind. now rewrite Hc.
Qed.

Lemma pure_get {S R : Type} (v : JsVal) (k : string) : pure (@get S R v k).
Proof. destruct v; simpl; (apply pure_ret || apply pure_throw). Qed.

Lemma pure_for_each {S R A : Type} (l : list A) (f : A -> Stmt S R unit) :
  (forall a, pure (f a)) -> pure (for_each l f).
Proof.
  intros Hf. induction l as [|x t IH]; simpl.
  - apply pure_ret.
  - apply pure_bind; [apply Hf|intros _; exact IH].
Qed.

Create HintDb pure.
#[local] Hint Resolve pure_ret pure_throw pure_get : pure.

Lemma displayUploadsList_frame (w : World) :
  let w' := snd (displayUploadsList (R:=unit) w) in
  globals w' = globals w /\ trace w' = trace w
  /\ searchInput_value (dom w') = searchInput_value (dom w)
  /\ display (dom w') = display (dom w).
Proof.
  unfold displayUploadsList, bind, update_dom, read. simpl.
  destruct (myUploads (globals w)) as [|u ups] eqn:E; simpl; [tauto|].
  assert (Hp : pure (S:=World) (R:=unit)
                 (for_each (u :: ups) (fun upload =>
                    _ <- get upload "title" ;;
                    _ <- get upload "uploadDate" ;; ret tt))).
  { apply pure_for_each. intros a.
    apply pure_bind; [auto with pure|intros _].
    apply pure_bind; auto with pure. }
  destruct Hp as [c Hc]. simpl in Hc. rewrite Hc.
  destruct c; simpl; tauto.
Qed.

(** Statements that keep the stored query empty. *)

Lemma keeps_ret {R A : Type} (a : A) : keeps (@ret World R A a).
Proof. intros w H. exact H. Qed.

Lemma keeps_throw {R A : Type} (e : Err) : keeps (@throw World R A e).
Proof. intros w H. exact H. Qed.

Lemma keeps_return {R A : Type} (r : R) : keeps (@return_ World R A r).
Proof. intros w H. exact H. Qed.

Lemma keeps_read {R : Type} : keeps (@read World R).
Proof. intros w H. exact H. Qed.

Lemma keeps_update_dom {R : Type} (f : Dom -> Dom) : keeps (@update_dom R f).
Proof. intros w H. exact H. Qed.

Lemma keeps_emit {R : Type} (e : Effect) : keeps (@emit R e).
Proof. intros w H. exact H. Qed.

Lemma keeps_update_globals {R : Type} (f : Globals -> Globals) :
  (forall g, currentQuery (f g) = currentQuery g) -> keeps (@update_globals R f).
Proof. intros Hf w H. unfold no_query in *. simpl. now rewrite Hf. Qed.

Lemma keeps_clear_query {R : Type} :
  keeps (@update_globals R (set_currentQuery [])).
Proof. intros w H. reflexivity. Qed.

Lemma keeps_bind {R A B : Type} (m : M R A) (k : A -> M R B) :
  keeps m -> (forall a, keeps (k a)) -> keeps (bind m k).
Proof.
  intros Hm Hk w H. unfold bind. specialize (Hm w H).
  destruct (m w) as [[a|r|e] w1]; simpl in *; try assumption. now apply Hk.
Qed.

Lemma keeps_try_catch {R A : Type} (body : M R A) (handler : Err -> M R A) :
  keeps body -> (forall e, keeps (handler e)) -> keeps (try_catch body handler).
Proof.
  intros Hb Hh w H. unfold try_catch. specialize (Hb w H).
  destruct (body w) as [[a|r|e] w1]; simpl in *; try assumption. now apply Hh.
Qed.

Lemma keeps_try_finally {R A : Type} (body : M R A) (fin : M R unit) :
  keeps body -> keeps fin -> keeps (try_finally body fin).
Proof.
  intros Hb Hf w H. unfold try_finally. specialize (Hb w H).
  destruct (body w) as [c w1]. simpl in Hb. specialize (Hf w1 Hb).
  destruct (fin w1) as [[a|r|e] w2]; simpl in *; assumption.
Qed.

Lemma keeps_call {R R' : Type} (body : M R' R') :
  keeps body -> keeps (call (R:=R) body).
Proof.
  intros Hb w H. unfold call. specialize (Hb w H).
  destruct (body w) as [[a|r|e] w1]; simpl in *; assumption.
Qed.

Lemma keeps_spawn {R : Type} (body : M unit unit) :
  keeps body -> keeps (spawn (R:=R) body).
Proof.
  intros Hb w H. unfold spawn. specialize (Hb w H).
  destruct (body w) as [[a|r|e] w1]; simpl in *; assumption.
Qed.

Lemma keeps_for_each {R A : Type} (l : list A) (f : A -> M R unit) :
  (forall a, keeps (f a)) -> keeps (for_each l f).
Proof.
  intros Hf. induction l as [|x t IH]; simpl; [apply keeps_ret|].
  apply keeps_bind; [apply Hf|intros _; exact IH].
Qed.

Lemma keeps_when {R : Type} (c : bool) (m : M R unit) : keeps m -> keeps (when c m).
Proof. intros Hm. destruct c; simpl; [exact Hm|apply keeps_ret]. Qed.

Lemma keeps_get {R : Type} (v : JsVal) (k : string) : keeps (@get World R v k).
Proof. destruct v; simpl; (apply keeps_ret || apply keeps_throw). Qed.

Create HintDb keeps.
#[local] Hint Resolve keeps_ret keeps_throw keeps_return keeps_read
  keeps_update_dom keeps_emit keeps_get keeps_clear_query : keeps.

Ltac keeps_step :=
  match goal with
  | |- keeps (bind _ _) => apply keeps_bind; [|intros ?]
  | |- keeps (try_catch _ _) => apply keeps_try_catch; [|intros ?]
  | |- keeps (try_finally _ _) => apply keeps_try_finally
  | |- keeps (call _) => apply keeps_call
  | |- keeps (spawn _) => apply keeps_spawn
  | |- keeps (for_each _ _) => apply keeps_for_each; intros ?
  | |- keeps (when _ _) => apply keeps_when
  | |- keeps (update_globals _) =>
      apply keeps_update_globals; intros ?; reflexivity
  | |- keeps (if ?c then _ else _) => destruct c
  | |- keeps (match ?x with _ => _ end) => destruct x
  | |- keeps (let _ := _ in _) => cbv zeta
  | |- _ => solve [auto with keeps]
  end.

Ltac keeps_tac := repeat keeps_step.

Lemma keeps_showToast {R : Type} m t : keeps (@showToast R m t).
Proof. unfold showToast. keeps_tac. Qed.

Lemma keeps_setApiCallState {R : Type} b : keeps (@setApiCallState R b).
Proof.
  unfold setApiCallState, disableAllUIInteractions, enableAllUIInteractions.
  keeps_tac.
Qed.

#[local] Hint Resolve keeps_showToast keeps_setApiCallState : keeps.

Lemma keeps_show_pagination {R : Type} : keeps (@show_pagination R).
Proof. unfold show_pagination. keeps_tac. Qed.

Lemma keeps_sanitizeArxivId {R : Type} v : keeps (@sanitizeArxivId R v).
Proof. unfold sanitizeArxivId, not_a_function. keeps_tac. Qed.

#[local] Hint Resolve keeps_show_pagination keeps_sanitizeArxivId : keeps.

Lemma keeps_createPaperCard {R : Type} v : keeps (@createPaperCard R v).
Proof. unfold createPaperCard, method_join, not_a_function. keeps_tac. Qed.

#[local] Hint Resolve keeps_createPaperCard : keeps.

Lemma keeps_displayResults {R : Type} v : keeps (@displayResults R v).
Proof. unfold displayResults, method_startsWith, not_a_function. keeps_tac. Qed.

Lemma keeps_fetch {R : Type} env r : keeps (@fetch env R r).
Proof. unfold fetch. keeps_tac. Qed.

Lemma keeps_json {R : Type} r : keeps (@json R r).
Proof. unfold json. keeps_tac. Qed.

#[local] Hint Resolve keeps_displayResults keeps_fetch keeps_json : keeps.

Lemma keeps_fetchResults {R : Type} env : keeps (@fetchResults env R).
Proof. unfold fetchResults. keeps_tac. Qed.

#[local] Hint Resolve keeps_fetchResults : keeps.

Lemma keeps_showSearchView {R : Type} env b : keeps (@showSearchView env R b).
Proof. unfold showSearchView. keeps_tac. Qed.

Lemma keeps_showPaperView {R : Type} : keeps (@showPaperView R).
Proof. unfold showPaperView. keeps_tac. Qed.

Lemma keeps_own_or_reference {R : Type} v k d : keeps (@own_or_reference R v k d).
Proof. unfold own_or_reference. keeps_tac. Qed.

#[local] Hint Resolve keeps_showSearchView keeps_showPaperView
  keeps_own_or_reference : keeps.

Lemma keeps_displayPaper {R : Type} v : keeps (@displayPaper R v).
Proof. unfold displayPaper, not_a_function. keeps_tac. Qed.

Lemma keeps_hasSummary {R : Type} v : keeps (@hasSummary R v).
Proof. unfold hasSummary, method_trim, not_a_function. keeps_tac. Qed.

Lemma keeps_enqueuePaper {R : Type} env v : keeps (@enqueuePaper env R v).
Proof. unfold enqueuePaper. keeps_tac. Qed.

Lemma keeps_pushState {R : Type} env u : keeps (@pushState env R u).
Proof. unfold pushState. keeps_tac. Qed.

Lemma keeps_setButtonLoading {R : Type} b l : keeps (@setButtonLoading R b l).
Proof. unfold setButtonLoading. keeps_tac. Qed.

#[local] Hint Resolve keeps_displayPaper keeps_hasSummary keeps_enqueuePaper
  keeps_pushState keeps_setButtonLoading : keeps.

Lemma keeps_processPaperSummary {R : Type} env v b :
  keeps (@processPaperSummary env R v b).
Proof. unfold processPaperSummary, method_includes, not_a_function. keeps_tac. Qed.

Lemma keeps_fetchPaper {R : Type} env id : keeps (@fetchPaper env R id).
Proof. unfold fetchPaper. keeps_tac. Qed.

Lemma keeps_displayUploadsList {R : Type} : keeps (@displayUploadsList R).
Proof. unfold displayUploadsList. keeps_tac. Qed.

#[local] Hint Resolve keeps_processPaperSummary keeps_fetchPaper
  keeps_displayUploadsList : keeps.

Lemma keeps_showUploadsView {R : Type} : keeps (@showUploadsView R).
Proof. unfold showUploadsView. keeps_tac. Qed.

Lemma keeps_checkPaperHashExists {R : Type} env h :
  keeps (@checkPaperHashExists env R h).
Proof. unfold checkPaperHashExists. keeps_tac. Qed.

Lemma keeps_resetUploadSteps {R : Type} : keeps (@resetUploadSteps R).
Proof. unfold resetUploadSteps. keeps_tac. Qed.

Lemma keeps_setUploadButtonLoading {R : Type} b : keeps (@setUploadButtonLoading R b).
Proof. unfold setUploadButtonLoading. keeps_tac. Qed.

Lemma keeps_convertHtmlToPdfBlob {R : Type} env h :
  keeps (@convertHtmlToPdfBlob env R h).
Proof. unfold convertHtmlToPdfBlob. keeps_tac. Qed.

Lemma keeps_addUploadToStorage {R : Type} u : keeps (@addUploadToStorage R u).
Proof. unfold addUploadToStorage. keeps_tac. Qed.

#[local] Hint Resolve keeps_showUploadsView keeps_checkPaperHashExists
  keeps_resetUploadSteps keeps_setUploadButtonLoading keeps_convertHtmlToPdfBlob
  keeps_addUploadToStorage : keeps.

Lemma keeps_existing_summary_found env m : keeps (existing_summary_found env m).
Proof. unfold existing_summary_found. keeps_tac. Qed.

#[local] Hint Resolve keeps_existing_summary_found : keeps.

Lemma keeps_hash_check env b : keeps (hash_check env b).
Proof. unfold hash_check. keeps_tac. Qed.

#[local] Hint Resolve keeps_hash_check : keeps.

Lemma keeps_uploadFile env : keeps (uploadFile env).
Proof. unfold uploadFile. keeps_tac. Qed.

Lemma keeps_uploadFile_later {R : Type} f : keeps (@uploadFile_later R f).
Proof. unfold uploadFile_later. keeps_tac. Qed.

Lemma keeps_listener env ev w l :
  ev <> QuerySubmitClick -> ev <> QuerySubmitEnter ->
  listener env ev w = Some l -> keeps l.
Proof.
  intros H1 H2 Hl. destruct ev; try congruence; simpl in Hl;
    try (injection Hl as <-);
    try (destruct (nth_error _ _) as [[c|cards]|] eqn:E; try discriminate;
         injection Hl as <-);
    try (destruct (nth_error _ _) as [up|] eqn:E; try discriminate;
         injection Hl as <-).
  all: unfold handleSortChange, handlePageChange, searchTab_click,
    uploadsTab_click, returnToSearchBtn_click, window_popstate,
    summarizeButton_click, uploadCard_click, uploadButton_click, no_keys;
    keeps_tac.
Qed.

Lemma reported_no_query (r : Completion unit unit * World) :
  no_query (snd r) -> no_query (reported r).
Proof. destruct r as [[a|x|e] w]; simpl; auto. Qed.

(** Nothing that happens on the page, a query submission apart, stores a
    query. *)
Lemma happen_keeps_no_query env h w :
  submits_query h = false -> no_query w -> no_query (happen env h w).
Proof.
  intros Hh H. destruct h as [ev|f|f]; simpl.
  - unfold dispatch. destruct (listener env ev w) as [l|] eqn:El; [|exact H].
    assert (Hk : keeps l).
    { apply (@keeps_listener env ev w l); [| |exact El];
        intros ->; discriminate. }
    specialize (Hk w H). destruct (l w) as [[a|r|e] w1]; simpl in *; assumption.
  - apply reported_no_query. unfold uploadInput_change.
    apply keeps_spawn; [apply keeps_uploadFile|exact H].
  - apply reported_no_query. apply keeps_uploadFile_later. exact H.
Qed.

Lemma happen_all_keeps_no_query env hs w :
  forallb (fun h => negb (submits_query h)) hs = true ->
  no_query w -> no_query (happen_all env hs w).
Proof.
  revert w. induction hs as [|h hs IH]; intros w Hhs H; [exact H|].
  simpl in Hhs. apply andb_true_iff in Hhs as [Hh Hrest]. simpl.
  apply IH; [exact Hrest|]. apply happen_keeps_no_query; [|exact H].
  now destruct (submits_query h).
Qed.

(** C10. Entering the uploads view empties the stored query and the search
    input, whatever becomes of the list of uploads. As long as no query is
    submitted, whatever else happens on the page (user events, uploads, the
    upload dialog closing) the stored query stays empty, so that a return to
    the search view hides the pagination and issues no request. *)
Theorem uploads_view_clears_query (env : Env) (w : World) (hs : list Happening)
    (skipFetch : bool) :
  forallb (fun h => negb (submits_query h)) hs = true ->
  let entered := snd (showUploadsView (R:=unit) w) in
  let later := happen_all env hs entered in
  let back := showSearchView (R:=unit) env skipFetch later in
  currentView (globals entered) = uploads
  /\ currentQuery (globals entered) = []
  /\ searchInput_value (dom entered) = []
  /\ display (dom entered) pagination = d_none
  /\ currentQuery (globals later) = []
  /\ fst back = Normal tt
  /\ currentView (globals (snd back)) = search
  /\ display (dom (snd back)) pagination = d_none
  /\ trace (snd back) = trace later.
Proof.
  intros Hhs entered later back.
  assert (He : currentView (globals entered) = uploads
               /\ currentQuery (globals entered) = []
               /\ searchInput_value (dom entered) = []
               /\ display (dom entered) pagination = d_none).
  { subst entered. unfold showUploadsView, bind, update_globals, update_dom.
    simpl.
    match goal with
    | |- context [displayUploadsList ?w0] =>
        destruct (displayUploadsList_frame w0) as (Hg & _ & Hs & Hd)
    end.
    rewrite Hg, Hs, Hd. simpl. repeat split. }
  destruct He as (Hv & Hq & Hs & Hp).
  assert (Hl : currentQuery (globals later) = []).
  { apply (@happen_all_keeps_no_query env hs entered Hhs Hq). }
  repeat split; try assumption.
  all: subst back; unfold showSearchView, show_pagination, bind, update_globals,
    update_dom, read, when, ret; simpl; rewrite Hl; simpl;
    rewrite ?andb_false_r; simpl; rewrite ?Hl; simpl; reflexivity.
Qed.

Lemma uploads_view_clears_query_witness :
  let entered := snd (showUploadsView (R:=unit) one_upload_world) in
  let later :=
    happen_all library [UserDoes (UploadCardClick 0); UserDoes ReturnClick]
      entered in
  let back := showSearchView (R:=unit) library false later in
  currentView (globals entered) = uploads
  /\ currentQuery (globals entered) = []
  /\ searchInput_value (dom entered) = []
  /\ display (dom entered) pagination = d_none
  /\ currentQuery (globals later) = []
  /\ fst back = Normal tt
  /\ currentView (globals (snd back)) = search
  /\ display (dom (snd back)) pagination = d_none
  /\ trace (snd back) = trace later.
Proof.
  apply (@uploads_view_clears_query library one_upload_world
           [UserDoes (UploadCardClick 0); UserDoes ReturnClick] false).
  reflexivity.
Defined.

(** ** Release of the lock *)

Lemma window_prevPageButton : window_property (js "prevPageButton") = WUndefined.
Proof. vm_compute; reflexivity. Qed.

Lemma window_nextPageButton : window_property (js "nextPageButton") = WUndefined.
Proof. vm_compute; reflexivity. Qed.

Lemma setApiCallState_false_released {R : Type} (w : World) :
  exists w', setApiCallState (R:=R) false w = (Normal tt, w')
             /\ released w' /\ trace w' = trace w.
Proof.
  unfold setApiCallState, enableAllUIInteractions, bind, update_globals, update_dom.
  rewrite window_prevPageButton, window_nextPageButton. simpl.
  eexists. split; [reflexivity|]. split; reflexivity.
Qed.

Lemma setApiCallState_true_normal {R : Type} (w : World) :
  exists w', setApiCallState (R:=R) true w = (Normal tt, w').
Proof.
  unfold setApiCallState, disableAllUIInteractions, bind, update_globals, update_dom.
  simpl. eexists. reflexivity.
Qed.

(** A finalizer that completes normally and establishes [Q] establishes it
    for the whole [try], whatever the body does. *)
Lemma try_finally_post {S R A : Type} (body : Stmt S R A) (fin : Stmt S R unit)
    (Q : S -> Prop) :
  (forall w1, exists w2, fin w1 = (Normal tt, w2) /\ Q w2) ->
  forall w, exists w2, try_finally body fin w = (fst (body w), w2) /\ Q w2.
Proof.
  intros Hfin w. unfold try_finally. destruct (body w) as [c w1]. simpl.
  destruct (Hfin w1) as (w2 & -> & HQ). now exists w2.
Qed.

Lemma try_catch_handled {S R A : Type} (body : Stmt S R A)
    (handler : Err -> Stmt S R A) :
  (forall e w, exists a w', handler e w = (Normal a, w')) ->
  forall w e, fst (try_catch body handler w) <> Throw e.
Proof.
  intros Hh w e. unfold try_catch.
  destruct (body w) as [[a|r|e'] w1]; simpl; try discriminate.
  destruct (Hh e' w1) as (a & w' & ->). discriminate.
Qed.

Lemma call_unit {S R : Type} (body : Stmt S unit unit) (w w' : S)
    (c : Completion unit unit) :
  body w = (c, w') -> (forall e, c <> Throw e) ->
  call (R:=R) body w = (Normal tt, w').
Proof.
  intros H Hc. unfold call. rewrite H. destruct c as [[]|[]|e]; try reflexivity.
  now destruct (Hc e).
Qed.

Lemma spawn_normal {R : Type} (body : M unit unit) (w : World) :
  exists w', spawn (R:=R) body w = (Normal tt, w').
Proof.
  unfold spawn. destruct (body w) as [[a|r|e] w1]; unfold emit; eexists; reflexivity.
Qed.

Lemma show_pagination_normal {R : Type} (w : World) :
  exists w', show_pagination (R:=R) w = (Normal tt, w').
Proof.
  unfold show_pagination, bind, read, update_dom.
  destruct (currentView (globals w)), (nonempty (currentQuery (globals w)));
    eexists; reflexivity.
Qed.

Lemma showSearchView_normal {R : Type} (env : Env) (skipFetch : bool) (w : World) :
  exists w', showSearchView (R:=R) env skipFetch w = (Normal tt, w').
Proof.
  unfold showSearchView, bind, update_globals, update_dom, read, when, ret.
  cbv beta iota.
  match goal with |- context [if ?c then spawn _ else _] => destruct c end.
  - match goal with |- context [spawn ?b ?w0] =>
      destruct (@spawn_normal R b w0) as (w1 & ->) end.
    apply show_pagination_normal.
  - match goal with |- context [if ?c then _ else _] => destruct c end;
      apply show_pagination_normal.
Qed.

(** The search fetch completes normally with the lock released, on every
    path. *)
Theorem fetchResults_releases {R : Type} (env : Env) (w : World) :
  exists w', fetchResults (R:=R) env w = (Normal tt, w') /\ released w'.
Proof.
  unfold fetchResults.
  match goal with |- context [try_finally ?b ?f] =>
    destruct (@try_finally_post _ _ _ b f released) with (w := w)
      as (w2 & H & Hr) end.
  { intros w1. unfold bind, update_dom. simpl.
    match goal with |- context [setApiCallState false ?wb] =>
      destruct (@setApiCallState_false_released unit wb) as (w2 & -> & Hr & _) end.
    now exists w2. }
  exists w2. split; [|exact Hr].
  eapply call_unit; [exact H|]. intros e. apply try_catch_handled.
  intros e0 w0. unfold showToast, emit. eexists. eexists. reflexivity.
Qed.

(** The paper fetch completes normally with the lock released, on every
    path. *)
Theorem fetchPaper_releases {R : Type} (env : Env) (arxivId : jsstring) (w : World) :
  exists w', fetchPaper (R:=R) env arxivId w = (Normal tt, w') /\ released w'.
Proof.
  unfold fetchPaper.
  destruct (@setApiCallState_true_normal unit w) as (w0 & H0).
  match goal with |- context [try_finally ?b ?f] =>
    destruct (@try_finally_post _ _ _ b f released) with (w := w0)
      as (w2 & H & Hr) end.
  { intros w1.
    destruct (@setApiCallState_false_released unit w1) as (w2 & -> & Hr & _).
    now exists w2. }
  exists w2. split; [|exact Hr].
  eapply call_unit.
  - unfold bind at 1. rewrite H0. exact H.
  - intros e. apply try_catch_handled. intros e0 w1.
    unfold bind. destruct (@showSearchView_normal unit env false w1) as (w3 & ->).
    unfold showToast, emit. eexists. eexists. reflexivity.
Qed.

(** The upload completes normally with the lock released, on every path. *)
Theorem uploadFile_releases (env : Env) (w : World) (f : File) :
  uploadInput_files (dom w) = Some f ->
  exists w', uploadFile env w = (Normal tt, w') /\ released w'.
Proof.
  intros Hf. unfold uploadFile.
  destruct (@setApiCallState_true_normal unit w) as (w0 & H0).
  unfold bind at 1. unfold read at 1. unfold call. cbv beta iota. rewrite Hf.
  unfold bind at 1. rewrite H0.
  unfold setUploadButtonLoading.
  unfold bind at 1. unfold bind at 1. unfold update_dom at 1. cbv beta iota.
  unfold update_dom at 1. cbv beta iota.
  unfold bind at 1. unfold update_dom at 1. cbv beta iota zeta.
  match goal with |- context [try_finally ?b ?f ?wa] =>
    destruct (@try_finally_post _ _ _ b f released) with (w := wa)
      as (w2 & H & Hr) end.
  { intros wa.
    unfold setUploadButtonLoading, setApiCallState, enableAllUIInteractions,
      bind, update_globals, update_dom.
    rewrite window_prevPageButton, window_nextPageButton. simpl.
    eexists. split; reflexivity. }
  exists w2. split; [|exact Hr]. rewrite H.
  match goal with |- context [fst (try_catch ?b ?h ?wa)] =>
    pose proof (@try_catch_handled _ _ _ b h) as Hh;
    destruct (fst (try_catch b h wa)) as [[]|[]|e] eqn:E end; try reflexivity.
  exfalso. eapply Hh; [|exact E].
  intros e0 wa. unfold bind, update_dom, showToast, emit.
  eexists. eexists. reflexivity.
Qed.

Lemma processPaperSummary_finalizer_released (button : option nat) (wa : World) :
  exists w2,
    (match button with
     | Some b => setButtonLoading (R:=unit) b false
     | None => ret tt
     end ;; setApiCallState false) wa = (Normal tt, w2) /\ released w2.
Proof.
  unfold setButtonLoading, setApiCallState, enableAllUIInteractions,
    bind, update_globals, update_dom, ret.
  rewrite window_prevPageButton, window_nextPageButton.
  destruct button; simpl; eexists; split; reflexivity.
Qed.

(** The processing of a paper summary completes normally with the lock
    released when the record carries a sanitized identifier or a textual
    identifier. *)
Theorem processPaperSummary_releases {R : Type} (env : Env)
    (fields : list (jsstring * JsVal)) (button : option nat) (w : World) :
  (truthy (lookup (js "sanitized_arxiv_id") fields) = true
   \/ exists s, lookup (js "arxiv_id") fields = JStr s) ->
  exists w', processPaperSummary (R:=R) env (JObj fields) button w = (Normal tt, w')
             /\ released w'.
Proof.
  intros Hid. unfold processPaperSummary.
  destruct (@setApiCallState_true_normal unit w) as (w0 & H0).
  assert (Hprefix : exists id : JsVal,
    forall k : JsVal -> M unit unit,
      (original <- get (JObj fields) "original_arxiv_id" ;;
       _ <- (if truthy original then ret original else get (JObj fields) "arxiv_id") ;;
       sanitized <- get (JObj fields) "sanitized_arxiv_id" ;;
       sanitizedArxivId <- (if truthy sanitized then ret sanitized
                            else (id <- get (JObj fields) "arxiv_id" ;;
                                  sanitizeArxivId id)) ;;
       k sanitizedArxivId) w0 = k id w0).
  { unfold get, bind, ret.
    destruct (truthy (lookup (js "original_arxiv_id") fields));
      destruct (truthy (lookup (js "sanitized_arxiv_id") fields)) eqn:Es;
      try (eexists; intros k; reflexivity);
      (destruct Hid as [Hid|[s Hs]]; [discriminate|]; rewrite Hs; simpl;
       eexists; intros k; reflexivity). }
  destruct Hprefix as (id & Hprefix).
  unfold call. unfold bind at 1. rewrite H0. rewrite Hprefix.
  match goal with |- context [try_finally ?b ?f ?wa] =>
    destruct (@try_finally_post _ _ _ b f released) with (w := wa)
      as (w2 & H & Hr) end.
  { apply processPaperSummary_finalizer_released. }
  exists w2. split; [|exact Hr]. rewrite H.
  match goal with |- context [fst (try_catch ?b ?h ?wa)] =>
    pose proof (@try_catch_handled _ _ _ b h) as Hh;
    destruct (fst (try_catch b h wa)) as [[]|[]|e] eqn:E end; try reflexivity.
  exfalso. eapply Hh; [|exact E].
  intros e0 wa. unfold showToast, emit. eexists. eexists. reflexivity.
Qed.

(** A record with neither identifier makes the operation throw after it has
    taken the lock and before it enters the [try]: the lock stays held. *)
Theorem processPaperSummary_without_id_keeps_lock {R : Type} (env : Env)
    (fields : list (jsstring * JsVal)) (button : option nat) (w : World) :
  truthy (lookup (js "sanitized_arxiv_id") fields) = false ->
  lookup (js "arxiv_id") fields = JUndefined
  \/ lookup (js "arxiv_id") fields = JNull ->
  exists e w', processPaperSummary (R:=R) env (JObj fields) button w = (Throw e, w')
               /\ isApiCallInProgress (globals w') = true.
Proof.
  intros Hs Hid. unfold processPaperSummary, call, setApiCallState,
    disableAllUIInteractions, get, bind, update_globals, update_dom, ret.
  simpl. rewrite Hs.
  destruct (truthy (lookup (js "original_arxiv_id") fields)); simpl;
    destruct Hid as [-> | ->]; simpl; eexists; eexists; split; reflexivity.
Qed.

(** C1. The claim fails on the code at a search result without identifier:
    the lock is free when the results are shown; pressing the summarize
    button of the result takes the lock, the operation ends in a thrown
    TypeError that nothing catches, and the lock is still held when its task
    is over, so that the next transition is refused. *)
Theorem summarize_without_id_leaves_lock_held :
  isApiCallInProgress (globals last_page_shown) = false
  /\ isApiCallInProgress (globals summarize_pressed) = true
  /\ (exists m, last (trace summarize_pressed) OpenFilePicker
                = UnhandledRejection (mkErr TypeError m))
  /\ dispatch last_page_host SearchTabClick summarize_pressed
     = refused summarize_pressed.
Proof.
  split; [vm_compute; reflexivity|]. split; [vm_compute; reflexivity|].
  split; [eexists; vm_compute; reflexivity|]. vm_compute; reflexivity.
Qed.

(** ** Pagination *)

(** Every release of the lock leaves both page buttons enabled. *)
Lemma release_enables_page_buttons (w : World) :
  disabled (dom (snd (setApiCallState (R:=unit) false w))) prevPageButton = false
  /\ disabled (dom (snd (setApiCallState (R:=unit) false w))) nextPageButton = false.
Proof.
  unfold setApiCallState, enableAllUIInteractions, bind, update_globals, update_dom.
  rewrite window_prevPageButton, window_nextPageButton. simpl. split; reflexivity.
Qed.

(** C4. The claim fails on the code after a search that returns the only
    page: no operation is in flight, the current page index is 0 and the
    response said that there is no next page, and both page buttons are
    enabled. *)
Theorem page_buttons_enabled_on_only_page :
  isApiCallInProgress (globals last_page_shown) = false
  /\ currentPage (globals last_page_shown) = 0%Z
  /\ disabled (dom last_page_shown) prevPageButton = false
  /\ hasNextPage (globals last_page_shown) = JBool false
  /\ disabled (dom last_page_shown) nextPageButton = false.
Proof. vm_compute. repeat split. Qed.

(** ** Task submission *)

(** A failed submission makes [enqueuePaper] return [false] after its single
    request; it does not throw. *)
Lemma enqueuePaper_failure {R : Type} (env : Env) (paperData : JsVal) (w : World) :
  (exists e, net_enqueue env paperData = NetFail e)
  \/ (exists ok, net_enqueue env paperData = Reply ok None)
  \/ (exists ok fields, net_enqueue env paperData = Reply ok (Some (JObj fields))
                        /\ truthy (lookup (js "error") fields) = true) ->
  enqueuePaper (R:=R) env paperData w
  = (Normal false, sent (Fetch (PostEnqueue paperData)) w).
Proof.
  unfold enqueuePaper, call, try_catch, fetch, json, get, bind, emit, ret,
    return_, throw, reply_of, sent.
  intros [[e H]|[[ok H]|(ok & fields & H & He)]]; rewrite H; simpl;
    try rewrite He; reflexivity.
Qed.

(** C8. The claim fails on the code when the queue answers a submission with
    an error: after an upload, and after a request for the summary of a paper
    that the backend does not know, the single submission is followed by the
    notice of success, and no notice of an error is shown. *)
Theorem failed_submission_reported_as_success :
  (count is_task_submission (trace uploaded_with_queue_down) = 1%nat
   /\ count is_error_toast (trace uploaded_with_queue_down) = 0%nat
   /\ In (Toast (JStr (js "Paper has been queued for summarization")) success)
        (trace uploaded_with_queue_down))
  /\ (count is_task_submission (trace requested_with_queue_down) = 1%nat
      /\ count is_error_toast (trace requested_with_queue_down) = 0%nat
      /\ In (Toast (JStr (js "Paper has been queued for summarizing")) success)
           (trace requested_with_queue_down)).
Proof.
  split; (split; [vm_compute; reflexivity|]); (split; [vm_compute; reflexivity|]).
  - vm_compute. do 3 right. left. reflexivity.
  - vm_compute. do 2 right. left. reflexivity.
Qed.

(** ** Deduplication before the upload *)

Lemma own_or_reference_shown {R : Type} (fields : list (jsstring * JsVal))
    (k : string) (dflt : JsVal) (w : World) :
  own_or_reference (R:=R) (JObj fields) k dflt w
  = (Normal (shown_field fields k dflt), w).
Proof.
  unfold own_or_reference, shown_field, get, bind, ret.
  destruct (truthy (lookup (js k) fields)); [reflexivity|].
  destruct (lookup (js "arxivReference") fields) as [| |b|z|s|l|ref]; simpl;
    try reflexivity;
    repeat match goal with |- context [if ?c then _ else _] => destruct c end;
    reflexivity.
Qed.

Ltac shown_fields :=
  repeat match goal with
         | |- context [@own_or_reference ?R (JObj ?f) ?k ?d ?w] =>
             rewrite (@own_or_reference_shown R f k d w)
         end.

Lemma displayPaper_text {R : Type} (fields : list (jsstring * JsVal)) (w : World) :
  summary_is_text fields = true ->
  displayPaper (R:=R) (JObj fields) w
  = (Normal tt, paper_shown (record_markup fields) w).
Proof.
  intros Ht. unfold displayPaper, record_markup, summary_is_text in *.
  unfold bind at 1. shown_fields.
  destruct (shown_field fields "summary" (JStr [])); try discriminate.
  unfold bind at 1. unfold bind at 1. cbv beta iota. unfold ret at 1.
  cbv beta iota. shown_fields.
  unfold bind at 1. shown_fields.
  reflexivity.
Qed.

Lemma displayPaper_not_text {R : Type} (fields : list (jsstring * JsVal))
    (w : World) :
  summary_is_text fields = false ->
  exists e, displayPaper (R:=R) (JObj fields) w = (Throw e, w).
Proof.
  intros Ht. unfold displayPaper, summary_is_text in *.
  unfold bind at 1. shown_fields.
  destruct (shown_field fields "summary" (JStr [])); try discriminate;
    eexists; reflexivity.
Qed.

(** The branch taken on a hit never falls through to the upload: it ends in
    a [return] or in a throw, emits neither an upload nor a submission, and
    shows the record when its summary is text. *)
Lemma existing_summary_found_spec (env : Env) (fields : list (jsstring * JsVal))
    (w : World) :
  exists c w' t,
    existing_summary_found env (JObj fields) w = (c, w')
    /\ (forall a, c <> Normal a)
    /\ trace w' = trace w ++ t
    /\ quiet t
    /\ (summary_is_text fields = true ->
        c = Return tt
        /\ paperContent (dom w') = Some (record_markup fields)
        /\ currentView (globals w') = paper
        /\ display (dom w') paperView = d_block).
Proof.
  unfold existing_summary_found, resetUploadSteps, showToast, pushState, when,
    try_catch, bind, update_dom, update_globals, emit, read, get, ret, return_,
    throw.
  cbn [globals dom trace fst snd].
  destruct (summary_is_text fields) eqn:Etext.
  - repeat match goal with
           | |- context [@displayPaper ?R (JObj fields) ?wa] =>
               rewrite (@displayPaper_text R fields wa Etext)
           | |- context [isFileProtocol ?wa] => destruct (isFileProtocol wa)
           | |- context [truthy ?v] => destruct (truthy v)
           | |- context [pushState_throws env] => destruct (pushState_throws env)
           | _ => progress cbn [negb andb globals dom trace]
           end.
    all: eexists; eexists; eexists; split; [reflexivity|];
      split; [discriminate|]; cbn [globals dom trace paper_shown];
      split; [rewrite <- ?app_assoc; reflexivity|];
      split; [reflexivity|]; intros _; repeat split.
  - repeat match goal with
           | |- context [@displayPaper ?R (JObj fields) ?wa] =>
               let e := fresh "e" in
               destruct (@displayPaper_not_text R fields wa Etext) as [e ->]
           | |- context [isFileProtocol ?wa] => destruct (isFileProtocol wa)
           | |- context [truthy ?v] => destruct (truthy v)
           | |- context [pushState_throws env] => destruct (pushState_throws env)
           | _ => progress cbn [negb andb globals dom trace]
           end.
    all: eexists; eexists; eexists; split; [reflexivity|];
      split; [discriminate|]; cbn [globals dom trace];
      split; [rewrite <- ?app_assoc; reflexivity|];
      split; [reflexivity|]; discriminate.
Qed.

Lemma hash_check_hit (env : Env) (pdf : Blob) (h : jsstring)
    (fields : list (jsstring * JsVal)) (w : World) :
  Hasher.generatePdfHash env pdf = Some h ->
  h <> [] ->
  net_hash env h = Reply true (Some (JObj fields)) ->
  truthy (lookup (js "arxiv_id") fields) = true ->
  hash_check env pdf w
  = existing_summary_found env (JObj fields) (sent (Fetch (PostHash h)) w).
Proof.
  intros Hh Hne Hnet Hid. unfold hash_check. rewrite Hh.
  destruct h as [|c h]; [congruence|].
  unfold checkPaperHashExists, call, try_catch, fetch, json, when, get, bind,
    emit, ret, return_, reply_of.
  rewrite Hnet. cbn [fst snd negb truthy]. rewrite Hid. reflexivity.
Qed.

Lemma quiet_counts (t : list Effect) :
  quiet t ->
  count is_artifact_upload t = 0%nat /\ count is_task_submission t = 0%nat.
Proof.
  unfold quiet, count. induction t as [|e t IH]; [split; reflexivity|].
  simpl. intros H. apply andb_true_iff in H as [He Ht].
  destruct (IH Ht) as [I1 I2].
  destruct e as [| [] | | | | | |]; simpl in *; try discriminate; auto.
Qed.

(** The rest of [uploadFile] once the hash check has found a record: the
    [catch], the [finally], and the end of the call. *)
Ltac finish_hit :=
  match goal with
  | |- context [existing_summary_found ?env (JObj ?fields) ?wa] =>
      let c := fresh "c" in let w' := fresh "w'" in let t := fresh "t" in
      let Hc := fresh "Hc" in let Ht := fresh "Ht" in let Hq := fresh "Hq" in
      let Hs := fresh "Hs" in
      destruct (existing_summary_found_spec env fields wa)
        as (c & w' & t & -> & Hc & Ht & Hq & Hs);
      unfold sent in Ht; cbn [globals dom trace] in Ht;
      destruct c as [a|[]|e]; [now destruct (Hc a)| |];
      unfold enableAllUIInteractions, bind, update_globals, update_dom,
        showToast, emit;
      rewrite window_prevPageButton, window_nextPageButton;
      cbn [globals dom trace];
      eexists; eexists; (split; [reflexivity|]); cbn [globals dom trace];
      rewrite Ht, <- ?app_assoc;
      (split; [reflexivity|]);
      match goal with
      | |- count is_artifact_upload ?l = _ /\ _ =>
          let H1 := fresh "H1" in let H2 := fresh "H2" in
          destruct (@quiet_counts l) as [H1 H2];
          [unfold quiet; rewrite ?forallb_app; unfold quiet in Hq; rewrite Hq;
           reflexivity|];
          split; [exact H1|]; split; [exact H2|];
          let Hx := fresh in
          intros Hx; destruct (Hs Hx) as (Hr & Hp & Hv & Hd);
          try discriminate Hr; simpl; auto
      end
  end.

(** C2. When the deduplication probe of an upload hits (the artifact made of
    the chosen file has a non-empty fingerprint that the backend answers with
    a record carrying an identifier), the upload performs no request to the
    artifact-upload endpoint and none to the task-submission endpoint, and the
    existing record is what the paper view shows (a record whose summary is
    text). *)
Theorem dedup_hit_skips_upload (env : Env) (w : World) (f : File) (pdf : Blob)
    (fingerprint : jsstring) (fields : list (jsstring * JsVal)) :
  uploadInput_files (dom w) = Some f ->
  upload_artifact env f = Some pdf ->
  Hasher.generatePdfHash env pdf = Some fingerprint ->
  fingerprint <> [] ->
  dedup_hit env fingerprint (JObj fields) ->
  exists w' t,
    uploadFile env w = (Normal tt, w')
    /\ trace w' = trace w ++ t
    /\ count is_artifact_upload t = 0%nat
    /\ count is_task_submission t = 0%nat
    /\ (summary_is_text fields = true ->
        paperContent (dom w') = Some (record_markup fields)
        /\ currentView (globals w') = paper
        /\ display (dom w') paperView = d_block).
Proof.
  intros Hf Hart Hh Hne (fields' & Heq & Hnet & Hid). injection Heq as <-.
  unfold uploadFile, upload_artifact in *.
  unfold call. unfold bind at 1. unfold read at 1. cbv beta iota. rewrite Hf.
  unfold setApiCallState, disableAllUIInteractions, setUploadButtonLoading.
  unfold bind at 1. unfold bind at 1. unfold update_globals at 1. cbv beta iota.
  unfold update_dom at 1. cbv beta iota.
  unfold bind at 1. unfold bind at 1. unfold update_dom at 1. cbv beta iota.
  unfold update_dom at 1. cbv beta iota.
  unfold bind at 1. unfold update_dom at 1. cbv beta iota zeta.
  cbn [globals dom trace].
  unfold try_finally, try_catch.
  unfold bind at 1. unfold update_dom at 1. cbv beta iota. cbn [globals dom trace].
  unfold bind at 1.
  destruct (jseqb (toLowerCase env (last_segment (file_name f))) (js "pdf")) eqn:E1.
  - injection Hart as <-.
    unfold bind at 1.
    match goal with |- context [hash_check env (file_data f) ?wa] =>
      rewrite (@hash_check_hit env (file_data f) fingerprint fields wa
                 Hh Hne Hnet Hid) end.
    finish_hit.
  - destruct (jseqb (toLowerCase env (last_segment (file_name f))) (js "docx"))
      eqn:E2.
    + destruct (mammoth_convertToHtml env (file_data f)) as [html|]; [|discriminate].
      unfold bind at 1. unfold update_dom at 1. cbv beta iota.
      unfold bind at 1. unfold update_dom at 1. cbv beta iota.
      unfold bind at 1. unfold ret at 1. cbv beta iota.
      unfold bind at 1. unfold convertHtmlToPdfBlob at 1. rewrite Hart.
      unfold ret at 1. cbv beta iota.
      unfold bind at 1.
      match goal with |- context [hash_check env pdf ?wa] =>
        rewrite (@hash_check_hit env pdf fingerprint fields wa Hh Hne Hnet Hid) end.
      finish_hit.
    + destruct (jseqb (toLowerCase env (last_segment (file_name f))) (js "txt"))
        eqn:E3; [|discriminate].
      unfold bind at 1. unfold update_dom at 1. cbv beta iota.
      unfold bind at 1. unfold update_dom at 1. cbv beta iota zeta.
      unfold bind at 1. unfold convertHtmlToPdfBlob at 1. rewrite Hart.
      unfold ret at 1. cbv beta iota.
      unfold bind at 1.
      match goal with |- context [hash_check env pdf ?wa] =>
        rewrite (@hash_check_hit env pdf fingerprint fields wa Hh Hne Hnet Hid) end.
      finish_hit.
Qed.

Lemma dedup_hit_skips_upload_witness :
  exists w' t,
    uploadFile archive resnet_chosen = (Normal tt, w')
    /\ trace w' = trace resnet_chosen ++ t
    /\ count is_artifact_upload t = 0%nat
    /\ count is_task_submission t = 0%nat
    /\ (summary_is_text known_record = true ->
        paperContent (dom w') = Some (record_markup known_record)
        /\ currentView (globals w') = paper
        /\ display (dom w') paperView = d_block).
Proof.
  apply (@dedup_hit_skips_upload archive resnet_chosen resnet_pdf
           (file_data resnet_pdf)
           (js "deepresiduallearningforimagerecognitionkai")
           known_record).
  - reflexivity.
  - vm_compute; reflexivity.
  - vm_compute; reflexivity.
  - vm_compute; discriminate.
  - exists known_record. split; [reflexivity|]. split; vm_compute; reflexivity.
Defined.

(** ** The poll loop *)


(** The rule as stated asks for nothing that a poll could not do: on every
    response some page meets it. *)
Lemma as_stated_can_be_met (arxivId data : JsVal) (p : FirstScript.Page) :
  exists p', PollRule.as_stated arxivId data p p'.
Proof.
  unfold PollRule.as_stated.
  destruct (PollRule.outcome_of PollRule.record_absent data) as [[| |]|];
    cbn [PollRule.occurs].
  - exists (PollRule.shown (mkMarkup JNull [] []) p). repeat split. discriminate.
  - exists (PollRule.scheduled arxivId p). repeat split.
  - exists (PollRule.notice JNull p). repeat split. discriminate.
  - exists p. exact I.
Qed.

(** Read in their order, the clauses of the claim agree with the code on a
    record in progress that carries a processing error: the poll goes on. *)
Example processing_error_of_a_running_poll :
  PollRule.as_stated (JStr (js "2101.00001")) PollRule.processing_with_error
    FirstScript.polling_page
    (snd (FirstScript.pollForSummary (JStr (js "2101.00001"))
            (Reply true (Some PollRule.processing_with_error))
            FirstScript.polling_page)).
Proof. vm_compute. repeat split. Qed.





(** The scenario of the specification: the first poll finds the task in
    progress, the second finds the summary; the loop has sent two queries,
    has nothing scheduled, and displays the summary. *)
Example poll_twice_then_display :
  let p := FirstScript.poll_loop (JStr (js "1706.03762"))
             [ Reply true (Some (JObj [(js "processing", JBool true)]));
               Reply true (Some PollRule.ready_record) ]
             FirstScript.polling_page in
  FirstScript.requests p = [JStr (js "1706.03762"); JStr (js "1706.03762")]
  /\ FirstScript.timers p = []
  /\ FirstScript.loadingIndicator p = d_none
  /\ FirstScript.errorMessage p = None
  /\ FirstScript.summaryContent p
     = Some (mkMarkup (JStr (js "Attention Is All You Need"))
               (js "A. Vaswani, N. Shazeer")
               (js "The paper proposes the Transformer.")).
Proof. vm_compute. repeat split. Qed.

(* ========================================================================= *)
(** * More properties of the script *)

(** ** Identifiers and addresses *)

Lemma replace_each_slash (s : jsstring) :
  no_slash (replace_each 47%N (js "-") s) = true
  /\ List.length (replace_each 47%N (js "-") s) = List.length s
  /\ (no_slash s = true -> replace_each 47%N (js "-") s = s).
Proof.
  unfold no_slash.
  induction s as [|c t (IH1 & IH2 & IH3)]; simpl; [repeat split|].
  destruct (c =? 47)%N eqn:E; simpl.
  - split; [exact IH1|]. split; [now rewrite IH2|]. discriminate.
  - rewrite E. simpl. split; [exact IH1|]. split; [now rewrite IH2|].
    intros H. now rewrite (IH3 H).
Qed.

(** X1. [sanitizeArxivId] never leaves a separator in an
    identifier: applied to a string it returns a string of the same length
    without [/], and it returns the string itself when there was none. *)
Theorem sanitizeArxivId_no_separator {R : Type} (s : jsstring) (w : World) :
  exists s',
    sanitizeArxivId (R:=R) (JStr s) w = (Normal (JStr s'), w)
    /\ no_slash s' = true
    /\ List.length s' = List.length s
    /\ (no_slash s = true -> s' = s).
Proof.
  exists (replace_each 47%N (js "-") s). split; [reflexivity|].
  apply replace_each_slash.
Qed.

Lemma startsWith_app (p t : jsstring) : startsWith p (p ++ t) = true.
Proof. induction p as [|x p IH]; simpl; [reflexivity|]. now rewrite N.eqb_refl. Qed.

Lemma forallb_app_false {A : Type} (f : A -> bool) (a b : list A) :
  forallb f b = false -> forallb f (a ++ b) = false.
Proof. intros H. rewrite forallb_app, H. apply andb_false_r. Qed.

Lemma match_paper_id_built (href id : jsstring) :
  id <> [] -> no_slash id = true ->
  match_paper_id (href ++ js "/paper/" ++ id) = Some id.
Proof.
  intros Hne Hns. induction href as [|c h IH].
  - destruct id as [|i0 id']; [congruence|].
    change (js "/paper/") with [47;112;97;112;101;114;47]%N.
    simpl app. unfold match_paper_id.
    cbn [startsWith skipn N.eqb Pos.eqb andb nonempty].
    unfold no_slash in Hns. rewrite Hns. reflexivity.
  - change ((c :: h) ++ js "/paper/" ++ id) with (c :: (h ++ js "/paper/" ++ id)).
    cbn [match_paper_id]. fold match_paper_id.
    assert (Hrest : forallb (fun c0 => negb (c0 =? 47)%N)
                      (skipn 7 (c :: h ++ js "/paper/" ++ id)) = false).
    { change (js "/paper/") with ([47;112;97;112;101;114]%N ++ [47%N]).
      rewrite <- app_assoc. rewrite app_assoc.
      change (c :: (h ++ [47;112;97;112;101;114]%N) ++ [47%N] ++ id)
        with ((c :: (h ++ [47;112;97;112;101;114]%N)) ++ [47%N] ++ id).
      rewrite skipn_app.
      apply forallb_app_false.
      replace (7 - List.length (c :: h ++ [47;112;97;112;101;114]%N))%nat with 0%nat.
      - reflexivity.
      - cbn [List.length]. rewrite length_app. cbn [List.length]. lia. }
    rewrite Hrest. rewrite !andb_false_r. exact IH.
Qed.

Lemma includes_app (p a b : jsstring) : includes p (a ++ p ++ b) = true.
Proof.
  induction a as [|c a IH].
  - destruct (p ++ b) as [|x t] eqn:E.
    + destruct p; [reflexivity|discriminate].
    + rewrite <- E. cbn [app]. rewrite E. cbn [includes]. rewrite <- E.
      now rewrite (startsWith_app p b).
  - cbn [app includes]. rewrite IH. apply orb_true_r.
Qed.

Lemma ToString_JStr (s : jsstring) : ToString (JStr s) = s.
Proof. reflexivity. Qed.

Lemma paper_in_url_built (env : Env) (w : World) (id : jsstring) :
  id <> [] -> no_slash id = true ->
  paper_in_url (at_address (paper_url env w (JStr id)) w) = Some id.
Proof.
  intros Hne Hn.
  unfold paper_in_url, at_address, paper_url. cbn [dom location_href set_location_href].
  rewrite ToString_JStr, app_assoc, includes_app.
  now apply match_paper_id_built.
Qed.

(** X2. The address that the script makes for a paper reads back as
    that paper: for the identifier that [sanitizeArxivId] makes of a
    non-empty string, [checkForPaperInUrl] and the [popstate] listener find
    that identifier in the address pushed for it. *)
Theorem paper_address_round_trip (env : Env) (w : World) (arxivId : jsstring) :
  arxivId <> [] ->
  exists id,
    sanitizeArxivId (R:=unit) (JStr arxivId) w = (Normal (JStr id), w)
    /\ paper_in_url (at_address (paper_url env w (JStr id)) w) = Some id.
Proof.
  intros Hne.
  destruct (replace_each_slash arxivId) as (Hn & Hl & _).
  exists (replace_each 47%N (js "-") arxivId). split; [reflexivity|].
  apply paper_in_url_built; [|exact Hn].
  intros E. rewrite E in Hl. destruct arxivId; [congruence|discriminate Hl].
Qed.

Lemma paper_address_round_trip_witness :
  exists id,
    sanitizeArxivId (R:=unit) (JStr (js "hep-th/9901001")) (typed "")
    = (Normal (JStr id), typed "")
    /\ paper_in_url (at_address (paper_url offline (typed "") (JStr id)) (typed ""))
       = Some id.
Proof.
  apply (@paper_address_round_trip offline (typed "") (js "hep-th/9901001")).
  vm_compute. discriminate.
Defined.







(** ** White space *)

Lemma trimStart_blank (s : jsstring) :
  trimStart s = [] <-> forallb isWhiteSpace s = true.
Proof.
  induction s as [|c t IH]; simpl; [tauto|].
  destruct (isWhiteSpace c); simpl; [exact IH|]. split; discriminate.
Qed.

Lemma trimStart_suffix (s : jsstring) :
  exists p, s = p ++ trimStart s /\ forallb isWhiteSpace p = true.
Proof.
  induction s as [|c t (p & Hp & Hb)]; simpl; [exists []; auto|].
  destruct (isWhiteSpace c) eqn:E.
  - exists (c :: p). simpl. rewrite E, Hb. split; [now f_equal|reflexivity].
  - exists []. auto.
Qed.

(** [trim] leaves nothing exactly of the strings made of white space. *)
Lemma trim_blank (s : jsstring) :
  trim s = [] <-> forallb isWhiteSpace s = true.
Proof.
  unfold trim. split.
  - intros H. destruct (trimStart_suffix s) as (p & Hp & Hb).
    assert (H1 : trimStart (rev (trimStart s)) = []).
    { apply (f_equal (@rev N)) in H. now rewrite rev_involutive in H. }
    apply trimStart_blank in H1. rewrite forallb_forall in H1.
    rewrite Hp, forallb_app, Hb. simpl. apply forallb_forall. intros x Hx.
    apply H1. now apply -> in_rev.
  - intros H. apply trimStart_blank in H. rewrite H. reflexivity.
Qed.

Lemma nonblank_trim (s : jsstring) :
  forallb isWhiteSpace s = false -> nonempty (trim s) = true.
Proof.
  intros H. destruct (trim s) eqn:E; [|reflexivity].
  apply trim_blank in E. congruence.
Qed.

Lemma nonblank_text (fields : list (jsstring * JsVal)) (s : jsstring) :
  lookup (js "summary") fields = JStr s -> forallb isWhiteSpace s = false ->
  summary_is_text fields = true.
Proof.
  intros H Hb. unfold summary_is_text, shown_field. rewrite H.
  destruct s; [discriminate Hb|reflexivity].
Qed.

(** X5. A summary made of white space only counts as no
    summary: for a record whose summary is text, [hasSummary] answers
    whether the text has a character that is not white space. *)
Theorem hasSummary_blank {R : Type} (fields : list (jsstring * JsVal)) (s : jsstring)
    (w : World) :
  lookup (js "summary") fields = JStr s ->
  hasSummary (R:=R) (JObj fields) w = (Normal (negb (forallb isWhiteSpace s)), w).
Proof.
  intros H. unfold hasSummary, bind, method_trim, ret. cbn [truthy get].
  unfold ret. rewrite H.
  destruct (forallb isWhiteSpace s) eqn:E.
  - apply trim_blank in E. now rewrite E.
  - now rewrite (nonblank_trim s E).
Qed.

Lemma hasSummary_blank_witness :
  hasSummary (R:=unit) (JObj [(js "summary", JStr (js "   "))]) (typed "")
  = (Normal (negb (forallb isWhiteSpace (js "   "))), typed "").
Proof.
  apply (@hasSummary_blank unit [(js "summary", JStr (js "   "))] (js "   ")
           (typed "")).
  vm_compute. reflexivity.
Defined.

(** X6. Submitting a query of white space only sends no request
    and shows one error notice; the query stored before is replaced by the
    empty one, and the rest of the state stays. *)
Theorem handleSearch_blank (env : Env) (w : World) :
  isApiCallInProgress (globals w) = false ->
  forallb isWhiteSpace (searchInput_value (dom w)) = true ->
  handleSearch env w
  = (Normal tt,
     mkWorld (set_currentQuery [] (globals w)) (dom w)
       (trace w ++ [Toast (JStr (js "Please enter a search query")) error])).
Proof.
  intros Hl Hb. apply trim_blank in Hb.
  unfold handleSearch, call.
  unfold bind at 1. unfold read at 1. cbv beta iota. rewrite Hl.
  unfold when at 1. unfold bind at 1. unfold ret at 1. cbv beta iota.
  unfold bind at 1. unfold update_globals at 1. cbv beta iota.
  unfold bind at 1. unfold read at 1. cbv beta iota.
  cbn [globals dom trace currentQuery set_currentQuery]. rewrite Hb.
  reflexivity.
Qed.

Lemma handleSearch_blank_witness :
  handleSearch offline (typed "   ")
  = (Normal tt,
     mkWorld (set_currentQuery [] (globals (typed "   "))) (dom (typed "   "))
       (trace (typed "   ")
        ++ [Toast (JStr (js "Please enter a search query")) error])).
Proof.
  apply (@handleSearch_blank offline (typed "   ")).
  - reflexivity.
  - vm_compute. reflexivity.
Defined.

(** ** Names of files *)

Lemma fold_segment_no_dot (e acc : jsstring) :
  no_dot e = true ->
  fold_left (fun acc c => if (c =? 46)%N then [] else acc ++ [c]) e acc = acc ++ e.
Proof.
  unfold no_dot.
  revert acc. induction e as [|c e IH]; intros acc H; simpl.
  - now rewrite app_nil_r.
  - simpl in H. apply andb_true_iff in H as [Hc He].
    destruct (c =? 46)%N; [discriminate|]. rewrite IH by exact He.
    now rewrite <- app_assoc.
Qed.

Lemma no_dot_slash_no_dot (e : jsstring) : no_dot_slash e = true -> no_dot e = true.
Proof.
  unfold no_dot_slash, no_dot. rewrite !forallb_forall. intros H x Hx.
  specialize (H x Hx). now apply andb_true_iff in H as [_ H].
Qed.

(** X7. The name of a chosen file is taken apart at its last dot:
    for a name [base.ext] whose extension is not empty and holds neither a
    dot nor a slash, the extension that [uploadFile] tests is [ext] and the
    name under which the artifact is stored is made of [base]. *)
Theorem file_name_taken_apart (base ext : jsstring) :
  ext <> [] -> no_dot_slash ext = true ->
  last_segment (base ++ [46%N] ++ ext) = ext
  /\ strip_extension (base ++ [46%N] ++ ext) = base.
Proof.
  intros Hne He. split.
  - unfold last_segment. rewrite !fold_left_app. simpl.
    now rewrite fold_segment_no_dot by now apply no_dot_slash_no_dot.
  - induction base as [|c b IH].
    + simpl. destruct ext as [|x e']; [congruence|]. unfold no_dot_slash in He.
      cbn [nonempty andb]. rewrite He. reflexivity.
    + change ((c :: b) ++ [46%N] ++ ext) with (c :: (b ++ [46%N] ++ ext)).
      cbn [strip_extension]. fold strip_extension.
      assert (Hf : forallb (fun x => negb (x =? 47)%N && negb (x =? 46)%N)
                     (b ++ [46%N] ++ ext) = false).
      { rewrite forallb_app. simpl. apply andb_false_r. }
      rewrite Hf, !andb_false_r. now rewrite IH.
Qed.

Lemma file_name_taken_apart_witness :
  last_segment (js "my.paper" ++ [46%N] ++ js "docx") = js "docx"
  /\ strip_extension (js "my.paper" ++ [46%N] ++ js "docx") = js "my.paper".
Proof.
  apply (@file_name_taken_apart (js "my.paper") (js "docx")).
  - vm_compute. discriminate.
  - vm_compute. reflexivity.
Defined.

(** ** The record kept on a summarize button *)

Lemma apostrophe_free_obj (fs : list (jsstring * JsVal)) :
  apostrophe_free (JObj fs) = props_free fs.
Proof.
  unfold props_free. simpl. induction fs as [|[k x] t IH]; simpl; [reflexivity|].
  now rewrite IH.
Qed.

Lemma escape_no_apostrophe (s : jsstring) :
  no_apostrophe (escape_apostrophes s) = true.
Proof.
  unfold no_apostrophe, escape_apostrophes.
  induction s as [|c t IH]; simpl; [reflexivity|].
  destruct (c =? 39)%N eqn:E; simpl; [exact IH|]. now rewrite E.
Qed.

Lemma assign_free (k : jsstring) (v : JsVal) (fs : list (jsstring * JsVal)) :
  no_apostrophe k = true -> apostrophe_free v = true -> props_free fs = true ->
  props_free (assign k v fs) = true.
Proof.
  intros Hk Hv. unfold props_free. induction fs as [|[k' v'] t IH]; simpl; intros H.
  - now rewrite Hk, Hv.
  - apply andb_true_iff in H as [H1 H2]. destruct (jseqb k k'); simpl.
    + now rewrite Hk, Hv, H2.
    + now rewrite H1, IH.
Qed.

(** Induction on values, with the hypothesis for the elements of an array
    and for the properties of an object. *)
Lemma JsVal_nested_ind (P : JsVal -> Prop) :
  P JUndefined -> P JNull -> (forall b, P (JBool b)) -> (forall z, P (JNum z)) ->
  (forall s, P (JStr s)) ->
  (forall l, Forall P l -> P (JArr l)) ->
  (forall fs, Forall (fun kv => P (snd kv)) fs -> P (JObj fs)) ->
  forall v, P v.
Proof.
  intros Hu Hn Hb Hz Hs Ha Ho. fix IH 1.
  intros [| |b|z|s|l|fs]; [exact Hu|exact Hn|apply Hb|apply Hz|apply Hs| |].
  - apply Ha. induction l as [|x t IHl]; constructor; [apply IH|exact IHl].
  - apply Ho. induction fs as [|[k x] t IHl]; constructor; [apply IH|exact IHl].
Qed.

Lemma data_paper_value_obj (fs : list (jsstring * JsVal)) :
  data_paper_value (JObj fs) = JObj (clone_props fs []).
Proof. reflexivity. Qed.

(** X8. Whatever the paper, the record that the click listener
    of its summarize button reads back from the [data-paper] attribute holds
    no apostrophe, in no string and in no key: each one has become the
    entity [&apos;]. *)
Theorem data_paper_value_apostrophe_free (v : JsVal) :
  apostrophe_free (data_paper_value v) = true.
Proof.
  induction v using JsVal_nested_ind; try reflexivity.
  - simpl. apply escape_no_apostrophe.
  - simpl. induction H as [|x l Hx Hl IH]; simpl; [reflexivity|]. now rewrite Hx, IH.
  - rewrite data_paper_value_obj, apostrophe_free_obj.
    assert (G : forall acc, props_free acc = true ->
                            props_free (clone_props fs acc) = true).
    { induction H as [|[k x] t Hx Ht IH]; intros acc Hacc; [exact Hacc|].
      change (clone_props ((k, x) :: t) acc)
        with (clone_props t match x with
                            | JUndefined => acc
                            | _ => assign (escape_apostrophes k) (data_paper_value x) acc
                            end).
      apply IH. simpl in Hx.
      destruct x; try exact Hacc;
        (apply assign_free; [apply escape_no_apostrophe|exact Hx|exact Hacc]). }
    apply G. reflexivity.
Qed.

Lemma plain_obj (fs : list (jsstring * JsVal)) : plain (JObj fs) = plain_props fs.
Proof.
  simpl. induction fs as [|[k x] t IH]; simpl; [reflexivity|]. now rewrite IH.
Qed.

Lemma escape_identity (s : jsstring) :
  no_apostrophe s = true -> escape_apostrophes s = s.
Proof.
  unfold no_apostrophe, escape_apostrophes. induction s as [|c t IH]; simpl;
    [reflexivity|].
  intros H. apply andb_true_iff in H as [Hc Ht]. destruct (c =? 39)%N; [discriminate|].
  simpl. now rewrite IH.
Qed.

Lemma jseqb_refl (s : jsstring) : jseqb s s = true.
Proof. induction s; simpl; [reflexivity|]. now rewrite N.eqb_refl. Qed.

Lemma assign_fresh (k : jsstring) (v : JsVal) (acc : list (jsstring * JsVal)) :
  existsb (fun kv => jseqb k (fst kv)) acc = false -> assign k v acc = acc ++ [(k, v)].
Proof.
  induction acc as [|[k' v'] t IH]; simpl; [reflexivity|]. intros H.
  apply orb_false_iff in H as [H1 H2]. rewrite H1. now rewrite IH.
Qed.

(** X9. The [data-paper] attribute gives back the paper it was
    made of when the paper holds no apostrophe: a value without [undefined],
    with distinct keys in every object and no apostrophe in any string or
    key passes through [JSON.stringify], the replacement of the apostrophes
    and [JSON.parse] unchanged. *)
Theorem data_paper_value_plain (v : JsVal) : plain v = true -> data_paper_value v = v.
Proof.
  induction v using JsVal_nested_ind; intros Hp; try reflexivity; try discriminate.
  - simpl in *. now rewrite escape_identity.
  - simpl in *. f_equal. induction H as [|x l Hx Hl IH]; [reflexivity|].
    simpl in Hp. apply andb_true_iff in Hp as [H1 H2]. simpl. now rewrite Hx, IH.
  - rewrite data_paper_value_obj. rewrite plain_obj in Hp. f_equal.
    assert (G : forall acc,
              (forall k, existsb (fun kv => jseqb k (fst kv)) fs = true ->
                         existsb (fun kv => jseqb k (fst kv)) acc = false) ->
              clone_props fs acc = acc ++ fs).
    { induction H as [|[k x] t Hx Ht IH]; intros acc Hacc.
      - simpl. now rewrite app_nil_r.
      - simpl in Hp. apply andb_true_iff in Hp as [Hp Hrest].
        apply andb_true_iff in Hp as [Hp Hfresh].
        apply andb_true_iff in Hp as [Hk Hpx].
        simpl in Hx. specialize (Hx Hpx).
        assert (Hxu : x <> JUndefined) by (intros ->; discriminate).
        change (clone_props ((k, x) :: t) acc)
          with (clone_props t match x with
                              | JUndefined => acc
                              | _ => assign (escape_apostrophes k) (data_paper_value x) acc
                              end).
        assert (E : match x with
                    | JUndefined => acc
                    | _ => assign (escape_apostrophes k) (data_paper_value x) acc
                    end = acc ++ [(k, x)]).
        { rewrite Hx, (escape_identity k Hk).
          destruct x; try congruence; apply assign_fresh; apply Hacc; simpl;
            now rewrite jseqb_refl. }
        rewrite E. rewrite (IH Hrest).
        + now rewrite <- app_assoc.
        + intros k0 Hk0. rewrite existsb_app. simpl.
          rewrite (Hacc k0) by (simpl; rewrite Hk0; apply orb_true_r).
          simpl. rewrite orb_false_r.
          destruct (jseqb k0 k) eqn:E0; [|reflexivity].
          apply jseqb_eq in E0. subst k0.
          apply negb_true_iff in Hfresh. congruence. }
    apply (G []). reflexivity.
Qed.

Lemma data_paper_value_plain_witness :
  data_paper_value (JObj known_record) = JObj known_record.
Proof.
  apply (@data_paper_value_plain (JObj known_record)).
  vm_compute. reflexivity.
Defined.

(** ** Identifiers of uploads *)

Lemma nibble_cases (v : Z) :
  (0 <= v < 16)%Z ->
  exists d, Uuid.toString16 v = [d] /\ Uuid.is_hex d = true
            /\ ((8 <= v < 12)%Z -> d = 56%N \/ d = 57%N \/ d = 97%N \/ d = 98%N).
Proof.
  intros H.
  assert (C : (v = 0 \/ v = 1 \/ v = 2 \/ v = 3 \/ v = 4 \/ v = 5 \/ v = 6 \/ v = 7
               \/ v = 8 \/ v = 9 \/ v = 10 \/ v = 11 \/ v = 12 \/ v = 13 \/ v = 14
               \/ v = 15)%Z) by lia.
  repeat destruct C as [C|C]; subst v; eexists; (split; [vm_compute; reflexivity|]);
    (split; [reflexivity|]); intros ?; try lia; auto.
Qed.

Lemma variant_range (r : Z) : (0 <= r < 16)%Z -> (8 <= Z.lor (Z.land r 3) 8 < 12)%Z.
Proof.
  intros H.
  assert (C : (r = 0 \/ r = 1 \/ r = 2 \/ r = 3 \/ r = 4 \/ r = 5 \/ r = 6 \/ r = 7
               \/ r = 8 \/ r = 9 \/ r = 10 \/ r = 11 \/ r = 12 \/ r = 13 \/ r = 14
               \/ r = 15)%Z) by lia.
  repeat destruct C as [C|C]; subst r; vm_compute; split; congruence.
Qed.

Lemma replace_xy_one_each (random : nat -> Z) :
  (forall i, (0 <= random i < 16)%Z) ->
  forall template call,
    Uuid.replace_xy random call template = Uuid.replace_xy1 random call template.
Proof.
  intros Hr. induction template as [|c t IH]; intros call; simpl; [reflexivity|].
  destruct ((c =? 120)%N || (c =? 121)%N); [|now rewrite IH].
  rewrite IH. unfold Uuid.digit_of.
  assert (Hv : (0 <= (if (c =? 120)%N then random call
                      else Z.lor (Z.land (random call) 3) 8) < 16)%Z).
  { destruct (c =? 120)%N; [apply Hr|]. pose proof (variant_range (Hr call)). lia. }
  destruct (nibble_cases Hv) as (d & -> & _). reflexivity.
Qed.

(** X10. [generateUUID] makes an identifier of the shape of a version-4
    UUID whatever the random numbers are: 36 characters, hexadecimal digits
    in lower case with hyphens at the places 8, 13, 18 and 23 and nowhere
    else, the version digit [4] at place 14 and one of [8], [9], [a], [b] at
    place 19. *)
Theorem generateUUID_shape (random : nat -> Z) :
  (forall i, (0 <= random i < 16)%Z) ->
  let u := Uuid.generateUUID random in
  List.length u = 36%nat
  /\ forallb (fun c => Uuid.is_hex c || (c =? 45)%N) u = true
  /\ (forall i, nth i u 0%N = 45%N <-> i = 8 \/ i = 13 \/ i = 18 \/ i = 23)%nat
  /\ nth 14 u 0%N = 52%N
  /\ (nth 19 u 0%N = 56 \/ nth 19 u 0%N = 57 \/ nth 19 u 0%N = 97
      \/ nth 19 u 0%N = 98)%N.
Proof.
  intros Hr u. subst u. unfold Uuid.generateUUID.
  rewrite (@replace_xy_one_each random Hr).
  set (t := js "xxxxxxxx-xxxx-4xxx-yxxx-xxxxxxxxxxxx").
  vm_compute in t. subst t. cbn [Uuid.replace_xy1 N.eqb Pos.eqb orb].
  assert (Hd : forall call c, (c = 120 \/ c = 121)%N ->
             Uuid.is_hex (Uuid.digit_of random call c) = true
             /\ Uuid.digit_of random call c <> 45%N).
  { intros call c Hc. unfold Uuid.digit_of.
    assert (Hv : (0 <= (if (c =? 120)%N then random call
                        else Z.lor (Z.land (random call) 3) 8) < 16)%Z).
    { destruct (c =? 120)%N; [apply Hr|]. pose proof (variant_range (Hr call)). lia. }
    destruct (nibble_cases Hv) as (d & -> & Hh & _). simpl. split; [exact Hh|].
    intros ->. discriminate. }
  split; [reflexivity|].
  split.
  { cbn [forallb].
    repeat match goal with |- context [Uuid.is_hex (Uuid.digit_of random ?i ?c)] =>
      let H := fresh in destruct (Hd i c) as [H _]; [auto|]; rewrite H; clear H end.
    reflexivity. }
  split.
  { intros i. split.
    - intros H. do 36 (destruct i as [|i]; [cbn [nth] in H;
        first [ lia
              | match type of H with
                | Uuid.digit_of random ?k ?c = _ =>
                    exfalso; destruct (Hd k c) as [_ Hne]; [auto|exact (Hne H)]
                | _ => discriminate H
                end ] |]).
      cbn [nth] in H. destruct i; discriminate.
    - intros [-> | [-> | [-> | ->]]]; reflexivity. }
  split; [reflexivity|].
  cbn [nth]. unfold Uuid.digit_of. cbn [N.eqb Pos.eqb].
  destruct (nibble_cases (v := Z.lor (Z.land (random 15%nat) 3) 8))
    as (d & -> & _ & Hd19).
  { pose proof (variant_range (Hr 15%nat)). lia. }
  simpl. apply Hd19. apply variant_range. apply Hr.
Qed.

Lemma generateUUID_shape_witness :
  let u := Uuid.generateUUID (fun _ => 11%Z) in
  List.length u = 36%nat
  /\ forallb (fun c => Uuid.is_hex c || (c =? 45)%N) u = true
  /\ (forall i, nth i u 0%N = 45%N <-> i = 8 \/ i = 13 \/ i = 18 \/ i = 23)%nat
  /\ nth 14 u 0%N = 52%N
  /\ (nth 19 u 0%N = 56 \/ nth 19 u 0%N = 57 \/ nth 19 u 0%N = 97
      \/ nth 19 u 0%N = 98)%N.
Proof.
  apply (@generateUUID_shape (fun _ => 11%Z)).
  intros _. lia.
Defined.

(** ** The probe of the hash endpoint and the submission to the queue *)

(** X11. The probe of the hash endpoint never raises and sends one
    request. It returns the record of the reply when the reply is a success,
    parses, and carries an identifier; in every other case it returns
    null. *)
Theorem checkPaperHashExists_total {R : Type} (env : Env) (h : jsstring) (w : World) :
  exists r,
    checkPaperHashExists (R:=R) env h w = (Normal r, sent (Fetch (PostHash h)) w)
    /\ (dedup_hit env h r \/ (r = JNull /\ forall record, ~ dedup_hit env h record)).
Proof.
  unfold checkPaperHashExists, call, try_catch, fetch, json, when, get, bind,
    emit, ret, return_, throw, reply_of, sent, dedup_hit.
  destruct (net_hash env h) as [e|ok body] eqn:Hnet; cbn [fst snd].
  - exists JNull. split; [reflexivity|]. right. split; [reflexivity|].
    intros record (fields & _ & H & _). discriminate.
  - destruct ok; cbn [negb].
    + destruct body as [data|]; cbn [fst snd].
      * destruct (truthy data) eqn:Ht.
        -- destruct data as [| |b|z|s|l|fields]; try discriminate Ht.
           all: try (exists JNull; split; [reflexivity|]; right; split; [reflexivity|];
                     intros record (fields' & -> & H & _); discriminate).
           cbn [lookup]. destruct (truthy (lookup (js "arxiv_id") fields)) eqn:Hid.
           ++ exists (JObj fields). split; [reflexivity|]. left.
              exists fields. auto.
           ++ exists JNull. split; [reflexivity|]. right. split; [reflexivity|].
              intros record (fields' & -> & H & Hid'). injection H as E. subst.
              congruence.
        -- exists JNull. split; [reflexivity|]. right. split; [reflexivity|].
           intros record (fields' & -> & H & _). injection H as E. subst.
           discriminate.
      * exists JNull. split; [reflexivity|]. right. split; [reflexivity|].
        intros record (fields' & -> & H & _). discriminate.
    + exists JNull. split; [reflexivity|]. right. split; [reflexivity|].
      intros record (fields' & -> & H & _). discriminate.
Qed.

Lemma checkPaperHashExists_miss {R : Type} (env : Env) (h : jsstring) (w : World) :
  (forall record, ~ dedup_hit env h record) ->
  checkPaperHashExists (R:=R) env h w
  = (Normal JNull, sent (Fetch (PostHash h)) w).
Proof.
  intros Hm.
  unfold checkPaperHashExists, call, try_catch, fetch, json, when, get, bind,
    emit, ret, return_, throw, reply_of, sent.
  destruct (net_hash env h) as [e|ok body] eqn:Hnet; cbn [fst snd]; [reflexivity|].
  destruct ok; cbn [negb]; [|reflexivity].
  destruct body as [data|]; cbn [fst snd]; [|reflexivity].
  destruct (truthy data) eqn:Ht; [|reflexivity].
  destruct data as [| |b|z|s|l|fields]; try discriminate Ht; try reflexivity.
  destruct (truthy (lookup (js "arxiv_id") fields)) eqn:Hid; [|reflexivity].
  destruct (Hm (JObj fields)). exists fields. auto.
Qed.

(** X12. The submission to the queue never raises and sends one
    request, whatever the backend answers. It returns true exactly when the
    reply parses to a value other than null that carries no error; the
    status of the reply is not looked at. *)
Theorem enqueuePaper_total {R : Type} (env : Env) (paperData : JsVal) (w : World) :
  exists b,
    enqueuePaper (R:=R) env paperData w
    = (Normal b, sent (Fetch (PostEnqueue paperData)) w)
    /\ (b = true <->
        exists ok data,
          net_enqueue env paperData = Reply ok (Some data)
          /\ data <> JNull /\ data <> JUndefined
          /\ forall fields, data = JObj fields ->
                            truthy (lookup (js "error") fields) = false).
Proof.
  unfold enqueuePaper, call, try_catch, fetch, json, get, bind, emit, ret,
    return_, throw, reply_of, sent.
  destruct (net_enqueue env paperData) as [e|ok body] eqn:Hnet; cbn [fst snd].
  - exists false. split; [reflexivity|]. split; [discriminate|].
    intros (ok & data & H & _). discriminate.
  - destruct body as [data|]; cbn [fst snd].
    + destruct data as [| |b|z|s|l|fields].
      all: try (exists false; split; [reflexivity|]; split; [discriminate|];
                intros (ok' & data & H & H1 & H2 & _); injection H as _ <-;
                congruence).
      all: try (exists true; split; [reflexivity|]; split; [|reflexivity];
                intros _; exists ok; eexists; split; [reflexivity|];
                split; [discriminate|]; split; [discriminate|];
                intros fields H; discriminate).
      destruct (truthy (lookup (js "error") fields)) eqn:He.
      * exists false. split; [reflexivity|]. split; [discriminate|].
        intros (ok' & data & H & _ & _ & H3). injection H as _ <-.
        rewrite (H3 fields eq_refl) in He. discriminate.
      * exists true. split; [reflexivity|]. split; [|reflexivity].
        intros _. exists ok, (JObj fields). split; [reflexivity|].
        split; [discriminate|]. split; [discriminate|].
        intros fields' H. injection H as <-. exact He.
    + exists false. split; [reflexivity|]. split; [discriminate|].
      intros (ok' & data & H & _). discriminate.
Qed.

Lemma enqueuePaper_runs {R : Type} (env : Env) (paperData : JsVal) (w : World) :
  exists b,
    enqueuePaper (R:=R) env paperData w
    = (Normal b, sent (Fetch (PostEnqueue paperData)) w).
Proof.
  unfold enqueuePaper, call, try_catch, fetch, json, get, bind, emit, ret,
    return_, throw, reply_of, sent.
  destruct (net_enqueue env paperData) as [e|ok [data|]]; cbn [fst snd];
    try (eexists; reflexivity).
  destruct data as [| |b|z|s|l|fields]; try (eexists; reflexivity).
  destruct (truthy (lookup (js "error") fields)); eexists; reflexivity.
Qed.

(** ** Uploads *)

Lemma hash_check_miss (env : Env) (pdf : Blob) (w : World) :
  dedup_miss env pdf ->
  hash_check env pdf w
  = (Normal tt, mkWorld (globals w) (dom w) (trace w ++ probe_requests env pdf)).
Proof.
  intros Hmiss. unfold hash_check, probe_requests.
  destruct (Hasher.generatePdfHash env pdf) as [[|c h]|] eqn:Hh.
  - unfold ret. rewrite app_nil_r. now destruct w.
  - unfold bind.
    rewrite (@checkPaperHashExists_miss unit env (c :: h) w); [reflexivity|].
    intros record. apply (Hmiss (c :: h) record Hh). discriminate.
  - unfold ret. rewrite app_nil_r. now destruct w.
Qed.

(** The rules that [enableAllUIInteractions] means to apply to the page
    buttons are guarded by properties of [window] that are never defined:
    what is left is the enabling of everything. *)
Lemma enableAllUIInteractions_unguarded {R : Type} :
  @enableAllUIInteractions R
  = (update_dom (fun d =>
       set_resultsContainer
         (map_buttons (fun b => mkButton (loading b) false (data_paper b))
            (resultsContainer d))
         (set_all_disabled (fun _ => false) d)) ;;
     ret tt ;;
     ret tt ;;
     update_dom (fun d =>
       set_resultsContainer
         (map_buttons (fun b =>
                         if loading b then b
                         else mkButton (loading b) false (data_paper b))
            (resultsContainer d)) d)).
Proof.
  unfold enableAllUIInteractions.
  rewrite window_prevPageButton, window_nextPageButton. reflexivity.
Qed.

(** *** Running a sequence of statements *)

Lemma bind_assoc {S R A B C : Type} (m : Stmt S R A) (k1 : A -> Stmt S R B)
    (k2 : B -> Stmt S R C) (w : S) :
  bind (bind m k1) k2 w = bind m (fun a => bind (k1 a) k2) w.
Proof. unfold bind. destruct (m w) as [[a|r|e] w1]; reflexivity. Qed.

Lemma bind_run {S R A B : Type} (m : Stmt S R A) (k : A -> Stmt S R B) (w : S) :
  bind m k w
  = match m w with
    | (Normal a, w') => k a w'
    | (Return r, w') => (Return r, w')
    | (Throw e, w') => (Throw e, w')
    end.
Proof. reflexivity. Qed.

Lemma try_catch_run {S R A : Type} (body : Stmt S R A)
    (handler : Err -> Stmt S R A) (w : S) :
  try_catch body handler w
  = match body w with
    | (Throw e, w') => handler e w'
    | other => other
    end.
Proof. reflexivity. Qed.

Lemma try_finally_run {S R A : Type} (body : Stmt S R A)
    (finalizer : Stmt S R unit) (w : S) :
  try_finally body finalizer w
  = let (c, w1) := body w in
    match finalizer w1 with
    | (Normal _, w2) => (c, w2)
    | (Return r, w2) => (Return r, w2)
    | (Throw e, w2) => (Throw e, w2)
    end.
Proof. reflexivity. Qed.

Lemma call_run {S R R' : Type} (body : Stmt S R' R') (w : S) :
  call (R:=R) body w
  = match body w with
    | (Normal a, w') => (Normal a, w')
    | (Return r, w') => (Normal r, w')
    | (Throw e, w') => (Throw e, w')
    end.
Proof. reflexivity. Qed.

(** One statement of a sequence, run on a world that is written out: the
    new world is written out again, so that the next statement finds it. *)
Lemma update_dom_run {R : Type} (f : Dom -> Dom) (g : Globals) (d : Dom)
    (t : list Effect) :
  @update_dom R f (mkWorld g d t) = (Normal tt, mkWorld g (f d) t).
Proof. reflexivity. Qed.

Lemma update_globals_run {R : Type} (f : Globals -> Globals) (g : Globals) (d : Dom)
    (t : list Effect) :
  @update_globals R f (mkWorld g d t) = (Normal tt, mkWorld (f g) d t).
Proof. reflexivity. Qed.

Lemma emit_run {R : Type} (e : Effect) (g : Globals) (d : Dom) (t : list Effect) :
  @emit R e (mkWorld g d t) = (Normal tt, mkWorld g d (t ++ [e])).
Proof. reflexivity. Qed.

Lemma showToast_run {R : Type} (m : JsVal) (ty : ToastType) (g : Globals) (d : Dom)
    (t : list Effect) :
  @showToast R m ty (mkWorld g d t) = (Normal tt, mkWorld g d (t ++ [Toast m ty])).
Proof. reflexivity. Qed.

Lemma read_run {S R : Type} (w : S) : @read S R w = (Normal w, w).
Proof. reflexivity. Qed.

Lemma ret_run {S R A : Type} (a : A) (w : S) : @ret S R A a w = (Normal a, w).
Proof. reflexivity. Qed.

Lemma return_run {S R A : Type} (r : R) (w : S) : @return_ S R A r w = (Return r, w).
Proof. reflexivity. Qed.

Lemma throw_run {S R A : Type} (e : Err) (w : S) : @throw S R A e w = (Throw e, w).
Proof. reflexivity. Qed.

Ltac world_step :=
  lazymatch goal with
  | |- context [bind (bind ?m ?k1) ?k2 ?w] =>
      rewrite (bind_assoc m k1 k2 w)
  | |- context [bind ?m ?k (mkWorld ?g ?d ?t)] =>
      rewrite (bind_run m k (mkWorld g d t))
  | |- context [@update_dom ?R ?f (mkWorld ?g ?d ?t)] =>
      rewrite (@update_dom_run R f g d t)
  | |- context [@update_globals ?R ?f (mkWorld ?g ?d ?t)] =>
      rewrite (@update_globals_run R f g d t)
  | |- context [@emit ?R ?e (mkWorld ?g ?d ?t)] =>
      rewrite (@emit_run R e g d t)
  | |- context [@showToast ?R ?m ?ty (mkWorld ?g ?d ?t)] =>
      rewrite (@showToast_run R m ty g d t)
  | |- context [@read World ?R (mkWorld ?g ?d ?t)] =>
      rewrite (@read_run World R (mkWorld g d t))
  | |- context [@ret World ?R ?A ?a (mkWorld ?g ?d ?t)] =>
      rewrite (@ret_run World R A a (mkWorld g d t))
  | |- context [@return_ World ?R ?A ?r (mkWorld ?g ?d ?t)] =>
      rewrite (@return_run World R A r (mkWorld g d t))
  | |- context [@throw World ?R ?A ?e (mkWorld ?g ?d ?t)] =>
      rewrite (@throw_run World R A e (mkWorld g d t))
  | |- context [try_catch ?b ?h (mkWorld ?g ?d ?t)] =>
      rewrite (try_catch_run b h (mkWorld g d t))
  | |- context [try_finally ?b ?f (mkWorld ?g ?d ?t)] =>
      rewrite (try_finally_run b f (mkWorld g d t))
  | |- context [@call World ?R ?R' ?b (mkWorld ?g ?d ?t)] =>
      rewrite (@call_run World R R' b (mkWorld g d t))
  end;
  cbv beta iota; cbn [globals dom trace fst snd].

Ltac run_world := repeat world_step.

(** The start of [uploadFile] with a file chosen, up to the test of the
    extension. *)
Ltac open_upload Hf :=
  unfold uploadFile, setApiCallState, disableAllUIInteractions,
    setUploadButtonLoading;
  match goal with
  | |- context [@enableAllUIInteractions ?R] =>
      rewrite (@enableAllUIInteractions_unguarded R)
  end;
  run_world; rewrite Hf; run_world; cbv zeta; run_world.

(** X13. When the name of the chosen file has none of the three
    extensions, [uploadFile] sends no request and stores nothing: it shows
    one error notice, closes the dialog, clears the file input and releases
    the lock. *)
Theorem uploadFile_unsupported (env : Env) (w : World) (f : File) :
  uploadInput_files (dom w) = Some f ->
  supported env f = false ->
  exists w',
    uploadFile env w = (Normal tt, w')
    /\ trace w'
       = trace w
         ++ [Toast (JStr ([10060%N]
                          ++ js " Unsupported file type. Please upload PDF, DOCX, or TXT."))
               error]
    /\ myUploads (globals w') = myUploads (globals w)
    /\ display (dom w') uploadModal = d_none
    /\ uploadInput_files (dom w') = None
    /\ released w'.
Proof.
  intros Hf Hs. unfold supported in Hs. cbv zeta in Hs.
  apply orb_false_iff in Hs as [Hs E3]. apply orb_false_iff in Hs as [E1 E2].
  destruct w as [g d t]. cbn [globals dom trace] in *.
  open_upload Hf. rewrite E1, E2, E3. run_world.
  eexists. split; [reflexivity|]. cbn [globals dom trace].
  repeat split.
Qed.

Lemma uploadFile_unsupported_witness :
  exists w',
    uploadFile offline (chosen "notes.md" "# notes") = (Normal tt, w')
    /\ trace w'
       = trace (chosen "notes.md" "# notes")
         ++ [Toast (JStr ([10060%N]
                          ++ js " Unsupported file type. Please upload PDF, DOCX, or TXT."))
               error]
    /\ myUploads (globals w') = myUploads (globals (chosen "notes.md" "# notes"))
    /\ display (dom w') uploadModal = d_none
    /\ uploadInput_files (dom w') = None
    /\ released w'.
Proof.
  apply (@uploadFile_unsupported offline (chosen "notes.md" "# notes") notes_md).
  - reflexivity.
  - vm_compute. reflexivity.
Defined.

Ltac run_enqueue env :=
  match goal with
  | |- context [@enqueuePaper env ?R ?d ?wa] =>
      let b := fresh "b" in let Hb := fresh "Hb" in
      destruct (@enqueuePaper_runs R env d wa) as (b & Hb);
      rewrite Hb; clear Hb
  end;
  unfold sent; cbv beta iota; cbn [globals dom trace].

(** The upload from the hash check, which finds nothing, to the reply of the
    bucket. *)
Ltac stored Hmiss :=
  run_world;
  match goal with
  | |- context [hash_check ?env ?pdf (mkWorld ?g ?d ?t)] =>
      rewrite (@hash_check_miss env pdf (mkWorld g d t) Hmiss)
  end;
  cbv beta iota; cbn [globals dom trace];
  run_world;
  unfold fetch; run_world; unfold reply_of.

Ltac finish_stored env :=
  cbv beta iota; cbn [fst]; unfold addUploadToStorage;
  run_world; run_enqueue env; run_world;
  eexists; eexists; eexists; (split; [reflexivity|]);
  cbn [globals dom trace];
  (split; [rewrite <- !app_assoc; reflexivity|]);
  repeat (split; [vm_compute; reflexivity|]); reflexivity.

(** X14. An upload whose probe finds nothing and whose artifact the
    bucket accepts does four things in this order: the probe (when the
    artifact has a fingerprint), the PUT of the artifact, the storing of the
    record of the upload at the end of the list of uploads and in local
    storage, and one submission to the queue; then it tells that the paper
    is queued and schedules the closing of the dialog. The record carries the
    generated identifier, the name of the file and the address of the
    artifact; the submission carries the same identifier and address and is
    marked as in progress. *)
Theorem uploadFile_stores (env : Env) (w : World) (f : File) (pdf : Blob)
    (body : option JsVal) :
  uploadInput_files (dom w) = Some f ->
  upload_artifact env f = Some pdf ->
  dedup_miss env pdf ->
  net_put env (upload_url env f) pdf = Reply true body ->
  exists w' record paperData,
    uploadFile env w = (Normal tt, w')
    /\ trace w'
       = trace w ++ probe_requests env pdf
         ++ [ Fetch (PutArtifact (upload_url env f) pdf);
              StorageSet (myUploads (globals w) ++ [JObj record]);
              Fetch (PostEnqueue (JObj paperData));
              Toast (JStr (js "Paper has been queued for summarization")) success;
              CloseUploadLater 1000 f (upload_url env f) ]
    /\ myUploads (globals w') = myUploads (globals w) ++ [JObj record]
    /\ lookup (js "arxiv_id") record = JStr (js "manual-upload-" ++ generateUUID env)
    /\ lookup (js "fileName") record = JStr (file_name f)
    /\ lookup (js "fileUrl") record = JStr (upload_url env f)
    /\ lookup (js "arxiv_id") paperData = lookup (js "arxiv_id") record
    /\ lookup (js "pdf_url") paperData = JStr (upload_url env f)
    /\ lookup (js "processing") paperData = JBool true
    /\ released w'
    /\ uploadInput_files (dom w') = None.
Proof.
  intros Hf Hart Hmiss Hput. unfold upload_artifact, upload_url in *.
  destruct w as [g d t]. cbn [globals dom trace] in *.
  open_upload Hf.
  destruct (jseqb (toLowerCase env (last_segment (file_name f))) (js "pdf")) eqn:E1.
  - injection Hart as <-.
    stored Hmiss. rewrite Hput. finish_stored env.
  - destruct (jseqb (toLowerCase env (last_segment (file_name f))) (js "docx"))
      eqn:E2.
    + destruct (mammoth_convertToHtml env (file_data f)) as [html|]; [|discriminate].
      run_world. unfold convertHtmlToPdfBlob. rewrite Hart.
      stored Hmiss. rewrite Hput. finish_stored env.
    + destruct (jseqb (toLowerCase env (last_segment (file_name f))) (js "txt"))
        eqn:E3; [|discriminate].
      run_world. cbv zeta. unfold convertHtmlToPdfBlob. rewrite Hart.
      stored Hmiss. rewrite Hput. finish_stored env.
Qed.

Lemma uploadFile_stores_witness :
  let w := chosen "paper.pdf" "%PDF-1.4 first page" in
  exists w' record paperData,
    uploadFile queue_down w = (Normal tt, w')
    /\ trace w'
       = trace w ++ probe_requests queue_down (file_data paper_pdf)
         ++ [ Fetch (PutArtifact (upload_url queue_down paper_pdf)
                       (file_data paper_pdf));
              StorageSet (myUploads (globals w) ++ [JObj record]);
              Fetch (PostEnqueue (JObj paperData));
              Toast (JStr (js "Paper has been queued for summarization")) success;
              CloseUploadLater 1000 paper_pdf (upload_url queue_down paper_pdf) ]
    /\ myUploads (globals w') = myUploads (globals w) ++ [JObj record]
    /\ lookup (js "arxiv_id") record
       = JStr (js "manual-upload-" ++ generateUUID queue_down)
    /\ lookup (js "fileName") record = JStr (file_name paper_pdf)
    /\ lookup (js "fileUrl") record = JStr (upload_url queue_down paper_pdf)
    /\ lookup (js "arxiv_id") paperData = lookup (js "arxiv_id") record
    /\ lookup (js "pdf_url") paperData = JStr (upload_url queue_down paper_pdf)
    /\ lookup (js "processing") paperData = JBool true
    /\ released w'
    /\ uploadInput_files (dom w') = None.
Proof.
  apply (@uploadFile_stores queue_down (chosen "paper.pdf" "%PDF-1.4 first page")
           paper_pdf (file_data paper_pdf) None).
  - reflexivity.
  - vm_compute. reflexivity.
  - intros fingerprint record H. vm_compute in H. discriminate H.
  - reflexivity.
Defined.

Ltac finish_failed Hput :=
  match goal with
  | |- context [net_put ?env ?url ?pdf] =>
      let e := fresh "e" in let body := fresh "body" in let Hnet := fresh "Hnet" in
      destruct (net_put env url pdf) as [e|[|] body] eqn:Hnet;
      [|destruct (Hput body eq_refl)|]
  end;
  cbv beta iota; cbn [fst]; run_world;
  (eexists; eexists; (split; [reflexivity|]));
  cbn [globals dom trace];
  (split; [rewrite <- !app_assoc; reflexivity|]);
  (split; [intros ? H; congruence|]);
  (split; [intros ? H; congruence|]);
  repeat (split; [reflexivity|]); reflexivity.

(** X15. An upload whose artifact the bucket does not accept (the
    request fails, or the reply is not a success) stores nothing and submits
    nothing: the list of uploads is as before, the one request after the
    probe is the PUT, and one error notice names the failure; the dialog is
    closed, the file input cleared and the lock released. *)
Theorem uploadFile_put_fails (env : Env) (w : World) (f : File) (pdf : Blob) :
  uploadInput_files (dom w) = Some f ->
  upload_artifact env f = Some pdf ->
  dedup_miss env pdf ->
  (forall body, net_put env (upload_url env f) pdf <> Reply true body) ->
  exists w' err,
    uploadFile env w = (Normal tt, w')
    /\ trace w'
       = trace w ++ probe_requests env pdf
         ++ [ Fetch (PutArtifact (upload_url env f) pdf);
              Toast (upload_error_message err) error ]
    /\ (forall e, net_put env (upload_url env f) pdf = NetFail e -> err = e)
    /\ (forall body, net_put env (upload_url env f) pdf = Reply false body ->
        err = mkErr PlainError (js "Upload failed"))
    /\ myUploads (globals w') = myUploads (globals w)
    /\ display (dom w') uploadModal = d_none
    /\ uploadInput_files (dom w') = None
    /\ released w'.
Proof.
  intros Hf Hart Hmiss Hput. unfold upload_artifact, upload_url in *.
  destruct w as [g d t]. cbn [globals dom trace] in *.
  open_upload Hf.
  destruct (jseqb (toLowerCase env (last_segment (file_name f))) (js "pdf")) eqn:E1.
  - injection Hart as <-.
    stored Hmiss. finish_failed Hput.
  - destruct (jseqb (toLowerCase env (last_segment (file_name f))) (js "docx"))
      eqn:E2.
    + destruct (mammoth_convertToHtml env (file_data f)) as [html|]; [|discriminate].
      run_world. unfold convertHtmlToPdfBlob. rewrite Hart.
      stored Hmiss. finish_failed Hput.
    + destruct (jseqb (toLowerCase env (last_segment (file_name f))) (js "txt"))
        eqn:E3; [|discriminate].
      run_world. cbv zeta. unfold convertHtmlToPdfBlob. rewrite Hart.
      stored Hmiss. finish_failed Hput.
Qed.

Lemma uploadFile_put_fails_witness :
  let w := chosen "paper.pdf" "%PDF-1.4 first page" in
  exists w' err,
    uploadFile offline w = (Normal tt, w')
    /\ trace w'
       = trace w ++ probe_requests offline (file_data paper_pdf)
         ++ [ Fetch (PutArtifact (upload_url offline paper_pdf) (file_data paper_pdf));
              Toast (upload_error_message err) error ]
    /\ (forall e, net_put offline (upload_url offline paper_pdf) (file_data paper_pdf)
                  = NetFail e -> err = e)
    /\ (forall body,
          net_put offline (upload_url offline paper_pdf) (file_data paper_pdf)
          = Reply false body ->
          err = mkErr PlainError (js "Upload failed"))
    /\ myUploads (globals w') = myUploads (globals w)
    /\ display (dom w') uploadModal = d_none
    /\ uploadInput_files (dom w') = None
    /\ released w'.
Proof.
  apply (@uploadFile_put_fails offline (chosen "paper.pdf" "%PDF-1.4 first page")
           paper_pdf (file_data paper_pdf)).
  - reflexivity.
  - vm_compute. reflexivity.
  - intros fingerprint record H. vm_compute in H. discriminate H.
  - intros body H. discriminate H.
Defined.

(** *** After the upload: the dialog closes *)

Lemma list_uploads (l : list JsVal) (w : World) :
  forallb is_object l = true ->
  for_each l (fun upload =>
    _ <- get (S:=World) (R:=unit) upload "title" ;;
    _ <- get upload "uploadDate" ;;
    ret tt) w
  = (Normal tt, w).
Proof.
  induction l as [|u l IH]; intros H; [reflexivity|].
  cbn [forallb] in H. apply andb_true_iff in H as [Hu Hl].
  destruct u; try discriminate Hu.
  cbn [for_each]. unfold bind at 1. unfold bind at 1. cbn [get]. unfold ret at 1.
  cbv beta iota. unfold bind at 1. unfold ret at 1. cbv beta iota.
  unfold ret at 1. cbv beta iota. now apply IH.
Qed.

Lemma displayUploadsList_lists (w : World) (u : JsVal) (ups : list JsVal) :
  myUploads (globals w) = u :: ups ->
  forallb is_object (u :: ups) = true ->
  displayUploadsList (R:=unit) w
  = (Normal tt,
     mkWorld (globals w) (set_resultsContainer [UploadsListNode (u :: ups)] (dom w))
       (trace w)).
Proof.
  intros Hu Ho. unfold displayUploadsList.
  unfold bind at 1. unfold update_dom at 1. cbv beta iota.
  unfold bind at 1. unfold read at 1. cbv beta iota.
  cbn [globals]. rewrite Hu.
  unfold bind at 1.
  match goal with |- context [for_each (u :: ups) ?body ?wa] =>
    rewrite (@list_uploads (u :: ups) wa Ho)
  end.
  unfold update_dom. cbn [globals dom trace]. reflexivity.
Qed.

(** X16. When the dialog closes after an upload, the uploads view
    is shown with every stored upload in one list, in their order; the
    dialog is hidden and its steps are reset, the success notice names the
    file, the stored query and the search input are emptied and the
    pagination is hidden. No request is sent. *)
Theorem closing_the_dialog_lists_the_uploads (f : File) (w : World) (u : JsVal)
    (ups : list JsVal) :
  myUploads (globals w) = u :: ups ->
  forallb is_object (u :: ups) = true ->
  exists d',
    uploadFile_later (R:=unit) f w
    = (Normal tt,
       mkWorld (set_currentQuery [] (set_currentView uploads (globals w))) d'
         (trace w ++ [Toast (JStr (js "File uploaded successfully! " ++ file_name f))
                        success]))
    /\ resultsContainer d' = [UploadsListNode (u :: ups)]
    /\ display d' uploadModal = d_none
    /\ display d' pagination = d_none
    /\ display d' resultsSection = d_block
    /\ searchInput_value d' = []
    /\ activeTab d' = Some uploadsTab
    /\ uploadStatus d' = js "Please wait...".
Proof.
  intros Hu Ho. destruct w as [g d t]. cbn [globals dom trace] in *.
  unfold uploadFile_later, resetUploadSteps, showUploadsView.
  run_world.
  match goal with |- context [displayUploadsList ?wa] =>
    rewrite (@displayUploadsList_lists wa u ups); [|exact Hu|exact Ho]
  end.
  cbn [globals dom trace].
  eexists. split; [reflexivity|]. repeat split.
Qed.

Lemma closing_the_dialog_lists_the_uploads_witness :
  let w := one_upload_world in
  exists d',
    uploadFile_later (R:=unit) resnet_pdf w
    = (Normal tt,
       mkWorld (set_currentQuery [] (set_currentView uploads (globals w))) d'
         (trace w
          ++ [Toast (JStr (js "File uploaded successfully! " ++ file_name resnet_pdf))
                success]))
    /\ resultsContainer d' = [UploadsListNode [one_upload]]
    /\ display d' uploadModal = d_none
    /\ display d' pagination = d_none
    /\ display d' resultsSection = d_block
    /\ searchInput_value d' = []
    /\ activeTab d' = Some uploadsTab
    /\ uploadStatus d' = js "Please wait...".
Proof.
  apply (@closing_the_dialog_lists_the_uploads resnet_pdf one_upload_world
           one_upload []).
  - reflexivity.
  - reflexivity.
Defined.

(** ** Searches that fail *)

Lemma fetchResults_failed {R : Type} (env : Env) (w : World) (message : JsVal) :
  search_fails (net_search env (currentQuery (globals w)) (currentPage (globals w))
                  (currentSortBy (globals w))) message ->
  exists d',
    fetchResults (R:=R) env w
    = (Normal tt,
       mkWorld (set_isApiCallInProgress false (globals w)) d'
         (trace w ++ [ Fetch (GetSearch (currentQuery (globals w))
                                (currentPage (globals w))
                                (currentSortBy (globals w)));
                       Toast message error ]))
    /\ resultsContainer d' = []
    /\ pageInfo d' = pageInfo (dom w)
    /\ display d' searchLoadingIndicator = d_none
    /\ searchInput_value d' = searchInput_value (dom w).
Proof.
  intros H. unfold fetchResults, setApiCallState, disableAllUIInteractions.
  rewrite enableAllUIInteractions_unguarded.
  unfold call, try_finally, try_catch, fetch, json, get, showToast, bind,
    update_globals, update_dom, read, emit, ret, return_, throw, reply_of.
  cbn [globals dom trace currentQuery currentPage currentSortBy
       set_isApiCallInProgress].
  destruct H as [[-> [[e ->]|[[ok ->]|[ok ->]]]]|(ok & fields & -> & <- & Ht)];
    cbn [fst snd globals dom trace];
    try (rewrite Ht; cbn [fst snd globals dom trace]);
    (eexists; split; [rewrite <- app_assoc; reflexivity|]);
    repeat split.
Qed.



(** X18. A change of page whose fetch fails is not taken back: the
    page index has moved by the increment, while the results are empty and
    the label still names the page shown before. *)
Theorem failed_page_change_keeps_the_new_index (env : Env) (w : World) (delta : Z)
    (message : JsVal) :
  isApiCallInProgress (globals w) = false ->
  currentView (globals w) = search ->
  search_fails (net_search env (currentQuery (globals w))
                  (currentPage (globals w) + delta)
                  (currentSortBy (globals w))) message ->
  exists w',
    handlePageChange env delta w = (Normal tt, w')
    /\ currentPage (globals w') = (currentPage (globals w) + delta)%Z
    /\ pageInfo (dom w') = pageInfo (dom w)
    /\ resultsContainer (dom w') = []
    /\ count is_error_toast (trace w') = S (count is_error_toast (trace w))
    /\ released w'.
Proof.
  intros Hl Hv H. unfold handlePageChange, call.
  unfold bind at 1. unfold read at 1. cbv beta iota. rewrite Hl.
  unfold when at 1. unfold bind at 1. unfold ret at 1. cbv beta iota.
  unfold bind at 1. unfold update_globals at 1. cbv beta iota.
  unfold bind at 1. unfold read at 1. cbv beta iota.
  cbn [globals dom trace currentView set_currentPage]. rewrite Hv.
  match goal with |- context [fetchResults env ?wa] =>
    destruct (@fetchResults_failed unit env wa message) as (d' & -> & Hr & Hp & _)
  end.
  { exact H. }
  eexists. split; [reflexivity|]. cbn [globals dom trace].
  split; [reflexivity|]. split; [exact Hp|]. split; [exact Hr|].
  split; [|reflexivity].
  unfold count. rewrite !filter_app, !length_app. cbn. lia.
Qed.

Lemma failed_page_change_keeps_the_new_index_witness :
  let w := typed "machine learning" in
  exists w',
    handlePageChange offline 1 w = (Normal tt, w')
    /\ currentPage (globals w') = (currentPage (globals w) + 1)%Z
    /\ pageInfo (dom w') = pageInfo (dom w)
    /\ resultsContainer (dom w') = []
    /\ count is_error_toast (trace w') = S (count is_error_toast (trace w))
    /\ released w'.
Proof.
  apply (@failed_page_change_keeps_the_new_index offline (typed "machine learning") 1
           (JStr (js "Failed to fetch results. Please try again."))).
  - reflexivity.
  - reflexivity.
  - left. split; [reflexivity|]. left. exists failed. reflexivity.
Defined.

(** ** The list of results *)

Lemma show_card_manual (paper : JsVal) (w : World) :
  is_manual_upload paper = true ->
  (id <- get paper "arxiv_id" ;;
   manual <- (if truthy id
              then method_startsWith id (js "manual-upload-")
              else ret false) ;;
   if manual then ret tt
   else (paperCard <- createPaperCard (R:=unit) paper ;;
         update_dom (fun d =>
           set_resultsContainer
             (resultsContainer d ++ [PaperCardNode paperCard]) d))) w
  = (Normal tt, w).
Proof.
  unfold is_manual_upload. destruct paper as [| |b|z|s|l|fields]; try discriminate.
  destruct (lookup (js "arxiv_id") fields) as [| |b|z|s|l|fs] eqn:E; try discriminate.
  intros H. unfold bind, get, ret. rewrite E.
  destruct s as [|c s]; [vm_compute in H; discriminate|].
  cbn [truthy method_startsWith]. unfold ret. rewrite H. reflexivity.
Qed.

Lemma show_card_listed (paper : JsVal) (card : PaperCard) (w : World) :
  is_manual_upload paper = false ->
  card_of paper card ->
  (id <- get paper "arxiv_id" ;;
   manual <- (if truthy id
              then method_startsWith id (js "manual-upload-")
              else ret false) ;;
   if manual then ret tt
   else (paperCard <- createPaperCard (R:=unit) paper ;;
         update_dom (fun d =>
           set_resultsContainer
             (resultsContainer d ++ [PaperCardNode paperCard]) d))) w
  = (Normal tt, with_card card w).
Proof.
  intros Hm Hc.
  assert (Hf : (id <- get (S:=World) (R:=unit) paper "arxiv_id" ;;
                if truthy id
                then method_startsWith id (js "manual-upload-")
                else ret false) w = (Normal false, w)).
  { specialize (Hc w). unfold createPaperCard in Hc. unfold bind at 1 in Hc.
    unfold bind at 1.
    destruct paper as [| |b|z|s|l|fields]; try discriminate Hc; try reflexivity.
    unfold is_manual_upload in Hm. cbn [get] in *. unfold ret at 1 in Hc.
    unfold ret at 1. cbv beta iota in *.
    destruct (lookup (js "arxiv_id") fields) as [| |b|z|s|l|fs] eqn:E;
      try reflexivity.
    - destruct b; [discriminate Hc|reflexivity].
    - cbn [truthy] in *. destruct (negb (z =? 0)%Z); [discriminate Hc|reflexivity].
    - cbn [truthy method_startsWith] in *. destruct s; [reflexivity|].
      unfold ret. now rewrite Hm.
    - discriminate Hc.
    - discriminate Hc. }
  unfold bind at 1 in Hf. unfold bind at 1.
  destruct (get paper "arxiv_id" w) as [[id|r|e] w1]; try discriminate Hf.
  unfold bind at 1.
  destruct ((if truthy id then method_startsWith id (js "manual-upload-")
             else ret false) w1) as [[m|r|e] w2]; try discriminate Hf.
  injection Hf as -> ->. unfold bind. rewrite (Hc w). reflexivity.
Qed.

Lemma with_cards_container (cards : list PaperCard) (w : World) :
  let w' := fold_left (fun w0 c0 => with_card c0 w0) cards w in
  resultsContainer (dom w') = resultsContainer (dom w) ++ map PaperCardNode cards
  /\ globals w' = globals w /\ trace w' = trace w
  /\ display (dom w') = display (dom w)
  /\ disabled (dom w') = disabled (dom w)
  /\ pageInfo (dom w') = pageInfo (dom w).
Proof.
  revert w. induction cards as [|c cards IH]; intros w; simpl.
  - rewrite app_nil_r. repeat split.
  - destruct (IH (with_card c w)) as (H1 & H2 & H3 & H4 & H5 & H6).
    rewrite H1, H2, H3, H4, H5, H6. cbn. rewrite <- app_assoc. repeat split.
Qed.

(** The loop of [displayResults]: the papers that are not manual uploads get
    their cards, in the order of the list. *)
Lemma show_cards (l : list JsVal) (w : World) :
  (forall paper, In paper l -> is_manual_upload paper = false ->
                 exists card, card_of paper card) ->
  exists cards,
    for_each l (fun paper =>
      id <- get paper "arxiv_id" ;;
      manual <- (if truthy id
                 then method_startsWith id (js "manual-upload-")
                 else ret false) ;;
      if manual then ret tt
      else (paperCard <- createPaperCard (R:=unit) paper ;;
            update_dom (fun d =>
              set_resultsContainer
                (resultsContainer d ++ [PaperCardNode paperCard]) d))) w
    = (Normal tt, fold_left (fun w0 c0 => with_card c0 w0) cards w)
    /\ Forall2 card_of (filter (fun paper => negb (is_manual_upload paper)) l) cards.
Proof.
  revert w. induction l as [|paper l IH]; intros w H.
  - exists []. split; [reflexivity|constructor].
  - cbn [for_each filter]. unfold bind at 1.
    destruct (is_manual_upload paper) eqn:Em.
    + rewrite (show_card_manual paper w Em).
      destruct (IH w) as (cards & -> & Hc).
      { intros p Hp. apply H. now right. }
      exists cards. split; [reflexivity|exact Hc].
    + destruct (H paper (or_introl eq_refl) Em) as [card Hcard].
      rewrite (show_card_listed w Em Hcard).
      destruct (IH (with_card card w)) as (cards & -> & Hc).
      { intros p Hp. apply H. now right. }
      exists (card :: cards). split; [reflexivity|]. cbn [negb]. now constructor.
Qed.

(** X19. [displayResults] shows one card for every paper of the
    response that is not a manual upload, in the order of the response, and
    nothing else; the page buttons and the label follow the page index and
    the flag of the response, and no request is sent. *)
Theorem displayResults_lists_the_search_results (fields : list (jsstring * JsVal))
    (papers : list JsVal) (w : World) :
  lookup (js "papers") fields = JArr papers ->
  (forall paper, In paper papers -> is_manual_upload paper = false ->
                 exists card, card_of paper card) ->
  exists w' cards,
    displayResults (R:=unit) (JObj fields) w = (Normal tt, w')
    /\ resultsContainer (dom w') = map PaperCardNode cards
    /\ Forall2 card_of
         (filter (fun paper => negb (is_manual_upload paper)) papers) cards
    /\ hasNextPage (globals w') = lookup (js "has_next_page") fields
    /\ disabled (dom w') prevPageButton = (currentPage (globals w) =? 0)%Z
    /\ disabled (dom w') nextPageButton
       = negb (truthy (lookup (js "has_next_page") fields))
    /\ pageInfo (dom w') = js "Page " ++ decimal (currentPage (globals w) + 1)
    /\ trace w' = trace w.
Proof.
  intros Hp Hcards. unfold displayResults.
  unfold bind at 1.
  destruct (@show_pagination_normal unit w) as (w1 & H1).
  assert (F1 : globals w1 = globals w /\ trace w1 = trace w).
  { unfold show_pagination, bind, read, update_dom in H1.
    destruct (currentView (globals w)), (nonempty (currentQuery (globals w)));
      injection H1 as <-; split; reflexivity. }
  destruct F1 as [G1 T1]. rewrite H1.
  unfold bind at 1. unfold update_dom at 1. cbv beta iota.
  unfold bind at 1. cbn [get]. unfold ret at 1. cbv beta iota. rewrite Hp.
  unfold bind at 1.
  match goal with |- context [for_each papers ?f ?wa] =>
    destruct (@show_cards papers wa Hcards) as (cards & -> & Hc);
    destruct (with_cards_container cards wa) as (C1 & C2 & C3 & C4 & C5 & C6);
    set (wb := fold_left (fun w0 c0 => with_card c0 w0) cards wa) in *
  end.
  cbn [globals dom trace resultsContainer set_resultsContainer] in C1, C2, C3.
  unfold bind, get, ret, update_globals, update_dom, read.
  cbn [globals dom trace].
  clearbody wb. eexists. exists cards. split; [reflexivity|].
  cbn [globals dom trace set_hasNextPage currentPage hasNextPage].
  rewrite C2, C3, G1, T1.
  split; [exact C1|]. split; [exact Hc|]. split; [reflexivity|].
  split; [reflexivity|]. split; [|split; reflexivity].
  cbn. reflexivity.
Qed.

Lemma displayResults_lists_the_search_results_witness :
  let w := typed "field theories" in
  exists w' cards,
    displayResults (R:=unit) (JObj search_page) w = (Normal tt, w')
    /\ resultsContainer (dom w') = map PaperCardNode cards
    /\ Forall2 card_of
         (filter (fun paper => negb (is_manual_upload paper))
            [listed_paper; one_upload]) cards
    /\ hasNextPage (globals w') = lookup (js "has_next_page") search_page
    /\ disabled (dom w') prevPageButton = (currentPage (globals w) =? 0)%Z
    /\ disabled (dom w') nextPageButton
       = negb (truthy (lookup (js "has_next_page") search_page))
    /\ pageInfo (dom w') = js "Page " ++ decimal (currentPage (globals w) + 1)
    /\ trace w' = trace w.
Proof.
  apply (@displayResults_lists_the_search_results search_page
           [listed_paper; one_upload] (typed "field theories")).
  - vm_compute. reflexivity.
  - intros paper [<-|[<-|[]]] Hm.
    + eexists. intros w0. cbv. reflexivity.
    + vm_compute in Hm. discriminate Hm.
Defined.

(** ** Requests for a summary *)

(** [processPaperSummary], up to the reply of the paper endpoint. *)
Ltac run_summary :=
  unfold processPaperSummary, setApiCallState, disableAllUIInteractions;
  rewrite enableAllUIInteractions_unguarded;
  unfold call, try_finally, try_catch, fetch, json, hasSummary, showToast, bind,
    update_globals, update_dom, read, emit, return_, throw, reply_of, when;
  cbn [get]; unfold ret; cbv beta iota; cbn [fst snd globals dom trace].

Ltac known_id Hid :=
  match goal with
  | |- context [truthy (lookup (js "original_arxiv_id") ?p)] =>
      destruct (truthy (lookup (js "original_arxiv_id") p))
  end;
  cbv beta iota; rewrite Hid; cbn [truthy]; cbv beta iota;
  cbn [fst snd globals dom trace].

(** X20. A request for the summary of a paper that the backend is
    still summarizing sends the one query for the record and no submission:
    the user is told to check back later, the view and the paper shown stay,
    and the lock is released. *)
Theorem processPaperSummary_in_progress (env : Env) (w : World)
    (paperData record : list (jsstring * JsVal)) (id : jsstring) (ok : bool) :
  lookup (js "sanitized_arxiv_id") paperData = JStr id -> id <> [] ->
  net_paper env (JStr id) = Reply ok (Some (JObj record)) ->
  lookup (js "processing") record = JBool true ->
  summary_text_or_none record = true ->
  exists w',
    processPaperSummary (R:=unit) env (JObj paperData) None w = (Normal tt, w')
    /\ trace w'
       = trace w
         ++ [ Fetch (GetPaper (JStr id));
              Toast (JStr (js "The paper is being summarized. Please check back later."))
                info ]
    /\ currentView (globals w') = currentView (globals w)
    /\ currentPaperData (globals w') = currentPaperData (globals w)
    /\ paperContent (dom w') = paperContent (dom w)
    /\ released w'.
Proof.
  intros Hid Hne Hnet Hp Hs. unfold summary_text_or_none in Hs.
  destruct id as [|c id]; [congruence|].
  run_summary.
  known_id Hid.
  all: rewrite Hnet; cbv beta iota; cbn [fst snd truthy get]; cbv beta iota;
    rewrite Hp.
  all: destruct (lookup (js "summary") record) as [| |b|z|s|l|fs];
    try discriminate Hs;
    unfold method_trim; cbn [fst snd is_false is_true andb]; unfold ret;
    cbv beta iota;
    rewrite ?andb_false_r; cbv beta iota;
    cbn [andb is_true fst snd globals dom trace];
    (eexists; split; [reflexivity|]); cbn [globals dom trace];
    rewrite <- app_assoc; repeat split.
Qed.

Lemma processPaperSummary_in_progress_witness :
  let w := typed "" in
  exists w',
    processPaperSummary (R:=unit) summarizing (JObj asked_paper) None w
    = (Normal tt, w')
    /\ trace w'
       = trace w
         ++ [ Fetch (GetPaper (JStr (js "2101.00001")));
              Toast (JStr (js "The paper is being summarized. Please check back later."))
                info ]
    /\ currentView (globals w') = currentView (globals w)
    /\ currentPaperData (globals w') = currentPaperData (globals w)
    /\ paperContent (dom w') = paperContent (dom w)
    /\ released w'.
Proof.
  apply (@processPaperSummary_in_progress summarizing (typed "") asked_paper
           [(js "processing", JBool true)] (js "2101.00001") true).
  - vm_compute. reflexivity.
  - vm_compute. discriminate.
  - reflexivity.
  - vm_compute. reflexivity.
  - vm_compute. reflexivity.
Defined.

(** X21. A request for the summary of a paper that the backend does
    not know submits the record to the queue as it was given, after the one
    query for it, and tells the user that the paper is queued, whatever the
    queue answers. *)
Theorem processPaperSummary_submits_unknown (env : Env) (w : World)
    (paperData : list (jsstring * JsVal)) (id : jsstring) (ok : bool)
    (data : JsVal) :
  lookup (js "sanitized_arxiv_id") paperData = JStr id -> id <> [] ->
  net_paper env (JStr id) = Reply ok (Some data) ->
  unknown_paper data ->
  exists w',
    processPaperSummary (R:=unit) env (JObj paperData) None w = (Normal tt, w')
    /\ trace w'
       = trace w
         ++ [ Fetch (GetPaper (JStr id));
              Fetch (PostEnqueue (JObj paperData));
              Toast (JStr (js "Paper has been queued for summarizing")) success ]
    /\ currentView (globals w') = currentView (globals w)
    /\ released w'.
Proof.
  intros Hid Hne Hnet Hu.
  destruct id as [|c id]; [congruence|].
  run_summary.
  known_id Hid.
  all: rewrite Hnet; cbv beta iota; cbn [fst snd].
  all: destruct Hu as [->|(record & message & -> & Hs & Hp & Hm & Hi)];
    cbn [truthy get andb negb orb]; cbv beta iota; unfold ret; cbv beta iota;
    cbn [fst snd andb orb negb truthy];
    try (rewrite Hs, Hm; cbv beta iota; rewrite Hp; cbv beta iota;
         destruct message as [|m0 message];
         [vm_compute in Hi; discriminate|];
         cbn [truthy method_includes andb]; unfold ret; cbv beta iota;
         rewrite Hi; cbv beta iota; cbn [orb]).
  all: run_enqueue env; unfold sent; cbv beta iota;
    cbn [fst snd globals dom trace];
    (eexists; split; [reflexivity|]); cbn [globals dom trace];
    rewrite <- !app_assoc; repeat split.
Qed.

Lemma processPaperSummary_submits_unknown_witness :
  let w := typed "" in
  exists w',
    processPaperSummary (R:=unit) queue_down (JObj asked_paper) None w
    = (Normal tt, w')
    /\ trace w'
       = trace w
         ++ [ Fetch (GetPaper (JStr (js "2101.00001")));
              Fetch (PostEnqueue (JObj asked_paper));
              Toast (JStr (js "Paper has been queued for summarizing")) success ]
    /\ currentView (globals w') = currentView (globals w)
    /\ released w'.
Proof.
  apply (@processPaperSummary_submits_unknown queue_down (typed "") asked_paper
           (js "2101.00001") true
           (JObj [(js "message", JStr (js "No data found"))])).
  - vm_compute. reflexivity.
  - vm_compute. discriminate.
  - reflexivity.
  - right. exists [(js "message", JStr (js "No data found"))], (js "No data found").
    split; [reflexivity|]. split; [vm_compute; reflexivity|].
    split; [vm_compute; reflexivity|]. split; vm_compute; reflexivity.
Defined.

(** X22. A request for the summary of a paper whose record is ready
    shows that record in the paper view, stores it as the current paper,
    sends the one query and no submission, and, unless the page is a local
    file or the browser refuses, pushes the address of the paper: the origin
    and the pathname of the page, [/paper/] and the identifier. The address
    of the page is then what the browser makes of the pushed one. *)
Theorem processPaperSummary_shows_ready (env : Env) (w : World)
    (paperData record : list (jsstring * JsVal)) (id s : jsstring) (ok : bool) :
  lookup (js "sanitized_arxiv_id") paperData = JStr id -> id <> [] ->
  net_paper env (JStr id) = Reply ok (Some (JObj record)) ->
  lookup (js "summary") record = JStr s -> forallb isWhiteSpace s = false ->
  lookup (js "processing") record = JBool false ->
  exists w',
    processPaperSummary (R:=unit) env (JObj paperData) None w = (Normal tt, w')
    /\ paperContent (dom w') = Some (record_markup record)
    /\ currentView (globals w') = paper
    /\ currentPaperData (globals w') = JObj record
    /\ trace w'
       = trace w ++ Fetch (GetPaper (JStr id))
                    :: (if address_changes env w
                        then [PushState (paper_url env w (JStr id))] else [])
    /\ location_href (dom w')
       = (if address_changes env w
          then pushState_href env (location_href (dom w))
                 (paper_url env w (JStr id))
          else location_href (dom w))
    /\ released w'.
Proof.
  intros Hid Hne Hnet Hs Hb Hp.
  pose proof (nonblank_trim s Hb) as Ht.
  pose proof (nonblank_text record Hs Hb) as Htext.
  destruct id as [|c id]; [congruence|].
  unfold address_changes.
  run_summary.
  known_id Hid.
  all: rewrite Hnet; cbv beta iota; cbn [fst snd truthy get]; cbv beta iota;
    rewrite Hs, Hp; unfold method_trim, ret; cbv beta iota; rewrite Ht;
    cbn [is_false andb]; cbv beta iota;
    unfold isFileProtocol, pushState, paper_url, bind, emit, update_dom, throw;
    cbn [globals dom trace location_href set_resultsContainer set_all_disabled];
    destruct (startsWith (js "file:") (location_href (dom w)));
    cbn [negb andb]; cbv beta iota;
    destruct (pushState_throws env); cbn [negb andb]; cbv beta iota;
    repeat match goal with
           | |- context [@displayPaper ?R (JObj ?f) ?wa] =>
               rewrite (@displayPaper_text R f wa Htext)
           end;
    cbv beta iota; unfold paper_shown; cbn [fst snd globals dom trace];
    (eexists; split; [reflexivity|]); cbn [globals dom trace];
    rewrite <- ?app_assoc; repeat split.
Qed.

Lemma processPaperSummary_shows_ready_witness :
  let w := typed "" in
  let id := js "1512.03385" in
  exists w',
    processPaperSummary (R:=unit) library
      (JObj [(js "sanitized_arxiv_id", JStr id)]) None w = (Normal tt, w')
    /\ paperContent (dom w') = Some (record_markup known_record)
    /\ currentView (globals w') = paper
    /\ currentPaperData (globals w') = JObj known_record
    /\ trace w'
       = trace w ++ Fetch (GetPaper (JStr id))
                    :: (if address_changes library w
                        then [PushState (paper_url library w (JStr id))] else [])
    /\ location_href (dom w')
       = (if address_changes library w
          then pushState_href library (location_href (dom w))
                 (paper_url library w (JStr id))
          else location_href (dom w))
    /\ released w'.
Proof.
  apply (@processPaperSummary_shows_ready library (typed "")
           [(js "sanitized_arxiv_id", JStr (js "1512.03385"))] known_record
           (js "1512.03385")
           (js "Residual connections ease the training of deep networks.") true).
  - vm_compute. reflexivity.
  - vm_compute. discriminate.
  - reflexivity.
  - vm_compute. reflexivity.
  - vm_compute. reflexivity.
  - vm_compute. reflexivity.
Defined.

(** ** Opening a paper from its address *)

Ltac run_paper :=
  unfold fetchPaper, setApiCallState, disableAllUIInteractions;
  rewrite enableAllUIInteractions_unguarded;
  unfold call, try_finally, try_catch, fetch, json, hasSummary, showToast, bind,
    update_globals, update_dom, read, emit, return_, throw, reply_of, when;
  cbn [get]; unfold ret; cbv beta iota; cbn [fst snd globals dom trace];
  unfold isFileProtocol;
  cbn [globals dom trace location_href set_resultsContainer set_all_disabled
       currentPaperData set_isApiCallInProgress].

(** X23. On a page opened from a local file, [fetchPaper] shows
    the paper stored by the last summary request and sends no request at
    all. *)
Theorem fetchPaper_local_file (env : Env) (w : World) (arxivId : jsstring)
    (record : list (jsstring * JsVal)) :
  isFileProtocol w = true ->
  currentPaperData (globals w) = JObj record ->
  summary_is_text record = true ->
  exists w',
    fetchPaper (R:=unit) env arxivId w = (Normal tt, w')
    /\ trace w' = trace w ++ [Toast (JStr (js "Loading paper...")) info]
    /\ paperContent (dom w') = Some (record_markup record)
    /\ currentView (globals w') = paper
    /\ released w'.
Proof.
  intros Hf Hd Ht. unfold isFileProtocol in Hf.
  run_paper. rewrite Hf, Hd. cbn [truthy andb]. cbv beta iota.
  match goal with
  | |- context [@displayPaper ?R (JObj ?f) ?wa] =>
      rewrite (@displayPaper_text R f wa Ht)
  end.
  cbv beta iota. unfold paper_shown. cbn [fst snd globals dom trace].
  eexists. split; [reflexivity|]. cbn [globals dom trace]. repeat split.
Qed.

Lemma fetchPaper_local_file_witness :
  exists w',
    fetchPaper (R:=unit) offline (js "1512.03385") local_file_world = (Normal tt, w')
    /\ trace w'
       = trace local_file_world ++ [Toast (JStr (js "Loading paper...")) info]
    /\ paperContent (dom w') = Some (record_markup known_record)
    /\ currentView (globals w') = paper
    /\ released w'.
Proof.
  apply (@fetchPaper_local_file offline local_file_world (js "1512.03385")
           known_record).
  - vm_compute. reflexivity.
  - reflexivity.
  - vm_compute. reflexivity.
Defined.

Lemma fetchPaper_ready (env : Env) (w : World) (id s : jsstring)
    (record : list (jsstring * JsVal)) (ok : bool) :
  isFileProtocol w = false ->
  net_paper env (JStr id) = Reply ok (Some (JObj record)) ->
  lookup (js "summary") record = JStr s -> forallb isWhiteSpace s = false ->
  lookup (js "processing") record = JBool false ->
  exists d',
    fetchPaper (R:=unit) env id w
    = (Normal tt,
       mkWorld (set_isApiCallInProgress false (set_currentView paper (globals w))) d'
         (trace w ++ [ Toast (JStr (js "Loading paper...")) info;
                       Fetch (GetPaper (JStr id)) ]))
    /\ paperContent d' = Some (record_markup record)
    /\ display d' paperView = d_block
    /\ location_href d' = location_href (dom w).
Proof.
  intros Hf Hnet Hs Hb Hp.
  pose proof (nonblank_trim s Hb) as Ht.
  pose proof (nonblank_text record Hs Hb) as Htext.
  unfold isFileProtocol in Hf.
  run_paper. rewrite Hf. cbn [andb]. cbv beta iota.
  rewrite Hnet; cbv beta iota; cbn [fst snd truthy get]; cbv beta iota;
    rewrite Hs, Hp; unfold method_trim, ret; cbv beta iota; rewrite Ht;
    cbn [is_false andb]; cbv beta iota.
  match goal with
  | |- context [@displayPaper ?R (JObj ?f) ?wa] =>
      rewrite (@displayPaper_text R f wa Htext)
  end.
  cbv beta iota. unfold paper_shown. cbn [fst snd globals dom trace].
  eexists. split; [rewrite <- app_assoc; reflexivity|]. repeat split.
Qed.

(** X4. Going back or forward to the address of a paper opens that
    paper: at the address made for an identifier, the [popstate] listener
    queries the record of that identifier and, when the record is ready,
    shows it in the paper view. *)
Theorem popstate_opens_the_paper_of_the_address (env : Env) (w : World)
    (arxivId s : jsstring) (record : list (jsstring * JsVal)) (ok : bool) :
  arxivId <> [] ->
  isApiCallInProgress (globals w) = false ->
  let id := replace_each 47%N (js "-") arxivId in
  isFileProtocol (at_address (paper_url env w (JStr id)) w) = false ->
  net_paper env (JStr id) = Reply ok (Some (JObj record)) ->
  lookup (js "summary") record = JStr s -> forallb isWhiteSpace s = false ->
  lookup (js "processing") record = JBool false ->
  exists w',
    window_popstate env (at_address (paper_url env w (JStr id)) w) = (Normal tt, w')
    /\ trace w' = trace w ++ [ Toast (JStr (js "Loading paper...")) info;
                               Fetch (GetPaper (JStr id)) ]
    /\ paperContent (dom w') = Some (record_markup record)
    /\ currentView (globals w') = paper
    /\ display (dom w') paperView = d_block
    /\ released w'.
Proof.
  intros Hne Hl id Hf' Hnet Hs Hb Hp.
  destruct (replace_each_slash arxivId) as (Hn & Hlen & _). fold id in Hn, Hlen.
  assert (Hid : id <> []).
  { intros E. rewrite E in Hlen. destruct arxivId; [congruence|discriminate Hlen]. }
  pose proof (@paper_in_url_built env w id Hid Hn) as Hurl.
  unfold paper_in_url in Hurl.
  destruct (includes (js "/paper/")
              (location_href (dom (at_address (paper_url env w (JStr id)) w))))
    eqn:Hinc; [|discriminate Hurl].
  unfold window_popstate, call.
  unfold bind at 1. unfold read at 1. cbv beta iota.
  change (globals (at_address (paper_url env w (JStr id)) w)) with (globals w).
  rewrite Hl. unfold when at 1. unfold bind at 1. unfold ret at 1. cbv beta iota.
  rewrite Hinc, Hurl.
  destruct (@fetchPaper_ready env (at_address (paper_url env w (JStr id)) w) id s
              record ok Hf' Hnet Hs Hb Hp) as (d' & He & Hc & Hd & _).
  unfold spawn. rewrite He.
  eexists. split; [reflexivity|]. cbn [globals dom trace at_address].
  repeat split; assumption.
Qed.

Lemma popstate_opens_the_paper_of_the_address_witness :
  let w := typed "" in
  let id := replace_each 47%N (js "-") (js "1512.03385") in
  exists w',
    window_popstate library (at_address (paper_url library w (JStr id)) w)
    = (Normal tt, w')
    /\ trace w' = trace w ++ [ Toast (JStr (js "Loading paper...")) info;
                               Fetch (GetPaper (JStr id)) ]
    /\ paperContent (dom w') = Some (record_markup known_record)
    /\ currentView (globals w') = paper
    /\ display (dom w') paperView = d_block
    /\ released w'.
Proof.
  apply (@popstate_opens_the_paper_of_the_address library (typed "")
           (js "1512.03385")
           (js "Residual connections ease the training of deep networks.")
           known_record true).
  - vm_compute. discriminate.
  - reflexivity.
  - vm_compute. reflexivity.
  - reflexivity.
  - vm_compute. reflexivity.
  - vm_compute. reflexivity.
  - vm_compute. reflexivity.
Defined.

(** ** What the page never loses *)

Lemma grows_refl w : grows w w.
Proof. split; exists []; now rewrite app_nil_r. Qed.

Lemma grows_trans w1 w2 w3 : grows w1 w2 -> grows w2 w3 -> grows w1 w3.
Proof.
  intros [[t1 H1] [l1 G1]] [[t2 H2] [l2 G2]]. split.
  - exists (t1 ++ t2). now rewrite H2, H1, app_assoc.
  - exists (l1 ++ l2). now rewrite G2, G1, app_assoc.
Qed.

Lemma steady_ret {R A : Type} (a : A) : steady (@ret World R A a).
Proof. intros w. apply grows_refl. Qed.

Lemma steady_throw {R A : Type} (e : Err) : steady (@throw World R A e).
Proof. intros w. apply grows_refl. Qed.

Lemma steady_return {R A : Type} (r : R) : steady (@return_ World R A r).
Proof. intros w. apply grows_refl. Qed.

Lemma steady_read {R : Type} : steady (@read World R).
Proof. intros w. apply grows_refl. Qed.

Lemma steady_update_dom {R : Type} (f : Dom -> Dom) : steady (@update_dom R f).
Proof. intros w. split; exists []; simpl; now rewrite app_nil_r. Qed.

Lemma steady_emit {R : Type} (e : Effect) : steady (@emit R e).
Proof.
  intros w. split; [exists [e]; reflexivity|exists []; simpl; now rewrite app_nil_r].
Qed.

Lemma steady_update_globals {R : Type} (f : Globals -> Globals) :
  (forall g, myUploads (f g) = myUploads g) -> steady (@update_globals R f).
Proof.
  intros Hf w. split; exists []; simpl; rewrite app_nil_r; [reflexivity|apply Hf].
Qed.

Lemma steady_push {R : Type} (u : JsVal) :
  steady (@update_globals R (fun g => set_myUploads (myUploads g ++ [u]) g)).
Proof.
  intros w. split; [exists []; simpl; now rewrite app_nil_r|exists [u]; reflexivity].
Qed.

Lemma steady_bind {R A B : Type} (m : M R A) (k : A -> M R B) :
  steady m -> (forall a, steady (k a)) -> steady (bind m k).
Proof.
  intros Hm Hk w. unfold bind. specialize (Hm w).
  destruct (m w) as [[a|r|e] w1]; simpl in *; try assumption.
  eapply grows_trans; [exact Hm|apply Hk].
Qed.

Lemma steady_try_catch {R A : Type} (body : M R A) (handler : Err -> M R A) :
  steady body -> (forall e, steady (handler e)) -> steady (try_catch body handler).
Proof.
  intros Hb Hh w. unfold try_catch. specialize (Hb w).
  destruct (body w) as [[a|r|e] w1]; simpl in *; try assumption.
  eapply grows_trans; [exact Hb|apply Hh].
Qed.

Lemma steady_try_finally {R A : Type} (body : M R A) (fin : M R unit) :
  steady body -> steady fin -> steady (try_finally body fin).
Proof.
  intros Hb Hf w. unfold try_finally. specialize (Hb w).
  destruct (body w) as [c w1]. simpl in Hb. specialize (Hf w1).
  destruct (fin w1) as [[a|r|e] w2]; simpl in *; eapply grows_trans; eassumption.
Qed.

Lemma steady_call {R R' : Type} (body : M R' R') :
  steady body -> steady (call (R:=R) body).
Proof.
  intros Hb w. unfold call. specialize (Hb w).
  destruct (body w) as [[a|r|e] w1]; simpl in *; assumption.
Qed.

Lemma steady_spawn {R : Type} (body : M unit unit) :
  steady body -> steady (spawn (R:=R) body).
Proof.
  intros Hb w. unfold spawn. specialize (Hb w).
  destruct (body w) as [[a|r|e] w1]; simpl in *; try assumption.
  eapply grows_trans; [exact Hb|apply (@steady_emit R)].
Qed.

Lemma steady_for_each {R A : Type} (l : list A) (f : A -> M R unit) :
  (forall a, steady (f a)) -> steady (for_each l f).
Proof.
  intros Hf. induction l as [|x t IH]; simpl; [apply steady_ret|].
  apply steady_bind; [apply Hf|intros _; exact IH].
Qed.

Lemma steady_when {R : Type} (c : bool) (m : M R unit) : steady m -> steady (when c m).
Proof. intros Hm. destruct c; simpl; [exact Hm|apply steady_ret]. Qed.

Lemma steady_get {R : Type} (v : JsVal) (k : string) : steady (@get World R v k).
Proof. destruct v; simpl; (apply steady_ret || apply steady_throw). Qed.

Create HintDb steady.
#[local] Hint Resolve steady_ret steady_throw steady_return steady_read
  steady_update_dom steady_emit steady_get steady_push : steady.

Ltac steady_step :=
  match goal with
  | |- steady (bind _ _) => apply steady_bind; [|intros ?]
  | |- steady (try_catch _ _) => apply steady_try_catch; [|intros ?]
  | |- steady (try_finally _ _) => apply steady_try_finally
  | |- steady (call _) => apply steady_call
  | |- steady (spawn _) => apply steady_spawn
  | |- steady (for_each _ _) => apply steady_for_each; intros ?
  | |- steady (when _ _) => apply steady_when
  | |- steady (update_globals _) =>
      apply steady_update_globals; intros ?; reflexivity
  | |- steady (if ?c then _ else _) => destruct c
  | |- steady (match ?x with _ => _ end) => destruct x
  | |- steady (let _ := _ in _) => cbv zeta
  | |- _ => solve [auto with steady]
  end.

Ltac steady_tac := repeat steady_step.

Lemma steady_showToast {R : Type} m t : steady (@showToast R m t).
Proof. unfold showToast. steady_tac. Qed.

Lemma steady_setApiCallState {R : Type} b : steady (@setApiCallState R b).
Proof.
  unfold setApiCallState, disableAllUIInteractions, enableAllUIInteractions.
  steady_tac.
Qed.

#[local] Hint Resolve steady_showToast steady_setApiCallState : steady.

Lemma steady_show_pagination {R : Type} : steady (@show_pagination R).
Proof. unfold show_pagination. steady_tac. Qed.

Lemma steady_sanitizeArxivId {R : Type} v : steady (@sanitizeArxivId R v).
Proof. unfold sanitizeArxivId, not_a_function. steady_tac. Qed.

#[local] Hint Resolve steady_show_pagination steady_sanitizeArxivId : steady.

Lemma steady_createPaperCard {R : Type} v : steady (@createPaperCard R v).
Proof. unfold createPaperCard, method_join, not_a_function. steady_tac. Qed.

#[local] Hint Resolve steady_createPaperCard : steady.

Lemma steady_displayResults {R : Type} v : steady (@displayResults R v).
Proof. unfold displayResults, method_startsWith, not_a_function. steady_tac. Qed.

Lemma steady_fetch {R : Type} env r : steady (@fetch env R r).
Proof. unfold fetch. steady_tac. Qed.

Lemma steady_json {R : Type} r : steady (@json R r).
Proof. unfold json. steady_tac. Qed.

#[local] Hint Resolve steady_displayResults steady_fetch steady_json : steady.

Lemma steady_fetchResults {R : Type} env : steady (@fetchResults env R).
Proof. unfold fetchResults. steady_tac. Qed.

#[local] Hint Resolve steady_fetchResults : steady.

Lemma steady_showSearchView {R : Type} env b : steady (@showSearchView env R b).
Proof. unfold showSearchView. steady_tac. Qed.

Lemma steady_showPaperView {R : Type} : steady (@showPaperView R).
Proof. unfold showPaperView. steady_tac. Qed.

Lemma steady_own_or_reference {R : Type} v k d : steady (@own_or_reference R v k d).
Proof. unfold own_or_reference. steady_tac. Qed.

#[local] Hint Resolve steady_showSearchView steady_showPaperView
  steady_own_or_reference : steady.

Lemma steady_displayPaper {R : Type} v : steady (@displayPaper R v).
Proof. unfold displayPaper, not_a_function. steady_tac. Qed.

Lemma steady_hasSummary {R : Type} v : steady (@hasSummary R v).
Proof. unfold hasSummary, method_trim, not_a_function. steady_tac. Qed.

Lemma steady_enqueuePaper {R : Type} env v : steady (@enqueuePaper env R v).
Proof. unfold enqueuePaper. steady_tac. Qed.

Lemma steady_pushState {R : Type} env u : steady (@pushState env R u).
Proof. unfold pushState. steady_tac. Qed.

Lemma steady_setButtonLoading {R : Type} b l : steady (@setButtonLoading R b l).
Proof. unfold setButtonLoading. steady_tac. Qed.

#[local] Hint Resolve steady_displayPaper steady_hasSummary steady_enqueuePaper
  steady_pushState steady_setButtonLoading : steady.

Lemma steady_processPaperSummary {R : Type} env v b :
  steady (@processPaperSummary env R v b).
Proof. unfold processPaperSummary, method_includes, not_a_function. steady_tac. Qed.

Lemma steady_fetchPaper {R : Type} env id : steady (@fetchPaper env R id).
Proof. unfold fetchPaper. steady_tac. Qed.

Lemma steady_displayUploadsList {R : Type} : steady (@displayUploadsList R).
Proof. unfold displayUploadsList. steady_tac. Qed.

#[local] Hint Resolve steady_processPaperSummary steady_fetchPaper
  steady_displayUploadsList : steady.

Lemma steady_showUploadsView {R : Type} : steady (@showUploadsView R).
Proof. unfold showUploadsView. steady_tac. Qed.

Lemma steady_checkPaperHashExists {R : Type} env h :
  steady (@checkPaperHashExists env R h).
Proof. unfold checkPaperHashExists. steady_tac. Qed.

Lemma steady_resetUploadSteps {R : Type} : steady (@resetUploadSteps R).
Proof. unfold resetUploadSteps. steady_tac. Qed.

Lemma steady_setUploadButtonLoading {R : Type} b : steady (@setUploadButtonLoading R b).
Proof. unfold setUploadButtonLoading. steady_tac. Qed.

Lemma steady_convertHtmlToPdfBlob {R : Type} env h :
  steady (@convertHtmlToPdfBlob env R h).
Proof. unfold convertHtmlToPdfBlob. steady_tac. Qed.

Lemma steady_addUploadToStorage {R : Type} u : steady (@addUploadToStorage R u).
Proof. unfold addUploadToStorage. steady_tac. Qed.

#[local] Hint Resolve steady_showUploadsView steady_checkPaperHashExists
  steady_resetUploadSteps steady_setUploadButtonLoading steady_convertHtmlToPdfBlob
  steady_addUploadToStorage : steady.

Lemma steady_existing_summary_found env m : steady (existing_summary_found env m).
Proof. unfold existing_summary_found. steady_tac. Qed.

#[local] Hint Resolve steady_existing_summary_found : steady.

Lemma steady_hash_check env b : steady (hash_check env b).
Proof. unfold hash_check. steady_tac. Qed.

#[local] Hint Resolve steady_hash_check : steady.

Lemma steady_uploadFile env : steady (uploadFile env).
Proof. unfold uploadFile. steady_tac. Qed.

Lemma steady_uploadFile_later {R : Type} f : steady (@uploadFile_later R f).
Proof. unfold uploadFile_later. steady_tac. Qed.

Lemma steady_handleSearch env : steady (handleSearch env).
Proof. unfold handleSearch. steady_tac. Qed.

Lemma steady_listener env ev w l : listener env ev w = Some l -> steady l.
Proof.
  intros Hl. destruct ev; simpl in Hl;
    try (injection Hl as <-);
    try (destruct (nth_error _ _) as [[c|cards]|] eqn:E; try discriminate;
         injection Hl as <-);
    try (destruct (nth_error _ _) as [up|] eqn:E; try discriminate;
         injection Hl as <-).
  all: try (apply steady_spawn; apply steady_handleSearch).
  all: unfold handleSortChange, handlePageChange, searchTab_click,
    uploadsTab_click, returnToSearchBtn_click, window_popstate,
    summarizeButton_click, uploadCard_click, uploadButton_click, no_keys;
    steady_tac.
Qed.

Lemma grows_reported w (r : Completion unit unit * World) :
  grows w (snd r) -> grows w (reported r).
Proof.
  destruct r as [[a|x|e] w1]; simpl; auto. intros H.
  eapply grows_trans; [exact H|]. apply (@steady_emit unit (UncaughtError e)).
Qed.

Lemma happen_grows env h w : grows w (happen env h w).
Proof.
  destruct h as [ev|f|f]; simpl.
  - unfold dispatch. destruct (listener env ev w) as [l|] eqn:El; [|apply grows_refl].
    pose proof (@steady_listener env ev w l El w) as Hk.
    change (grows w (reported (l w))). now apply grows_reported.
  - apply grows_reported. unfold uploadInput_change.
    eapply grows_trans; [|apply steady_spawn; apply steady_uploadFile].
    split; exists []; simpl; now rewrite app_nil_r.
  - apply grows_reported. apply steady_uploadFile_later.
Qed.

(** X24. Whatever happens on the page, the upload records already
    stored stay where they are, in their order: the list of uploads only
    grows at its end. The same holds of the effects logged so far. *)
Theorem uploads_only_appended (env : Env) (hs : list Happening) (w : World) :
  (exists l, myUploads (globals (happen_all env hs w)) = myUploads (globals w) ++ l)
  /\ (exists t, trace (happen_all env hs w) = trace w ++ t).
Proof.
  assert (G : grows w (happen_all env hs w)).
  { revert w. induction hs as [|h hs IH]; intros w; [apply grows_refl|].
    simpl. eapply grows_trans; [apply happen_grows|apply IH]. }
  destruct G as [Ht Hl]. split; assumption.
Qed.

(** ** The lock between events *)

Lemma settles_ret {R A : Type} (a : A) : settles (@ret World R A a).
Proof. intros w H. exact H. Qed.

Lemma settles_throw {R A : Type} (e : Err) : settles (@throw World R A e).
Proof. intros w H. exact H. Qed.

Lemma settles_return {R A : Type} (r : R) : settles (@return_ World R A r).
Proof. intros w H. exact H. Qed.

Lemma settles_read {R : Type} : settles (@read World R).
Proof. intros w H. exact H. Qed.

Lemma settles_update_dom {R : Type} (f : Dom -> Dom) : settles (@update_dom R f).
Proof. intros w H. exact H. Qed.

Lemma settles_emit {R : Type} (e : Effect) : settles (@emit R e).
Proof. intros w H. exact H. Qed.

Lemma settles_update_globals {R : Type} (f : Globals -> Globals) :
  (forall g, isApiCallInProgress (f g) = isApiCallInProgress g) ->
  settles (@update_globals R f).
Proof. intros Hf w H. unfold released in *. simpl. now rewrite Hf. Qed.

Lemma settles_bind {R A B : Type} (m : M R A) (k : A -> M R B) :
  settles m -> (forall a, settles (k a)) -> settles (bind m k).
Proof.
  intros Hm Hk w H. unfold bind. specialize (Hm w H).
  destruct (m w) as [[a|r|e] w1]; simpl in *; try assumption. now apply Hk.
Qed.

Lemma settles_bind_ret {R A B : Type} (a : A) (k : A -> M R B) :
  settles (k a) -> settles (bind (ret a) k).
Proof. intros Hk w H. unfold bind, ret. now apply Hk. Qed.

Lemma settles_try_catch {R A : Type} (body : M R A) (handler : Err -> M R A) :
  settles body -> (forall e, settles (handler e)) -> settles (try_catch body handler).
Proof.
  intros Hb Hh w H. unfold try_catch. specialize (Hb w H).
  destruct (body w) as [[a|r|e] w1]; simpl in *; try assumption. now apply Hh.
Qed.

Lemma settles_call {R R' : Type} (body : M R' R') :
  settles body -> settles (call (R:=R) body).
Proof.
  intros Hb w H. unfold call. specialize (Hb w H).
  destruct (body w) as [[a|r|e] w1]; simpl in *; assumption.
Qed.

Lemma settles_spawn {R : Type} (body : M unit unit) :
  settles body -> settles (spawn (R:=R) body).
Proof.
  intros Hb w H. unfold spawn. specialize (Hb w H).
  destruct (body w) as [[a|r|e] w1]; simpl in *; assumption.
Qed.

Lemma settles_for_each {R A : Type} (l : list A) (f : A -> M R unit) :
  (forall a, settles (f a)) -> settles (for_each l f).
Proof.
  intros Hf. induction l as [|x t IH]; simpl; [apply settles_ret|].
  apply settles_bind; [apply Hf|intros _; exact IH].
Qed.

Lemma settles_when {R : Type} (c : bool) (m : M R unit) :
  settles m -> settles (when c m).
Proof. intros Hm. destruct c; simpl; [exact Hm|apply settles_ret]. Qed.

Lemma settles_get {R : Type} (v : JsVal) (k : string) : settles (@get World R v k).
Proof. destruct v; simpl; (apply settles_ret || apply settles_throw). Qed.

(** The operations that take the lock give it back. *)
Lemma settles_fetchResults {R : Type} env : settles (@fetchResults env R).
Proof.
  intros w _. destruct (@fetchResults_releases R env w) as (w' & -> & H). exact H.
Qed.

Lemma settles_fetchPaper {R : Type} env id : settles (@fetchPaper env R id).
Proof.
  intros w _. destruct (@fetchPaper_releases R env id w) as (w' & -> & H). exact H.
Qed.

Lemma settles_showToast {R : Type} m t : settles (@showToast R m t).
Proof. unfold showToast. apply settles_emit. Qed.

Create HintDb settles.
#[local] Hint Resolve settles_ret settles_throw settles_return settles_read
  settles_update_dom settles_emit settles_get settles_fetchResults
  settles_fetchPaper settles_showToast : settles.

Ltac settles_step :=
  match goal with
  | |- settles (bind _ _) => apply settles_bind; [|intros ?]
  | |- settles (try_catch _ _) => apply settles_try_catch; [|intros ?]
  | |- settles (call _) => apply settles_call
  | |- settles (spawn _) => apply settles_spawn
  | |- settles (for_each _ _) => apply settles_for_each; intros ?
  | |- settles (when _ _) => apply settles_when
  | |- settles (update_globals _) =>
      apply settles_update_globals; intros ?; reflexivity
  | |- settles (if ?c then _ else _) => destruct c
  | |- settles (match ?x with _ => _ end) => destruct x
  | |- settles (let _ := _ in _) => cbv zeta
  | |- _ => solve [auto with settles]
  end.

Ltac settles_tac := repeat settles_step.

Lemma settles_show_pagination {R : Type} : settles (@show_pagination R).
Proof. unfold show_pagination. settles_tac. Qed.

#[local] Hint Resolve settles_show_pagination : settles.

Lemma settles_showSearchView {R : Type} env b : settles (@showSearchView env R b).
Proof. unfold showSearchView. settles_tac. Qed.

Lemma settles_displayUploadsList {R : Type} : settles (@displayUploadsList R).
Proof. unfold displayUploadsList. settles_tac. Qed.

#[local] Hint Resolve settles_showSearchView settles_displayUploadsList : settles.

Lemma settles_showUploadsView {R : Type} : settles (@showUploadsView R).
Proof. unfold showUploadsView. settles_tac. Qed.

Lemma settles_pushState {R : Type} env u : settles (@pushState env R u).
Proof. unfold pushState. settles_tac. Qed.

Lemma settles_setButtonLoading {R : Type} b l : settles (@setButtonLoading R b l).
Proof. unfold setButtonLoading. settles_tac. Qed.

Lemma settles_resetUploadSteps {R : Type} : settles (@resetUploadSteps R).
Proof. unfold resetUploadSteps. settles_tac. Qed.

#[local] Hint Resolve settles_showUploadsView settles_pushState
  settles_setButtonLoading settles_resetUploadSteps : settles.

Lemma settles_uploadFile_later {R : Type} f : settles (@uploadFile_later R f).
Proof. unfold uploadFile_later. settles_tac. Qed.

Lemma settles_processPaperSummary {R : Type} env v b :
  identified v = true -> settles (@processPaperSummary env R v b).
Proof.
  intros Hid w _. destruct v as [| |x|z|s|l|fields]; try discriminate Hid.
  destruct (@processPaperSummary_releases R env fields b w) as (w' & -> & H);
    [|exact H].
  unfold identified in Hid. apply orb_true_iff in Hid as [Hid|Hid]; [now left|].
  right. destruct (lookup (js "arxiv_id") fields); try discriminate. eauto.
Qed.

Lemma settles_uploadFile env : settles (uploadFile env).
Proof.
  intros w H. destruct (uploadInput_files (dom w)) as [f|] eqn:Hf.
  - destruct (@uploadFile_releases env w f Hf) as (w' & -> & Hr). exact Hr.
  - unfold uploadFile, call, bind, read, showToast, emit, return_. rewrite Hf.
    exact H.
Qed.

Lemma settles_listener env ev w l :
  target_identified ev w = true -> listener env ev w = Some l -> settles l.
Proof.
  intros Ht Hl. destruct ev; simpl in Hl, Ht;
    try (injection Hl as <-).
  all: try (destruct (nth_error _ _) as [[c|cards]|] eqn:E; try discriminate;
            injection Hl as <-).
  all: try (destruct (nth_error _ _) as [up|] eqn:E; try discriminate;
            injection Hl as <-).
  all: unfold handleSearch, handleSortChange, handlePageChange, searchTab_click,
    uploadsTab_click, returnToSearchBtn_click, window_popstate,
    uploadCard_click, uploadButton_click.
  all: try solve [settles_tac].
  - (* the summarize button *)
    unfold summarizeButton_click, no_keys.
    apply settles_call. apply settles_bind; [auto with settles|intros w0].
    apply settles_bind; [settles_tac|intros _].
    apply settles_bind; [auto with settles|intros _]. cbv zeta.
    destruct (data_paper (card_button c)) as [| |x|z|s|l0|fields] eqn:Ed;
      try discriminate Ht.
    destruct fields as [|kv fields]; [discriminate Ht|].
    apply settles_bind_ret. cbn [List.length Nat.eqb].
    apply settles_spawn. now apply settles_processPaperSummary.
  - (* a card of the uploads list *)
    apply settles_bind; [auto with settles|intros w0].
    destruct (negb (isApiCallInProgress (globals w0))); [|auto with settles].
    apply settles_spawn. now apply settles_processPaperSummary.
Qed.

Lemma released_reported (r : Completion unit unit * World) :
  released (snd r) -> released (reported r).
Proof. destruct r as [[a|x|e] w]; simpl; auto. Qed.

(** X25. The lock is free between events: whatever the user does, a
    file chosen for upload and the closing of the upload dialog included, a
    page that was interactive before is interactive again afterwards, as
    long as the card clicked names its paper. *)
Theorem lock_is_free_between_events (env : Env) (h : Happening) (w : World) :
  released w ->
  match h with
  | UserDoes ev => target_identified ev w = true
  | _ => True
  end ->
  released (happen env h w).
Proof.
  intros H Ht. destruct h as [ev|f|f]; simpl.
  - unfold dispatch. destruct (listener env ev w) as [l|] eqn:El; [|exact H].
    pose proof (@settles_listener env ev w l Ht El w H) as Hk.
    change (released (reported (l w))). now apply released_reported.
  - apply released_reported. unfold uploadInput_change.
    apply settles_spawn; [apply settles_uploadFile|exact H].
  - apply released_reported. apply settles_uploadFile_later. exact H.
Qed.

Lemma lock_is_free_between_events_witness :
  released
    (happen library (UserDoes (UploadCardClick 0))
       (snd (showUploadsView (R:=unit) one_upload_world))).
Proof.
  apply (@lock_is_free_between_events library (UserDoes (UploadCardClick 0))
           (snd (showUploadsView (R:=unit) one_upload_world))).
  - vm_compute. reflexivity.
  - vm_compute. reflexivity.
Defined.

(** ** The first version of the script: requests and polls *)

Ltac run_poll :=
  unfold FirstScript.pollForSummary, call, try_catch, FirstScript.fetch_paper,
    FirstScript.json, FirstScript.showError, FirstScript.setTimeout_poll, bind,
    when, return_, throw;
  repeat (progress (cbv beta iota; cbn [fst snd get]; unfold ret)).

(** One run of the poll never raises, whatever the reply: it sends exactly
    one query, and it schedules at most one further run, for the same
    identifier after 5000 ms. *)
Lemma pollForSummary_runs (arxivId : JsVal) (reply : FetchReply)
    (p : FirstScript.Page) :
  exists p',
    FirstScript.pollForSummary arxivId reply p = (Normal tt, p')
    /\ FirstScript.requests p' = FirstScript.requests p ++ [arxivId]
    /\ (FirstScript.timers p' = FirstScript.timers p
        \/ FirstScript.timers p' = FirstScript.timers p ++ [(5000%Z, arxivId)]).
Proof.
  run_poll.
  destruct reply as [e|ok [data|]]; cbv beta iota; cbn [fst snd];
    try (eexists; split; [reflexivity|]; split; [reflexivity|left; reflexivity]).
  destruct data as [| |b|z|s|l|fields]; cbn [get]; unfold ret, throw;
    cbv beta iota; cbn [truthy];
    try (eexists; split; [reflexivity|]; split; [reflexivity|left; reflexivity]).
  destruct (truthy (lookup (js "error") fields)); cbv beta iota;
    try (eexists; split; [reflexivity|]; split; [reflexivity|left; reflexivity]).
  destruct (truthy (lookup (js "processing") fields)); cbv beta iota;
    try (eexists; split; [reflexivity|]; split; [reflexivity|right; reflexivity]).
  destruct (truthy (lookup (js "summary") fields)); cbv beta iota.
  - unfold method_join, not_a_function, throw, ret.
    destruct (lookup (js "authors") fields); cbv beta iota;
      (eexists; split; [reflexivity|]; split; [reflexivity|left; reflexivity]).
  - destruct (truthy (lookup (js "processing_error") fields)); cbv beta iota;
      (eexists; split; [reflexivity|]; split; [reflexivity|left; reflexivity]).
Qed.

Lemma poll_loop_cons (arxivId : JsVal) (reply : FetchReply) (rest : list FetchReply)
    (p : FirstScript.Page) :
  FirstScript.poll_loop arxivId (reply :: rest) p
  = let p0 := FirstScript.mkPage (FirstScript.loadingIndicator p)
                (FirstScript.summaryContent p) (FirstScript.errorMessage p)
                (FirstScript.errorModal p) [] (FirstScript.requests p) in
    let p1 := snd (FirstScript.pollForSummary arxivId reply p0) in
    match FirstScript.timers p1 with
    | [] => p1
    | _ :: _ => FirstScript.poll_loop arxivId rest p1
    end.
Proof. reflexivity. Qed.

(** X26. The poll loop sends one query for each reply that it
    consumes, all for the same identifier, and nothing else: after a first
    reply and any further ones, the queries sent are one for the first reply
    and one for each of the [k] further replies consumed; at the end no
    timer is set, or one for the same identifier after 5000 ms. *)
Theorem poll_loop_one_query_per_reply (arxivId : JsVal) (reply : FetchReply)
    (rest : list FetchReply) (p : FirstScript.Page) :
  exists k,
    (k <= List.length rest)%nat
    /\ FirstScript.requests (FirstScript.poll_loop arxivId (reply :: rest) p)
       = FirstScript.requests p ++ arxivId :: repeat arxivId k
    /\ (FirstScript.timers (FirstScript.poll_loop arxivId (reply :: rest) p) = []
        \/ FirstScript.timers (FirstScript.poll_loop arxivId (reply :: rest) p)
           = [(5000%Z, arxivId)]).
Proof.
  revert reply p. induction rest as [|next rest IH]; intros reply p;
    rewrite poll_loop_cons; cbv zeta;
    match goal with |- context [FirstScript.pollForSummary arxivId reply ?q] =>
      destruct (pollForSummary_runs arxivId reply q) as (p1 & E & Hr & Ht);
      rewrite E; cbn [snd]
    end;
    cbn [FirstScript.requests FirstScript.timers app] in Hr, Ht.
  - exists 0%nat. split; [reflexivity|]. cbn [repeat].
    destruct Ht as [Ht|Ht]; rewrite Ht; cbn [FirstScript.poll_loop];
      (split; [exact Hr|]); rewrite Ht; auto.
  - destruct Ht as [Ht|Ht]; rewrite Ht.
    + exists 0%nat. split; [cbn; lia|]. split; [exact Hr|]. left. exact Ht.
    + destruct (IH next p1) as (k & Hk & Hreq & Htim).
      exists (S k). split; [cbn [List.length]; lia|].
      split; [|exact Htim].
      rewrite Hreq, Hr, <- app_assoc. reflexivity.
Qed.

(** X27. A reply that carries a record with none of the four fields
    ends the poll in silence: no further run is scheduled, nothing is shown
    and no error is raised, so that the loading indicator stays as it was. *)
Theorem poll_stops_in_silence (arxivId : JsVal) (ok : bool)
    (fields : list (jsstring * JsVal)) (p : FirstScript.Page) :
  says_nothing fields = true ->
  FirstScript.pollForSummary arxivId (Reply ok (Some (JObj fields))) p
  = (Normal tt,
     FirstScript.mkPage (FirstScript.loadingIndicator p)
       (FirstScript.summaryContent p) (FirstScript.errorMessage p)
       (FirstScript.errorModal p) (FirstScript.timers p)
       (FirstScript.requests p ++ [arxivId])).
Proof.
  unfold says_nothing. intros H.
  apply andb_true_iff in H as [H H4]. apply andb_true_iff in H as [H H3].
  apply andb_true_iff in H as [H1 H2].
  apply negb_true_iff in H1, H2, H3, H4.
  run_poll. rewrite H1. cbv beta iota. rewrite H2. cbv beta iota.
  rewrite H3. cbv beta iota. rewrite H4. reflexivity.
Qed.

Lemma poll_stops_in_silence_witness :
  let p := FirstScript.polling_page in
  let arxivId := JStr (js "2101.00001") in
  FirstScript.pollForSummary arxivId
    (Reply true (Some (JObj [(js "message", JStr (js "No data found"))]))) p
  = (Normal tt,
     FirstScript.mkPage (FirstScript.loadingIndicator p)
       (FirstScript.summaryContent p) (FirstScript.errorMessage p)
       (FirstScript.errorModal p) (FirstScript.timers p)
       (FirstScript.requests p ++ [arxivId])).
Proof.
  apply (@poll_stops_in_silence (JStr (js "2101.00001")) true
           [(js "message", JStr (js "No data found"))] FirstScript.polling_page).
  vm_compute. reflexivity.
Defined.

(** X28. The poll has no retry limit: as long as the backend answers
    that the paper is in progress, every reply is followed by a further
    query, however many there are, and the page shows neither a summary nor
    an error. *)
Theorem poll_has_no_retry_limit (arxivId : JsVal) (ok : bool)
    (fields : list (jsstring * JsVal)) (n : nat) (p : FirstScript.Page) :
  truthy (lookup (js "error") fields) = false ->
  truthy (lookup (js "processing") fields) = true ->
  let p' := FirstScript.poll_loop arxivId
              (repeat (Reply ok (Some (JObj fields))) (S n)) p in
  FirstScript.requests p' = FirstScript.requests p ++ repeat arxivId (S n)
  /\ FirstScript.timers p' = [(5000%Z, arxivId)]
  /\ FirstScript.summaryContent p' = FirstScript.summaryContent p
  /\ FirstScript.errorMessage p' = FirstScript.errorMessage p
  /\ FirstScript.loadingIndicator p' = FirstScript.loadingIndicator p.
Proof.
  intros He Hp.
  assert (E : forall q,
             FirstScript.pollForSummary arxivId (Reply ok (Some (JObj fields))) q
             = (Normal tt,
                FirstScript.mkPage (FirstScript.loadingIndicator q)
                  (FirstScript.summaryContent q) (FirstScript.errorMessage q)
                  (FirstScript.errorModal q)
                  (FirstScript.timers q ++ [(5000%Z, arxivId)])
                  (FirstScript.requests q ++ [arxivId]))).
  { intros q. run_poll. rewrite He. cbv beta iota. rewrite Hp. reflexivity. }
  revert p. induction n as [|n IH]; intros p.
  - cbn [repeat]. rewrite poll_loop_cons. cbv zeta. rewrite E.
    cbn [snd FirstScript.timers FirstScript.requests FirstScript.summaryContent
         FirstScript.errorMessage FirstScript.loadingIndicator app
         FirstScript.poll_loop].
    repeat split.
  - change (repeat (Reply ok (Some (JObj fields))) (S (S n)))
      with (Reply ok (Some (JObj fields))
            :: repeat (Reply ok (Some (JObj fields))) (S n)).
    rewrite poll_loop_cons. cbv zeta. rewrite E.
    cbn [snd FirstScript.timers app].
    match goal with |- context [FirstScript.poll_loop arxivId _ ?q] =>
      destruct (IH q) as (I1 & I2 & I3 & I4 & I5) end.
    rewrite I1, I2, I3, I4, I5.
    cbn [FirstScript.requests FirstScript.summaryContent FirstScript.errorMessage
         FirstScript.loadingIndicator].
    rewrite <- app_assoc. cbn [app repeat]. repeat split.
Qed.

Lemma poll_has_no_retry_limit_witness :
  let arxivId := JStr (js "2101.00001") in
  let p := FirstScript.polling_page in
  let p' := FirstScript.poll_loop arxivId
              (repeat (Reply true (Some (JObj [(js "processing", JBool true)]))) 4) p in
  FirstScript.requests p' = FirstScript.requests p ++ repeat arxivId 4
  /\ FirstScript.timers p' = [(5000%Z, arxivId)]
  /\ FirstScript.summaryContent p' = FirstScript.summaryContent p
  /\ FirstScript.errorMessage p' = FirstScript.errorMessage p
  /\ FirstScript.loadingIndicator p' = FirstScript.loadingIndicator p.
Proof.
  apply (@poll_has_no_retry_limit (JStr (js "2101.00001")) true
           [(js "processing", JBool true)] 3 FirstScript.polling_page).
  - vm_compute. reflexivity.
  - vm_compute. reflexivity.
Defined.

Ltac run_request :=
  unfold FirstRequest.requestSummary, call, try_catch, FirstRequest.fetch_summarize,
    FirstRequest.on_page, FirstRequest.unawaited, FirstScript.json,
    FirstScript.showError, bind, when, return_, throw;
  repeat (progress (cbv beta iota;
                    cbn [fst snd get FirstRequest.page FirstRequest.summarySection
                         FirstRequest.submissions];
                    unfold ret)).

(** X29. In the first script a failed submission is shown to the
    user once and starts no poll: the error modal opens with the notice (the
    error of the backend when there is one), no query for the paper is sent
    and no timer is set; the loading indicator stays on. *)
Theorem requestSummary_surfaces_failure (arxivId pdfUrl : JsVal)
    (reply pollReply : FetchReply) (message : JsVal) (s : FirstRequest.Screen) :
  FirstRequest.submission_fails reply message ->
  exists s',
    FirstRequest.requestSummary arxivId pdfUrl reply pollReply s = (Normal tt, s')
    /\ FirstRequest.submissions s'
       = FirstRequest.submissions s ++ [(arxivId, pdfUrl)]
    /\ FirstScript.errorMessage (FirstRequest.page s') = Some message
    /\ FirstScript.errorModal (FirstRequest.page s') = d_block
    /\ FirstScript.requests (FirstRequest.page s')
       = FirstScript.requests (FirstRequest.page s)
    /\ FirstScript.timers (FirstRequest.page s')
       = FirstScript.timers (FirstRequest.page s)
    /\ FirstScript.loadingIndicator (FirstRequest.page s') = d_flex.
Proof.
  intros [[-> [[e ->]|[[ok ->]|[ok ->]]]]|(ok & fields & -> & <- & Ht)];
    run_request; try (rewrite Ht; run_request);
    (eexists; split; [reflexivity|]); repeat split.
Qed.

Lemma requestSummary_surfaces_failure_witness :
  let arxivId := JStr (js "2101.00001") in
  let pdfUrl := JStr (js "https://arxiv.org/pdf/2101.00001") in
  let s := FirstRequest.initial_screen in
  exists s',
    FirstRequest.requestSummary arxivId pdfUrl
      (Reply true (Some (JObj [(js "error", JStr (js "queue unavailable"))])))
      (NetFail failed) s = (Normal tt, s')
    /\ FirstRequest.submissions s'
       = FirstRequest.submissions s ++ [(arxivId, pdfUrl)]
    /\ FirstScript.errorMessage (FirstRequest.page s')
       = Some (JStr (js "queue unavailable"))
    /\ FirstScript.errorModal (FirstRequest.page s') = d_block
    /\ FirstScript.requests (FirstRequest.page s')
       = FirstScript.requests (FirstRequest.page s)
    /\ FirstScript.timers (FirstRequest.page s')
       = FirstScript.timers (FirstRequest.page s)
    /\ FirstScript.loadingIndicator (FirstRequest.page s') = d_flex.
Proof.
  apply (@requestSummary_surfaces_failure (JStr (js "2101.00001"))
           (JStr (js "https://arxiv.org/pdf/2101.00001"))
           (Reply true (Some (JObj [(js "error", JStr (js "queue unavailable"))])))
           (NetFail failed) (JStr (js "queue unavailable"))
           FirstRequest.initial_screen).
  right. exists true, [(js "error", JStr (js "queue unavailable"))].
  split; [reflexivity|]. split; vm_compute; reflexivity.
Defined.

(** X30. In the first script a submission that the backend
    accepts starts the poll: one query for the same identifier follows the
    one submission, with the section of the summary shown. *)
Theorem requestSummary_starts_the_poll (arxivId pdfUrl : JsVal)
    (pollReply : FetchReply) (ok : bool) (fields : list (jsstring * JsVal))
    (s : FirstRequest.Screen) :
  truthy (lookup (js "error") fields) = false ->
  exists s',
    FirstRequest.requestSummary arxivId pdfUrl (Reply ok (Some (JObj fields)))
      pollReply s = (Normal tt, s')
    /\ FirstRequest.submissions s'
       = FirstRequest.submissions s ++ [(arxivId, pdfUrl)]
    /\ FirstScript.requests (FirstRequest.page s')
       = FirstScript.requests (FirstRequest.page s) ++ [arxivId]
    /\ FirstRequest.summarySection s' = d_block.
Proof.
  intros He. run_request. rewrite He. cbv beta iota.
  match goal with |- context [FirstScript.pollForSummary arxivId pollReply ?p] =>
    destruct (pollForSummary_runs arxivId pollReply p) as (p' & -> & Hr & _)
  end.
  cbv beta iota. eexists. split; [reflexivity|].
  cbn [FirstRequest.page FirstRequest.summarySection FirstRequest.submissions
       FirstScript.requests] in *.
  rewrite Hr. repeat split.
Qed.

Lemma requestSummary_starts_the_poll_witness :
  let arxivId := JStr (js "2101.00001") in
  let pdfUrl := JStr (js "https://arxiv.org/pdf/2101.00001") in
  let s := FirstRequest.initial_screen in
  exists s',
    FirstRequest.requestSummary arxivId pdfUrl
      (Reply true (Some (JObj [(js "message", JStr (js "queued"))])))
      (Reply true (Some PollRule.ready_record)) s = (Normal tt, s')
    /\ FirstRequest.submissions s'
       = FirstRequest.submissions s ++ [(arxivId, pdfUrl)]
    /\ FirstScript.requests (FirstRequest.page s')
       = FirstScript.requests (FirstRequest.page s) ++ [arxivId]
    /\ FirstRequest.summarySection s' = d_block.
Proof.
  apply (@requestSummary_starts_the_poll (JStr (js "2101.00001"))
           (JStr (js "https://arxiv.org/pdf/2101.00001"))
           (Reply true (Some PollRule.ready_record)) true
           [(js "message", JStr (js "queued"))] FirstRequest.initial_screen).
  vm_compute. reflexivity.
Defined.
